(** * linenoise: a shallow embedding of [linenoise.c] and its properties

    The C library is modelled function by function.  A [char] is its
    unsigned byte value, a C string is the list of its bytes without the
    terminating NUL, an allocation is the list of its bytes, and the unsigned
    [size_t] fields of the session wrap around at [2^64].  Code that can
    leave the defined behaviour of C (an access outside an allocation, a
    division by zero) or that can loop for ever returns an [outcome]. *)

From Stdlib Require Import ZArith Lia String Ascii DecimalString.
From stdpp Require Import list.

Local Open Scope Z_scope.

(** ** Machine arithmetic *)

Module C.

(** [size_t] is 64 bits wide. *)
Definition SIZE_MAX1 : Z := 2 ^ 64.

(** Conversion to [size_t]: the value modulo [2^64]. *)
Definition size_t (x : Z) : Z := x mod SIZE_MAX1.

(** Conversion to [int]: the low 32 bits, read as two's complement. *)
Definition int (x : Z) : Z := (x + 2 ^ 31) mod 2 ^ 32 - 2 ^ 31.

(** [char] is signed on the platforms the library targets: a byte is
    negative when its top bit is set. *)
Definition char_negative (b : Z) : bool := 128 <=? b mod 256.

(** Conversion of an [int] to [char], kept as the unsigned byte. *)
Definition char (x : Z) : Z := x mod 256.

Definition ENOTTY : Z := 25.
Definition EAGAIN : Z := 11.
Definition EINVAL : Z := 22.

End C.

(** ** Outcomes of C code *)

Inductive outcome (A : Type) : Type :=
| Done (a : A)      (* the code returns normally *)
| Undefined         (* the code leaves the defined behaviour of C *)
| Diverges.         (* the code never returns *)

Arguments Done {A} a.
Arguments Undefined {A}.
Arguments Diverges {A}.

Definition obind {A B : Type} (m : outcome A) (k : A -> outcome B) : outcome B :=
  match m with
  | Done a => k a
  | Undefined => Undefined
  | Diverges => Diverges
  end.

Notation "'do' x <- m ; k" := (obind m (fun x => k))
  (at level 20, x name, m at level 100, k at level 200).
Notation "'do' ' p <- m ; k" := (obind m (fun x => let 'p := x in k))
  (at level 20, p pattern, m at level 100, k at level 200).

(** ** Bytes, strings and allocations *)

Definition bytes_of_string (s : string) : list Z :=
  map (fun a => Z.of_N (N_of_ascii a)) (list_ascii_of_string s).

(** [printf]'s [%d]. *)
Definition dec (z : Z) : list Z :=
  bytes_of_string (NilZero.string_of_int (Z.to_int z)).

Module Mem.

Definition size (m : list Z) : Z := Z.of_nat (length m).

Definition in_bounds (m : list Z) (i : Z) : bool := (0 <=? i) && (i <? size m).

(** [m[i]] *)
Definition load (m : list Z) (i : Z) : outcome Z :=
  if in_bounds m i then Done (nth (Z.to_nat i) m 0) else Undefined.

(** [m[i] = v] *)
Definition store (m : list Z) (i v : Z) : outcome (list Z) :=
  if in_bounds m i then Done (<[Z.to_nat i := v]> m) else Undefined.

(** [memmove(m + dst, m + src, n)] inside one allocation. *)
Definition memmove (m : list Z) (dst src n : Z) : outcome (list Z) :=
  if (0 <=? dst) && (0 <=? src) && (0 <=? n)
     && (dst + n <=? size m) && (src + n <=? size m)
  then Done (take (Z.to_nat dst) m
             ++ take (Z.to_nat n) (drop (Z.to_nat src) m)
             ++ drop (Z.to_nat (dst + n)) m)
  else Undefined.

(** [memset(m, c, n)] *)
Definition memset (m : list Z) (c n : Z) : outcome (list Z) :=
  if (0 <=? n) && (n <=? size m)
  then Done (replicate (Z.to_nat n) c ++ drop (Z.to_nat n) m)
  else Undefined.

(** The bytes before the first NUL, when there is one. *)
Fixpoint until_nul (m : list Z) : option (list Z) :=
  match m with
  | [] => None
  | b :: rest =>
      if b =? 0 then Some []
      else match until_nul rest with
           | Some s => Some (b :: s)
           | None => None
           end
  end.

(** The C string that starts at [m]; reading past the allocation is
    undefined. *)
Definition cstr (m : list Z) : outcome (list Z) :=
  match until_nul m with
  | Some s => Done s
  | None => Undefined
  end.

(** [strlen(m)] *)
Definition strlen (m : list Z) : outcome Z :=
  do s <- cstr m; Done (Z.of_nat (length s)).

(** [strncpy(m, s, n)]: the first [n] bytes of [s], padded with NULs up to
    [n] bytes. *)
Definition strncpy (m : list Z) (s : list Z) (n : Z) : outcome (list Z) :=
  if (0 <=? n) && (n <=? size m)
  then Done (take (Z.to_nat n) (s ++ replicate (Z.to_nat n) 0)
             ++ drop (Z.to_nat n) m)
  else Undefined.

(** [snprintf(m, n, "%s", s)]: at most [n - 1] bytes of [s] and a NUL; the
    value returned is the length of [s]. *)
Definition snprintf_s (m : list Z) (n : Z) (s : list Z) : outcome (Z * list Z) :=
  if n =? 0 then Done (C.int (Z.of_nat (length s)), m)
  else if (0 <? n) && (n <=? size m)
  then let body := take (Z.to_nat (n - 1)) s in
       Done (C.int (Z.of_nat (length s)),
             body ++ [0] ++ drop (S (length body)) m)
  else Undefined.

End Mem.

(** ** The terminal and the process environment *)

(** [struct termios]: the four flag words and the control characters. *)
Record termios : Type := {
  c_iflag : Z;
  c_oflag : Z;
  c_cflag : Z;
  c_lflag : Z;
  c_cc : list Z
}.

(** The flag bits and indices of [<termios.h>] (Linux values). *)
Module Termios.
Definition BRKINT : Z := 2.
Definition ICRNL : Z := 256.
Definition INPCK : Z := 16.
Definition ISTRIP : Z := 32.
Definition IXON : Z := 1024.
Definition OPOST : Z := 1.
Definition CS8 : Z := 48.
Definition ECHO : Z := 8.
Definition ICANON : Z := 2.
Definition IEXTEN : Z := 32768.
Definition ISIG : Z := 1.
Definition VTIME : nat := 5%nat.
Definition VMIN : nat := 6%nat.

(** [flags &= ~bits] on a 32-bit flag word. *)
Definition clear (flags bits : Z) : Z := Z.land flags (Z.lxor bits (2 ^ 32 - 1)).
(** [flags |= bits] *)
Definition set (flags bits : Z) : Z := Z.lor flags bits.
End Termios.

(** One event on the input descriptor: a byte, or a failing [read]. *)
Inductive rd_event : Type :=
| RdByte (b : Z)
| RdError.

Inductive rd_result : Type :=
| RdGot (b : Z)
| RdEof
| RdFail.

(** What the library sees of the outside.  [w_in] is what [read(ifd)] will
    deliver (at its end [read] returns 0); [w_out] and [w_err] collect what
    was written to [ofd] and [efd]; [w_wr] says, for the coming [write]s to
    [ofd], whether each succeeds (past its end they all do). *)
Record world : Type := {
  w_isatty : bool;
  w_attr : termios;
  w_tcget_ok : bool;
  w_tcset_ok : bool;
  w_in : list rd_event;
  w_out : list Z;
  w_err : list Z;
  w_wr : list bool;
  w_term : option (list Z);
  w_stdin : list Z;
  w_errno : Z
}.

Definition with_attr (w : world) (a : termios) : world :=
  {| w_isatty := w_isatty w; w_attr := a; w_tcget_ok := w_tcget_ok w;
     w_tcset_ok := w_tcset_ok w; w_in := w_in w; w_out := w_out w;
     w_err := w_err w; w_wr := w_wr w; w_term := w_term w;
     w_stdin := w_stdin w; w_errno := w_errno w |}.

Definition with_in (w : world) (i : list rd_event) : world :=
  {| w_isatty := w_isatty w; w_attr := w_attr w; w_tcget_ok := w_tcget_ok w;
     w_tcset_ok := w_tcset_ok w; w_in := i; w_out := w_out w;
     w_err := w_err w; w_wr := w_wr w; w_term := w_term w;
     w_stdin := w_stdin w; w_errno := w_errno w |}.

Definition with_out (w : world) (o : list Z) (wr : list bool) : world :=
  {| w_isatty := w_isatty w; w_attr := w_attr w; w_tcget_ok := w_tcget_ok w;
     w_tcset_ok := w_tcset_ok w; w_in := w_in w; w_out := o;
     w_err := w_err w; w_wr := wr; w_term := w_term w;
     w_stdin := w_stdin w; w_errno := w_errno w |}.

Definition with_err (w : world) (e : list Z) : world :=
  {| w_isatty := w_isatty w; w_attr := w_attr w; w_tcget_ok := w_tcget_ok w;
     w_tcset_ok := w_tcset_ok w; w_in := w_in w; w_out := w_out w;
     w_err := e; w_wr := w_wr w; w_term := w_term w;
     w_stdin := w_stdin w; w_errno := w_errno w |}.

Definition with_stdin (w : world) (i : list Z) : world :=
  {| w_isatty := w_isatty w; w_attr := w_attr w; w_tcget_ok := w_tcget_ok w;
     w_tcset_ok := w_tcset_ok w; w_in := w_in w; w_out := w_out w;
     w_err := w_err w; w_wr := w_wr w; w_term := w_term w;
     w_stdin := i; w_errno := w_errno w |}.

Definition with_errno (w : world) (e : Z) : world :=
  {| w_isatty := w_isatty w; w_attr := w_attr w; w_tcget_ok := w_tcget_ok w;
     w_tcset_ok := w_tcset_ok w; w_in := w_in w; w_out := w_out w;
     w_err := w_err w; w_wr := w_wr w; w_term := w_term w;
     w_stdin := w_stdin w; w_errno := e |}.

Module Sys.

(** [read(ifd, &c, 1)]: one byte stored (the call returns 1), the end of
    the input (0), or failure (-1). *)
Definition read (w : world) : rd_result * world :=
  match w_in w with
  | [] => (RdEof, w)
  | RdByte b :: rest => (RdGot b, with_in w rest)
  | RdError :: rest => (RdFail, with_in w rest)
  end.

(** [write(ofd, bytes, n)]: all of it or failure. *)
Definition write (w : world) (bytes : list Z) : Z * world :=
  match w_wr w with
  | false :: wr => (-1, with_out w (w_out w) wr)
  | true :: wr => (Z.of_nat (length bytes), with_out w (w_out w ++ bytes) wr)
  | [] => (Z.of_nat (length bytes), with_out w (w_out w ++ bytes) [])
  end.

(** [dprintf(efd, ...)] *)
Definition write_err (w : world) (bytes : list Z) : world :=
  with_err w (w_err w ++ bytes).

(** [tcgetattr(ifd, &t)] *)
Definition tcgetattr (w : world) : option termios :=
  if w_tcget_ok w then Some (w_attr w) else None.

(** [tcsetattr(ifd, TCSAFLUSH, &t)] *)
Definition tcsetattr (w : world) (t : termios) : Z * world :=
  if w_tcset_ok w then (0, with_attr w t) else (-1, w).

End Sys.

(** ** The session

    [struct LinenoiseState].  The array [history] and its count
    [history_len] are one field here: the list of the live entries
    [history[0 .. history_len)], oldest first; the array has
    [history_max_len] slots. *)
Record LinenoiseState : Type := {
  ifd : Z;
  ofd : Z;
  efd : Z;
  buf : list Z;
  buflen : Z;
  prompt : list Z;
  plen : Z;
  pos : Z;
  oldpos : Z;
  len : Z;
  cols : Z;
  maxrows : Z;
  history_index : Z;
  orig_termios : termios;
  rawmode : bool;
  mlmode : bool;
  nonblock : bool;
  history_max_len : Z;
  history : list (list Z)
}.

Definition history_len (l : LinenoiseState) : Z := Z.of_nat (length (history l)).

Definition set_buf (l : LinenoiseState) (v : list Z) : LinenoiseState :=
  {| ifd := ifd l; ofd := ofd l; efd := efd l; buf := v;
     buflen := buflen l; prompt := prompt l; plen := plen l; pos := pos l;
     oldpos := oldpos l; len := len l; cols := cols l;
     maxrows := maxrows l; history_index := history_index l;
     orig_termios := orig_termios l; rawmode := rawmode l;
     mlmode := mlmode l; nonblock := nonblock l;
     history_max_len := history_max_len l; history := history l |}.

Definition set_pos (l : LinenoiseState) (v : Z) : LinenoiseState :=
  {| ifd := ifd l; ofd := ofd l; efd := efd l; buf := buf l;
     buflen := buflen l; prompt := prompt l; plen := plen l; pos := v;
     oldpos := oldpos l; len := len l; cols := cols l;
     maxrows := maxrows l; history_index := history_index l;
     orig_termios := orig_termios l; rawmode := rawmode l;
     mlmode := mlmode l; nonblock := nonblock l;
     history_max_len := history_max_len l; history := history l |}.

Definition set_oldpos (l : LinenoiseState) (v : Z) : LinenoiseState :=
  {| ifd := ifd l; ofd := ofd l; efd := efd l; buf := buf l;
     buflen := buflen l; prompt := prompt l; plen := plen l; pos := pos l;
     oldpos := v; len := len l; cols := cols l; maxrows := maxrows l;
     history_index := history_index l; orig_termios := orig_termios l;
     rawmode := rawmode l; mlmode := mlmode l; nonblock := nonblock l;
     history_max_len := history_max_len l; history := history l |}.

Definition set_len (l : LinenoiseState) (v : Z) : LinenoiseState :=
  {| ifd := ifd l; ofd := ofd l; efd := efd l; buf := buf l;
     buflen := buflen l; prompt := prompt l; plen := plen l; pos := pos l;
     oldpos := oldpos l; len := v; cols := cols l; maxrows := maxrows l;
     history_index := history_index l; orig_termios := orig_termios l;
     rawmode := rawmode l; mlmode := mlmode l; nonblock := nonblock l;
     history_max_len := history_max_len l; history := history l |}.

Definition set_maxrows (l : LinenoiseState) (v : Z) : LinenoiseState :=
  {| ifd := ifd l; ofd := ofd l; efd := efd l; buf := buf l;
     buflen := buflen l; prompt := prompt l; plen := plen l; pos := pos l;
     oldpos := oldpos l; len := len l; cols := cols l; maxrows := v;
     history_index := history_index l; orig_termios := orig_termios l;
     rawmode := rawmode l; mlmode := mlmode l; nonblock := nonblock l;
     history_max_len := history_max_len l; history := history l |}.

Definition set_history_index (l : LinenoiseState) (v : Z) : LinenoiseState :=
  {| ifd := ifd l; ofd := ofd l; efd := efd l; buf := buf l;
     buflen := buflen l; prompt := prompt l; plen := plen l; pos := pos l;
     oldpos := oldpos l; len := len l; cols := cols l;
     maxrows := maxrows l; history_index := v;
     orig_termios := orig_termios l; rawmode := rawmode l;
     mlmode := mlmode l; nonblock := nonblock l;
     history_max_len := history_max_len l; history := history l |}.

Definition set_orig_termios (l : LinenoiseState) (v : termios) : LinenoiseState :=
  {| ifd := ifd l; ofd := ofd l; efd := efd l; buf := buf l;
     buflen := buflen l; prompt := prompt l; plen := plen l; pos := pos l;
     oldpos := oldpos l; len := len l; cols := cols l;
     maxrows := maxrows l; history_index := history_index l;
     orig_termios := v; rawmode := rawmode l; mlmode := mlmode l;
     nonblock := nonblock l; history_max_len := history_max_len l;
     history := history l |}.

Definition set_rawmode (l : LinenoiseState) (v : bool) : LinenoiseState :=
  {| ifd := ifd l; ofd := ofd l; efd := efd l; buf := buf l;
     buflen := buflen l; prompt := prompt l; plen := plen l; pos := pos l;
     oldpos := oldpos l; len := len l; cols := cols l;
     maxrows := maxrows l; history_index := history_index l;
     orig_termios := orig_termios l; rawmode := v; mlmode := mlmode l;
     nonblock := nonblock l; history_max_len := history_max_len l;
     history := history l |}.

Definition set_mlmode (l : LinenoiseState) (v : bool) : LinenoiseState :=
  {| ifd := ifd l; ofd := ofd l; efd := efd l; buf := buf l;
     buflen := buflen l; prompt := prompt l; plen := plen l; pos := pos l;
     oldpos := oldpos l; len := len l; cols := cols l;
     maxrows := maxrows l; history_index := history_index l;
     orig_termios := orig_termios l; rawmode := rawmode l; mlmode := v;
     nonblock := nonblock l; history_max_len := history_max_len l;
     history := history l |}.

Definition set_history_max_len (l : LinenoiseState) (v : Z) : LinenoiseState :=
  {| ifd := ifd l; ofd := ofd l; efd := efd l; buf := buf l;
     buflen := buflen l; prompt := prompt l; plen := plen l; pos := pos l;
     oldpos := oldpos l; len := len l; cols := cols l;
     maxrows := maxrows l; history_index := history_index l;
     orig_termios := orig_termios l; rawmode := rawmode l;
     mlmode := mlmode l; nonblock := nonblock l; history_max_len := v;
     history := history l |}.

Definition set_history (l : LinenoiseState) (v : list (list Z)) : LinenoiseState :=
  {| ifd := ifd l; ofd := ofd l; efd := efd l; buf := buf l;
     buflen := buflen l; prompt := prompt l; plen := plen l; pos := pos l;
     oldpos := oldpos l; len := len l; cols := cols l;
     maxrows := maxrows l; history_index := history_index l;
     orig_termios := orig_termios l; rawmode := rawmode l;
     mlmode := mlmode l; nonblock := nonblock l;
     history_max_len := history_max_len l; history := v |}.

(** The callbacks the host registers ([l_CompletionCallback],
    [l_HintsCallback]).  A completion callback maps the line to the
    candidates it adds; a hints callback maps the line to the hint (or
    [NULL]) and to the values it leaves in [color] and [bold], which start
    at [-1] and [0]. *)
Definition completion_callback : Type := list Z -> list (list Z).
Definition hints_callback : Type := list Z -> option (list Z) * Z * Z.

(** ** Raw mode *)

Definition EnableRawMode (ls : LinenoiseState) (w : world) : Z * LinenoiseState * world :=
  if negb (w_isatty w) then (-1, ls, with_errno w C.ENOTTY)
  else
    match Sys.tcgetattr w with
    | None => (-1, ls, with_errno w C.ENOTTY)
    | Some t =>
        let ls := set_orig_termios ls t in
        let raw :=
          {| c_iflag := Termios.clear (c_iflag t)
                          (Z.lor Termios.BRKINT (Z.lor Termios.ICRNL
                            (Z.lor Termios.INPCK (Z.lor Termios.ISTRIP Termios.IXON))));
             c_oflag := Termios.clear (c_oflag t) Termios.OPOST;
             c_cflag := Termios.set (c_cflag t) Termios.CS8;
             c_lflag := Termios.clear (c_lflag t)
                          (Z.lor Termios.ECHO (Z.lor Termios.ICANON
                            (Z.lor Termios.IEXTEN Termios.ISIG)));
             c_cc := <[Termios.VTIME := 0]> (<[Termios.VMIN := 1]> (c_cc t)) |} in
        let '(r, w) := Sys.tcsetattr w raw in
        if r <? 0 then (-1, ls, with_errno w C.ENOTTY)
        else (0, set_rawmode ls false, w)
    end.

Definition DisableRawMode (ls : LinenoiseState) (w : world) : LinenoiseState * world :=
  if rawmode ls then
    let '(r, w) := Sys.tcsetattr w (orig_termios ls) in
    if negb (r =? -1) then (set_rawmode ls false, w) else (ls, w)
  else (ls, w).

(** [ESC [ ...]: a control sequence. *)
Definition csi (s : string) : list Z := 27 :: bytes_of_string ("[" ++ s).

(** [LinenoiseClearScreen] *)
Definition LinenoiseClearScreen (w : world) : world :=
  snd (Sys.write w (csi "H" ++ csi "2J")).

(** [LinenoiseBeep] *)
Definition LinenoiseBeep (w : world) : world := Sys.write_err w [7].

(** ** The append buffer and the render engine *)

(** A pointer [m + off] into an allocation: the bytes from there on. *)
Definition offset (m : list Z) (off : Z) : outcome (list Z) :=
  if (0 <=? off) && (off <=? Mem.size m) then Done (drop (Z.to_nat off) m)
  else Undefined.

(** [abAppend(ab, s, len)]: [len] is an [int]; a negative one makes
    [memcpy] run over the allocation. *)
Definition abAppend (ab : list Z) (s : list Z) (n : Z) : outcome (list Z) :=
  if (0 <=? n) && (n <=? Mem.size s) then Done (ab ++ take (Z.to_nat n) s)
  else Undefined.

(** All of a string: [abAppend(ab, seq, strlen(seq))]. *)
Definition abAppendStr (ab : list Z) (s : list Z) : list Z := ab ++ s.

(** What [RefreshShowHints] appends to the append buffer.  [plen] is the
    [int] parameter of the C function. *)
Definition RefreshShowHints (hc : option hints_callback) (ab : list Z)
    (l : LinenoiseState) (plen : Z) : outcome (list Z) :=
  match hc with
  | Some cb =>
      if C.size_t (C.size_t plen + len l) <? cols l then
        do line <- Mem.cstr (buf l);
        let '(hint, color, bold) := cb line in
        match hint with
        | Some h =>
            let hintlen := C.int (Z.of_nat (length h)) in
            let hintmaxlen := C.int (C.size_t (cols l - C.size_t (C.size_t plen + len l))) in
            let hintlen := if hintlen >? hintmaxlen then hintmaxlen else hintlen in
            let color := if (bold =? 1) && (color =? -1) then 37 else color in
            let styled := negb (color =? -1) || negb (bold =? 0) in
            let seq := if styled
                       then csi "" ++ dec bold ++ bytes_of_string ";" ++ dec color
                            ++ bytes_of_string ";49m"
                       else [] in
            let ab := abAppendStr ab seq in
            do ab <- abAppend ab h hintlen;
            Done (if styled then abAppendStr ab (csi "0m") else ab)
        | None => Done ab
        end
      else Done ab
  | None => Done ab
  end.

(** The visible window of the single-line refresh: how far [buf] was
    advanced, and the local [len] and [pos]. *)
Record window : Type := { win_off : Z; win_len : Z; win_pos : Z }.

(** [while ((plen + pos) >= l->cols) { buf++; len--; pos--; }] *)
Fixpoint slide_left (fuel : nat) (plen cols : Z) (wd : window) : option window :=
  match fuel with
  | O => None
  | S fuel =>
      if cols <=? C.size_t (plen + win_pos wd)
      then slide_left fuel plen cols
             {| win_off := win_off wd + 1;
                win_len := C.size_t (win_len wd - 1);
                win_pos := C.size_t (win_pos wd - 1) |}
      else Some wd
  end.

(** [while (plen + len > l->cols) { len--; }] *)
Fixpoint trim_right (fuel : nat) (plen cols : Z) (wd : window) : option window :=
  match fuel with
  | O => None
  | S fuel =>
      if cols <? C.size_t (plen + win_len wd)
      then trim_right fuel plen cols
             {| win_off := win_off wd;
                win_len := C.size_t (win_len wd - 1);
                win_pos := win_pos wd |}
      else Some wd
  end.

(** The two loops of [RefreshSingleLine].  Each turn lowers the sum that
    the loop tests by one, so that sum bounds the number of turns; a loop
    that has not stopped by then never stops. *)
Definition refresh_window (l : LinenoiseState) : outcome window :=
  let plen := Z.of_nat (length (prompt l)) in
  let wd := {| win_off := 0; win_len := len l; win_pos := pos l |} in
  match slide_left (S (Z.to_nat (C.size_t (plen + win_pos wd)))) plen (cols l) wd with
  | None => Diverges
  | Some wd =>
      match trim_right (S (Z.to_nat (C.size_t (plen + win_len wd)))) plen (cols l) wd with
      | None => Diverges
      | Some wd => Done wd
      end
  end.

Definition RefreshSingleLine (hc : option hints_callback) (l : LinenoiseState)
    (w : world) : outcome (LinenoiseState * world) :=
  let plen := Z.of_nat (length (prompt l)) in
  do wd <- refresh_window l;
  let ab := abAppendStr [] [13] in
  let ab := abAppendStr ab (prompt l) in
  do bufp <- offset (buf l) (win_off wd);
  do ab <- abAppend ab bufp (C.int (win_len wd));
  do ab <- RefreshShowHints hc ab l (C.int plen);
  let ab := abAppendStr ab (csi "0K") in
  let ab := abAppendStr ab
              ([13] ++ csi "" ++ dec (C.int (C.size_t (win_pos wd + plen)))
               ++ bytes_of_string "C") in
  Done (l, snd (Sys.write w ab)).

(** Division and remainder of unsigned and of [int] operands; a zero
    divisor is undefined. *)
Definition udiv (a b : Z) : outcome Z := if b =? 0 then Undefined else Done (a / b).
Definition umod (a b : Z) : outcome Z := if b =? 0 then Undefined else Done (a mod b).
Definition irem (a b : Z) : outcome Z := if b =? 0 then Undefined else Done (Z.rem a b).

Definition RefreshMultiLine (hc : option hints_callback) (l : LinenoiseState)
    (w : world) : outcome (LinenoiseState * world) :=
  let plen := C.int (Z.of_nat (length (prompt l))) in
  do q <- udiv (C.size_t (C.size_t (C.size_t (C.size_t plen + len l) + cols l) - 1)) (cols l);
  let rows := C.int q in
  do q <- udiv (C.size_t (C.size_t (C.size_t plen + oldpos l) + cols l)) (cols l);
  let rpos := C.int q in
  let old_rows := C.int (maxrows l) in
  let l := if rows >? C.int (maxrows l) then set_maxrows l (C.size_t rows) else l in
  let ab := [] in
  let ab := if old_rows - rpos >? 0
            then abAppendStr ab (csi "" ++ dec (old_rows - rpos) ++ bytes_of_string "B")
            else ab in
  let ab := abAppendStr ab
              (concat (replicate (Z.to_nat (old_rows - 1)) ([13] ++ csi "0K" ++ csi "1A"))) in
  let ab := abAppendStr ab ([13] ++ csi "0K") in
  let ab := abAppendStr ab (prompt l) in
  do ab <- abAppend ab (buf l) (C.int (len l));
  do ab <- RefreshShowHints hc ab l plen;
  do m <- umod (C.size_t (pos l + C.size_t plen)) (cols l);
  let at_margin := negb (pos l =? 0) && (pos l =? len l) && (m =? 0) in
  let ab := if at_margin then abAppendStr (abAppendStr ab [10]) [13] else ab in
  let rows := if at_margin then rows + 1 else rows in
  let l := if at_margin && (rows >? C.int (maxrows l))
           then set_maxrows l (C.size_t rows) else l in
  do q <- udiv (C.size_t (C.size_t (C.size_t plen + pos l) + cols l)) (cols l);
  let rpos2 := C.int q in
  let ab := if rows - rpos2 >? 0
            then abAppendStr ab (csi "" ++ dec (rows - rpos2) ++ bytes_of_string "A")
            else ab in
  do col <- irem (plen + C.int (pos l)) (C.int (cols l));
  let ab := if negb (col =? 0)
            then abAppendStr ab ([13] ++ csi "" ++ dec col ++ bytes_of_string "C")
            else abAppendStr ab [13] in
  let l := set_oldpos l (pos l) in
  Done (l, snd (Sys.write w ab)).

Definition RefreshLine (hc : option hints_callback) (l : LinenoiseState)
    (w : world) : outcome (LinenoiseState * world) :=
  if mlmode l then RefreshMultiLine hc l w else RefreshSingleLine hc l w.

(** ** Edit operations *)

(** [LinenoiseEditInsert]: the value returned, the session and the world. *)
Definition LinenoiseEditInsert (hc : option hints_callback) (l : LinenoiseState)
    (c : Z) (w : world) : outcome (Z * LinenoiseState * world) :=
  if len l <? buflen l then
    if len l =? pos l then
      do b <- Mem.store (buf l) (pos l) c;
      let l := set_buf l b in
      let l := set_pos l (C.size_t (pos l + 1)) in
      let l := set_len l (C.size_t (len l + 1)) in
      do b <- Mem.store (buf l) (len l) 0;
      let l := set_buf l b in
      if negb (mlmode l) && (C.size_t (plen l + len l) <? cols l)
         && negb (bool_decide (is_Some hc))
      then
        let '(r, w) := Sys.write w [c] in
        if r =? -1 then Done (-1, l, w) else Done (0, l, w)
      else
        do '(l, w) <- RefreshLine hc l w;
        Done (0, l, w)
    else
      do b <- Mem.memmove (buf l) (pos l + 1) (pos l) (C.size_t (len l - pos l));
      do b <- Mem.store b (pos l) c;
      let l := set_buf l b in
      let l := set_len l (C.size_t (len l + 1)) in
      let l := set_pos l (C.size_t (pos l + 1)) in
      do b <- Mem.store (buf l) (len l) 0;
      let l := set_buf l b in
      do '(l, w) <- RefreshLine hc l w;
      Done (0, l, w)
  else Done (0, l, w).

Definition LinenoiseEditMoveLeft (hc : option hints_callback) (l : LinenoiseState)
    (w : world) : outcome (LinenoiseState * world) :=
  if pos l >? 0 then RefreshLine hc (set_pos l (C.size_t (pos l - 1))) w
  else Done (l, w).

Definition LinenoiseEditMoveRight (hc : option hints_callback) (l : LinenoiseState)
    (w : world) : outcome (LinenoiseState * world) :=
  if negb (pos l =? len l) then RefreshLine hc (set_pos l (C.size_t (pos l + 1))) w
  else Done (l, w).

Definition LinenoiseEditMoveHome (hc : option hints_callback) (l : LinenoiseState)
    (w : world) : outcome (LinenoiseState * world) :=
  if negb (pos l =? 0) then RefreshLine hc (set_pos l 0) w
  else Done (l, w).

Definition LinenoiseEditMoveEnd (hc : option hints_callback) (l : LinenoiseState)
    (w : world) : outcome (LinenoiseState * world) :=
  if negb (pos l =? len l) then RefreshLine hc (set_pos l (len l)) w
  else Done (l, w).

Definition LINENOISE_HISTORY_NEXT : Z := 0.
Definition LINENOISE_HISTORY_PREV : Z := 1.

(** [history[i]], read and written; outside the live entries there is no
    string to read or to free. *)
Definition hist_load (h : list (list Z)) (i : Z) : outcome (list Z) :=
  if (0 <=? i) && (i <? Z.of_nat (length h))
  then match h !! Z.to_nat i with Some e => Done e | None => Undefined end
  else Undefined.

Definition hist_store (h : list (list Z)) (i : Z) (e : list Z) : outcome (list (list Z)) :=
  if (0 <=? i) && (i <? Z.of_nat (length h))
  then Done (<[Z.to_nat i := e]> h)
  else Undefined.

Definition LinenoiseEditHistoryNext (hc : option hints_callback) (l : LinenoiseState)
    (dir : Z) (w : world) : outcome (LinenoiseState * world) :=
  if history_len l >? 1 then
    do cur <- Mem.cstr (buf l);
    do h <- hist_store (history l) (history_len l - 1 - history_index l) cur;
    let l := set_history l h in
    let l := set_history_index l
               (history_index l + (if dir =? LINENOISE_HISTORY_PREV then 1 else -1)) in
    if history_index l <? 0 then Done (set_history_index l 0, w)
    else if history_index l >=? history_len l
    then Done (set_history_index l (history_len l - 1), w)
    else
      do e <- hist_load (history l) (history_len l - 1 - history_index l);
      do b <- Mem.strncpy (buf l) e (buflen l);
      do b <- Mem.store b (C.size_t (buflen l - 1)) 0;
      let l := set_buf l b in
      do n <- Mem.strlen (buf l);
      let l := set_pos l n in
      let l := set_len l n in
      RefreshLine hc l w
  else Done (l, w).

Definition LinenoiseEditDelete (hc : option hints_callback) (l : LinenoiseState)
    (w : world) : outcome (LinenoiseState * world) :=
  if (len l >? 0) && (pos l <? len l) then
    do b <- Mem.memmove (buf l) (pos l) (pos l + 1) (C.size_t (len l - pos l - 1));
    let l := set_buf l b in
    let l := set_len l (C.size_t (len l - 1)) in
    do b <- Mem.store (buf l) (len l) 0;
    RefreshLine hc (set_buf l b) w
  else Done (l, w).

Definition LinenoiseEditBackspace (hc : option hints_callback) (l : LinenoiseState)
    (w : world) : outcome (LinenoiseState * world) :=
  if (pos l >? 0) && (len l >? 0) then
    do b <- Mem.memmove (buf l) (pos l - 1) (pos l) (C.size_t (len l - pos l));
    let l := set_buf l b in
    let l := set_pos l (C.size_t (pos l - 1)) in
    let l := set_len l (C.size_t (len l - 1)) in
    do b <- Mem.store (buf l) (len l) 0;
    RefreshLine hc (set_buf l b) w
  else Done (l, w).

(** [while (pos > 0 && (buf[pos - 1] == ' ') == space) pos--;]: the two
    loops of [LinenoiseEditDeletePrevWord].  [pos] falls by one each turn,
    so it bounds the number of turns. *)
Fixpoint retreat (fuel : nat) (space : bool) (b : list Z) (p : Z) : outcome Z :=
  match fuel with
  | O => Diverges
  | S fuel =>
      if p >? 0 then
        do c <- Mem.load b (p - 1);
        if Bool.eqb (c =? 32) space then retreat fuel space b (C.size_t (p - 1))
        else Done p
      else Done p
  end.

Definition LinenoiseEditDeletePrevWord (hc : option hints_callback) (l : LinenoiseState)
    (w : world) : outcome (LinenoiseState * world) :=
  let old_pos := pos l in
  do p <- retreat (S (Z.to_nat (pos l))) true (buf l) (pos l);
  do p <- retreat (S (Z.to_nat p)) false (buf l) p;
  let l := set_pos l p in
  let diff := C.size_t (old_pos - pos l) in
  do b <- Mem.memmove (buf l) (pos l) old_pos (C.size_t (C.size_t (len l - old_pos) + 1));
  let l := set_buf l b in
  let l := set_len l (C.size_t (len l - diff)) in
  RefreshLine hc l w.

Definition LinenoiseClearBuffer (hc : option hints_callback) (ls : LinenoiseState)
    (w : world) : outcome (LinenoiseState * world) :=
  do b <- Mem.memset (buf ls) 0 (buflen ls);
  let ls := set_buf ls b in
  let ls := set_pos ls 0 in
  RefreshLine hc ls w.

(** ** The history store *)

(** [LinenoiseHistoryAdd]: allocation is taken to succeed.  A session whose
    history holds more than [history_max_len] entries would be written
    past the end of the array. *)
Definition LinenoiseHistoryAdd (ls : LinenoiseState) (line : list Z)
    : outcome (Z * LinenoiseState) :=
  if history_max_len ls =? 0 then Done (0, ls)
  else if negb (history_len ls =? 0)
          && bool_decide (last (history ls) = Some line)
  then Done (0, ls)
  else
    let ls := if history_len ls =? history_max_len ls
              then set_history ls (drop 1 (history ls)) else ls in
    if history_len ls <? history_max_len ls
    then Done (1, set_history ls (history ls ++ [line]))
    else Undefined.

Definition LinenoiseHistorySetMaxLen (ls : LinenoiseState) (n : Z)
    : Z * LinenoiseState :=
  if n <? 1 then (0, ls)
  else
    let tocopy := history_len ls in
    let tocopy := if n <? tocopy then n else tocopy in
    let ls := set_history ls (drop (Z.to_nat (history_len ls - tocopy)) (history ls)) in
    let ls := set_history_max_len ls n in
    let ls := if history_len ls >? history_max_len ls
              then set_history ls (take (Z.to_nat (history_max_len ls)) (history ls))
              else ls in
    (1, ls).

Definition FreeHistory (ls : LinenoiseState) : LinenoiseState := set_history ls [].

Definition LinenoiseRestore (ls : LinenoiseState) (w : world) : LinenoiseState * world :=
  let '(ls, w) := DisableRawMode ls w in
  let '(_, w) := Sys.tcsetattr w (orig_termios ls) in
  (FreeHistory ls, w).

(** [fprintf(fp, "%s\n", history[j])] for every entry: the file written, or
    nothing and [-1] when [fopen] fails. *)
Definition LinenoiseHistorySave (ls : LinenoiseState) (fopen_ok : bool)
    : Z * option (list Z) :=
  if fopen_ok then (0, Some (concat (map (fun e => e ++ [10]) (history ls))))
  else (-1, None).

(** [fgets]: up to [n] bytes, stopping after a newline. *)
Fixpoint fgets_line (n : nat) (s : list Z) : list Z * list Z :=
  match n, s with
  | O, _ => ([], s)
  | _, [] => ([], [])
  | S n, c :: s => if c =? 10 then ([c], s)
                   else let '(l, r) := fgets_line n s in (c :: l, r)
  end.

(** [fgets(buf, n, fp)]: the bytes stored before the NUL and the rest of
    the stream, or [NULL] at the end of the file. *)
Definition fgets (n : Z) (stream : list Z) : option (list Z * list Z) :=
  if n <=? 0 then None
  else match stream with
       | [] => None
       | _ => Some (fgets_line (Z.to_nat (n - 1)) stream)
       end.

Definition LINENOISE_DEFAULT_HISTORY_MAX_LEN : Z := 100.
Definition LINENOISE_MAX_LINE : Z := 4096.

(** The bytes of [s] before the first [c], when [c] occurs ([strchr]
    followed by [*p = 0]). *)
Fixpoint cut_at (c : Z) (s : list Z) : option (list Z) :=
  match s with
  | [] => None
  | b :: s => if b =? c then Some []
              else match cut_at c s with
                   | Some r => Some (b :: r)
                   | None => None
                   end
  end.

(** The C string left in a buffer that received [bytes] and a NUL. *)
Definition as_cstr (bytes : list Z) : list Z :=
  match Mem.until_nul bytes with Some s => s | None => bytes end.

(** The body of the loop of [LinenoiseHistoryLoad] on one line read. *)
Definition load_line (line : list Z) : list Z :=
  let s := as_cstr line in
  match cut_at 13 s with
  | Some r => r
  | None => match cut_at 10 s with
            | Some r => r
            | None => s
            end
  end.

(** [while (fgets(buf, LINENOISE_MAX_LINE, fp) != NULL) ...]: every turn
    takes at least one byte off the stream. *)
Fixpoint history_load_loop (fuel : nat) (ls : LinenoiseState) (stream : list Z)
    : outcome LinenoiseState :=
  match fuel with
  | O => Diverges
  | S fuel =>
      match fgets LINENOISE_MAX_LINE stream with
      | None => Done ls
      | Some (line, rest) =>
          do '(_, ls) <- LinenoiseHistoryAdd ls (load_line line);
          history_load_loop fuel ls rest
      end
  end.

(** [LinenoiseHistoryLoad]; [file] is what [fopen] finds. *)
Definition LinenoiseHistoryLoad (ls : LinenoiseState) (file : option (list Z))
    : outcome (Z * LinenoiseState) :=
  match file with
  | None => Done (-1, ls)
  | Some stream =>
      do ls <- history_load_loop (S (length stream)) ls stream;
      Done (0, ls)
  end.

(** ** Completion *)

(** The value of a [char] as an [int]. *)
Definition schar (b : Z) : Z := if C.char_negative b then b mod 256 - 256 else b mod 256.

(** The loop of [CompleteLine] on the candidates [lc], at candidate [i].
    It returns the value of [CompleteLine]: [-1] when [read] delivers
    nothing, the last byte read otherwise.  Every turn reads a byte. *)
Fixpoint complete_loop (fuel : nat) (hc : option hints_callback) (lc : list (list Z))
    (i : Z) (ls : LinenoiseState) (w : world) : outcome (Z * LinenoiseState * world) :=
  match fuel with
  | O => Diverges
  | S fuel =>
      let n := Z.of_nat (length lc) in
      do '(ls, w) <-
        (if i <? n then
           do c <- hist_load lc i;
           let shown := set_len ls (Z.of_nat (length c)) in
           let shown := set_pos shown (Z.of_nat (length c)) in
           let shown := set_buf shown (c ++ [0]) in
           do '(shown, w) <- RefreshLine hc shown w;
           let shown := set_len shown (len ls) in
           let shown := set_pos shown (pos ls) in
           Done (set_buf shown (buf ls), w)
         else RefreshLine hc ls w);
      let '(r, w) := Sys.read w in
      match r with
      | RdGot c =>
          if c =? 9 then
            let i := C.size_t (i + 1) mod C.size_t (n + 1) in
            let w := if i =? n then LinenoiseBeep w else w in
            complete_loop fuel hc lc i ls w
          else if c =? 27 then
            do '(ls, w) <- (if i <? n then RefreshLine hc ls w else Done (ls, w));
            Done (schar c, ls, w)
          else
            do ls <-
              (if i <? n then
                 do e <- hist_load lc i;
                 do '(nwritten, b) <- Mem.snprintf_s (buf ls) (buflen ls) e;
                 let ls := set_buf ls b in
                 let ls := set_pos ls (C.size_t nwritten) in
                 Done (set_len ls (C.size_t nwritten))
               else Done ls);
            Done (schar c, ls, w)
      | RdEof | RdFail => Done (-1, ls, w)
      end
  end.

Definition CompleteLine (cc : completion_callback) (hc : option hints_callback)
    (ls : LinenoiseState) (w : world) : outcome (Z * LinenoiseState * world) :=
  do line <- Mem.cstr (buf ls);
  let lc := cc line in
  if Z.of_nat (length lc) =? 0 then Done (0, ls, LinenoiseBeep w)
  else complete_loop (S (length (w_in w))) hc lc 0 ls w.

(** ** The editing loop *)

Module Key.
Definition CTRL_A : Z := 1.
Definition CTRL_B : Z := 2.
Definition CTRL_C : Z := 3.
Definition CTRL_D : Z := 4.
Definition CTRL_E : Z := 5.
Definition CTRL_F : Z := 6.
Definition CTRL_H : Z := 8.
Definition TAB : Z := 9.
Definition CTRL_K : Z := 11.
Definition CTRL_L : Z := 12.
Definition ENTER : Z := 13.
Definition CTRL_N : Z := 14.
Definition CTRL_P : Z := 16.
Definition CTRL_T : Z := 20.
Definition CTRL_U : Z := 21.
Definition CTRL_W : Z := 23.
Definition ESC : Z := 27.
Definition BACKSPACE : Z := 127.
End Key.

(** How one turn of the loop of [LinenoiseEdit] ends: with [break], or
    with [return count]. *)
Inductive ctl : Type :=
| Continue
| Return (count : Z).

Definition continue (r : outcome (LinenoiseState * world))
    : outcome (ctl * LinenoiseState * world) :=
  do '(ls, w) <- r; Done (Continue, ls, w).

(** [case ESC]: the bytes of the sequence are read into the uninitialised
    [seq]; examining a byte that no [read] stored is undefined. *)
Definition dispatch_escape (hc : option hints_callback) (ls : LinenoiseState)
    (w : world) : outcome (LinenoiseState * world) :=
  let '(r0, w) := Sys.read w in
  match r0 with
  | RdFail => Done (ls, w)
  | _ =>
      let '(r1, w) := Sys.read w in
      match r1 with
      | RdFail => Done (ls, w)
      | _ =>
          match r0 with
          | RdGot s0 =>
              if s0 =? 91 then                      (* '[' *)
                match r1 with
                | RdGot s1 =>
                    if (48 <=? s1) && (s1 <=? 57) then
                      let '(r2, w) := Sys.read w in
                      match r2 with
                      | RdFail => Done (ls, w)
                      | RdGot s2 =>
                          if s2 =? 126 then          (* '~' *)
                            if s1 =? 51 then LinenoiseEditDelete hc ls w
                            else Done (ls, w)
                          else Done (ls, w)
                      | RdEof => Undefined
                      end
                    else if s1 =? 65 then
                      LinenoiseEditHistoryNext hc ls LINENOISE_HISTORY_PREV w
                    else if s1 =? 66 then
                      LinenoiseEditHistoryNext hc ls LINENOISE_HISTORY_NEXT w
                    else if s1 =? 67 then LinenoiseEditMoveRight hc ls w
                    else if s1 =? 68 then LinenoiseEditMoveLeft hc ls w
                    else if s1 =? 72 then LinenoiseEditMoveHome hc ls w
                    else if s1 =? 70 then LinenoiseEditMoveEnd hc ls w
                    else Done (ls, w)
                | _ => Undefined
                end
              else if s0 =? 79 then                 (* 'O' *)
                match r1 with
                | RdGot s1 =>
                    if s1 =? 72 then LinenoiseEditMoveHome hc ls w
                    else if s1 =? 70 then LinenoiseEditMoveEnd hc ls w
                    else Done (ls, w)
                | _ => Undefined
                end
              else Done (ls, w)
          | _ => Undefined
          end
      end
  end.

(** [switch (c)] in [LinenoiseEdit]. *)
Definition dispatch (hc : option hints_callback) (c : Z) (ls : LinenoiseState)
    (w : world) : outcome (ctl * LinenoiseState * world) :=
  if c =? Key.ENTER then
    let ls := if history_len ls >? 0 then set_history ls (removelast (history ls))
              else ls in
    do '(ls, w) <- (if mlmode ls then LinenoiseEditMoveEnd hc ls w else Done (ls, w));
    do '(ls, w) <- (match hc with
                    | Some _ => RefreshLine None ls w
                    | None => Done (ls, w)
                    end);
    Done (Return (C.int (len ls)), ls, w)
  else if c =? Key.CTRL_C then Done (Return (-1), ls, with_errno w C.EAGAIN)
  else if (c =? Key.BACKSPACE) || (c =? 8) then continue (LinenoiseEditBackspace hc ls w)
  else if c =? Key.CTRL_D then
    if len ls >? 0 then continue (LinenoiseEditDelete hc ls w)
    else
      do _ <- hist_load (history ls) (history_len ls - 1);
      Done (Return (-1), set_history ls (removelast (history ls)), w)
  else if c =? Key.CTRL_T then
    if (pos ls >? 0) && (pos ls <? len ls) then
      do aux <- Mem.load (buf ls) (pos ls - 1);
      do cur <- Mem.load (buf ls) (pos ls);
      do b <- Mem.store (buf ls) (pos ls - 1) cur;
      do b <- Mem.store b (pos ls) aux;
      let ls := set_buf ls b in
      let ls := if negb (pos ls =? C.size_t (len ls - 1))
                then set_pos ls (C.size_t (pos ls + 1)) else ls in
      continue (RefreshLine hc ls w)
    else Done (Continue, ls, w)
  else if c =? Key.CTRL_B then continue (LinenoiseEditMoveLeft hc ls w)
  else if c =? Key.CTRL_F then continue (LinenoiseEditMoveRight hc ls w)
  else if c =? Key.CTRL_P then
    continue (LinenoiseEditHistoryNext hc ls LINENOISE_HISTORY_PREV w)
  else if c =? Key.CTRL_N then
    continue (LinenoiseEditHistoryNext hc ls LINENOISE_HISTORY_NEXT w)
  else if c =? Key.ESC then continue (dispatch_escape hc ls w)
  else if c =? Key.CTRL_U then
    do b <- Mem.store (buf ls) 0 0;
    let ls := set_buf ls b in
    let ls := set_len ls 0 in
    let ls := set_pos ls 0 in
    continue (RefreshLine hc ls w)
  else if c =? Key.CTRL_K then
    do b <- Mem.store (buf ls) (pos ls) 0;
    let ls := set_buf ls b in
    let ls := set_len ls (pos ls) in
    continue (RefreshLine hc ls w)
  else if c =? Key.CTRL_A then continue (LinenoiseEditMoveHome hc ls w)
  else if c =? Key.CTRL_E then continue (LinenoiseEditMoveEnd hc ls w)
  else if c =? Key.CTRL_L then continue (RefreshLine hc ls (LinenoiseClearScreen w))
  else if c =? Key.CTRL_W then continue (LinenoiseEditDeletePrevWord hc ls w)
  else
    do '(r, ls, w) <- LinenoiseEditInsert hc ls c w;
    if negb (r =? 0) then Done (Return (-1), ls, w) else Done (Continue, ls, w).

(** One turn of [while (true)] in [LinenoiseEdit]. *)
Definition edit_turn (cc : option completion_callback) (hc : option hints_callback)
    (ls : LinenoiseState) (w : world) : outcome (ctl * LinenoiseState * world) :=
  let '(r, w) := Sys.read w in
  match r with
  | RdGot c =>
      match cc with
      | Some cb =>
          if c =? 9 then
            do '(r, ls, w) <- CompleteLine cb hc ls w;
            let c := C.char r in
            if C.char_negative c then Done (Return (C.int (len ls)), ls, w)
            else if c =? 0 then Done (Continue, ls, w)
            else dispatch hc c ls w
          else dispatch hc c ls w
      | None => dispatch hc c ls w
      end
  | RdEof | RdFail => Done (Return (C.int (len ls)), ls, w)
  end.

(** The loop; a turn that does not return has read a byte. *)
Fixpoint edit_loop (fuel : nat) (cc : option completion_callback)
    (hc : option hints_callback) (ls : LinenoiseState) (w : world)
    : outcome (Z * LinenoiseState * world) :=
  match fuel with
  | O => Diverges
  | S fuel =>
      do '(k, ls, w) <- edit_turn cc hc ls w;
      match k with
      | Continue => edit_loop fuel cc hc ls w
      | Return count => Done (count, ls, w)
      end
  end.

Definition LinenoiseEdit (cc : option completion_callback) (hc : option hints_callback)
    (ls : LinenoiseState) (w : world) : outcome (Z * LinenoiseState * world) :=
  do p <- abAppend [] (prompt ls ++ [0]) (plen ls);
  let '(r, w) := Sys.write w p in
  if r =? -1 then Done (-1, ls, w)
  else edit_loop (S (length (w_in w))) cc hc ls w.

(** ** The session life cycle *)

Definition LinenoiseSetMultiLine (ls : LinenoiseState) (ml : Z) : LinenoiseState :=
  set_mlmode ls (negb (ml =? 0)).

Definition LinenoiseRaw (cc : option completion_callback) (hc : option hints_callback)
    (ls : LinenoiseState) (w : world) : outcome (Z * LinenoiseState * world) :=
  if buflen ls =? 0 then Done (-1, ls, with_errno w C.EINVAL)
  else
    let '(r, ls, w) := EnableRawMode ls w in
    if r =? -1 then Done (-1, ls, w)
    else
      do '(count, ls, w) <- LinenoiseEdit cc hc ls w;
      let '(ls, w) := DisableRawMode ls w in
      Done (count, ls, snd (Sys.write w [10])).

(** The loop of [LinenoiseNoTTY] over the stream [stdin]; [line] is what
    was read so far. *)
Fixpoint notty_loop (line : list Z) (stream : list Z) : option (list Z) * list Z :=
  match stream with
  | [] => if Z.of_nat (length line) =? 0 then (None, []) else (Some (as_cstr line), [])
  | c :: rest =>
      if c =? 10 then (Some (as_cstr line), rest)
      else notty_loop (line ++ [c]) rest
  end.

Definition LinenoiseNoTTY (w : world) : option (list Z) * world :=
  let '(r, rest) := notty_loop [] (w_stdin w) in (r, with_stdin w rest).

Definition tolower (b : Z) : Z := if (65 <=? b) && (b <=? 90) then b + 32 else b.

Definition unsupported_term : list string := ["dumb"; "cons25"; "emacs"]%string.

Definition IsUnsupportedTerm (w : world) : bool :=
  match w_term w with
  | None => false
  | Some term =>
      existsb (fun t => bool_decide (map tolower term = map tolower (bytes_of_string t)))
        unsupported_term
  end.

(** [while (len && (buf[len - 1] == '\n' || buf[len - 1] == '\r'))
    { len--; buf[len] = '\0'; }] *)
Fixpoint strip_eol (fuel : nat) (b : list Z) (n : Z) : outcome (list Z) :=
  match fuel with
  | O => Diverges
  | S fuel =>
      if negb (n =? 0) then
        do c <- Mem.load b (n - 1);
        if (c =? 10) || (c =? 13) then
          do b <- Mem.store b (C.size_t (n - 1)) 0;
          strip_eol fuel b (C.size_t (n - 1))
        else Done b
      else Done b
  end.

(** [Linenoise]: the line returned ([None] for [NULL]).  [isatty] on a
    descriptor that is no terminal returns 0 and leaves [ENOTTY] in
    [errno]. *)
Definition Linenoise (cc : option completion_callback) (hc : option hints_callback)
    (ls : LinenoiseState) (w : world) : outcome (option (list Z) * LinenoiseState * world) :=
  do b <- Mem.store (buf ls) 0 0;
  let ls := set_buf ls b in
  if negb (w_isatty w) then
    let '(r, w) := LinenoiseNoTTY (with_errno w C.ENOTTY) in Done (r, ls, w)
  else if IsUnsupportedTerm w then
    let w := snd (Sys.write w (prompt ls)) in
    match fgets (C.int (buflen ls)) (w_stdin w) with
    | None => Done (None, ls, w)
    | Some (line, rest) =>
        let w := with_stdin w rest in
        do head <- abAppend [] (line ++ [0]) (Z.of_nat (length line) + 1);
        do tail <- offset (buf ls) (Z.of_nat (length line) + 1);
        let ls := set_buf ls (head ++ tail) in
        do n <- Mem.strlen (buf ls);
        do b <- strip_eol (S (Z.to_nat n)) (buf ls) n;
        let ls := set_buf ls b in
        let w := snd (Sys.write w [13]) in
        do s <- Mem.cstr (buf ls);
        Done (Some s, ls, w)
    end
  else
    do '(count, ls, w) <- LinenoiseRaw cc hc ls w;
    if count =? -1 then Done (None, ls, w)
    else
      let w := snd (Sys.write w [13]) in
      do s <- Mem.cstr (buf ls);
      Done (Some s, ls, w).

Definition zero_termios : termios :=
  {| c_iflag := 0; c_oflag := 0; c_cflag := 0; c_lflag := 0; c_cc := replicate 32 0 |}.

(** [LinenoiseCreate]; [columns] is the value of [GetColumns].  The buffer
    of [LINENOISE_MAX_LINE] bytes is zeroed, and [buflen] is one less than
    its size. *)
Definition LinenoiseCreate (ls_stdin ls_stdout ls_stderr : Z) (prompt : list Z)
    (columns : Z) : outcome LinenoiseState :=
  let ls :=
    {| ifd := ls_stdin; ofd := ls_stdout; efd := ls_stderr;
       buf := replicate (Z.to_nat LINENOISE_MAX_LINE) 0;
       buflen := LINENOISE_MAX_LINE - 1;
       prompt := prompt; plen := Z.of_nat (length prompt);
       pos := 0; oldpos := 0; len := 0;
       cols := C.size_t columns; maxrows := 0; history_index := 0;
       orig_termios := zero_termios;
       rawmode := false; mlmode := false; nonblock := false;
       history_max_len := LINENOISE_DEFAULT_HISTORY_MAX_LEN;
       history := [] |} in
  do '(_, ls) <- LinenoiseHistoryAdd ls [];
  Done ls.

(** ** Concrete sessions and terminals used in the examples *)

(** A terminal on which every call succeeds and that delivers [keys]. *)
Definition tty (keys : list Z) : world :=
  {| w_isatty := true; w_attr := zero_termios; w_tcget_ok := true;
     w_tcset_ok := true; w_in := map RdByte keys; w_out := []; w_err := [];
     w_wr := []; w_term := None; w_stdin := []; w_errno := 0 |}.

(** The prompt of the example program. *)
Definition example_prompt : list Z := bytes_of_string "> ".

(** [Linenoise] on the terminal [tty keys], keeping the line and the session. *)
Definition read_line (cc : option completion_callback) (hc : option hints_callback)
    (ls : LinenoiseState) (keys : list Z) : outcome (option (list Z) * LinenoiseState) :=
  do '(r, ls, _) <- Linenoise cc hc ls (tty keys);
  Done (r, ls).

(** A session with a buffer of [cap + 1] bytes that holds [line], the
    cursor at its end, the example prompt and [columns] columns. *)
Definition small_session (line : list Z) (cap : Z) (columns : Z) : LinenoiseState :=
  {| ifd := 0; ofd := 1; efd := 2;
     buf := take (Z.to_nat (cap + 1)) (line ++ replicate (Z.to_nat (cap + 1)) 0);
     buflen := cap;
     prompt := example_prompt; plen := Z.of_nat (length example_prompt);
     pos := Z.of_nat (length line); oldpos := 0; len := Z.of_nat (length line);
     cols := columns; maxrows := 0; history_index := 0;
     orig_termios := zero_termios;
     rawmode := false; mlmode := false; nonblock := false;
     history_max_len := LINENOISE_DEFAULT_HISTORY_MAX_LEN;
     history := [[]] |}.

(** ** Predicates and relations of the properties *)

(** The edit buffer is an allocation of [buflen + 1] bytes. *)
Definition allocated (l : LinenoiseState) : Prop :=
  Mem.size (buf l) = buflen l + 1 /\ 0 <= buflen l < 2 ^ 31.

(** The invariant of the edit buffer, with [len] allowed to reach
    [buflen]: the cursor is inside the line, the line inside the buffer,
    and the line is NUL-terminated. *)
Definition session_inv (l : LinenoiseState) : Prop :=
  0 <= pos l /\ pos l <= len l /\ len l <= buflen l
  /\ Mem.load (buf l) (len l) = Done 0.

(** The buffer is empty. *)
Definition empty_buffer (l : LinenoiseState) : Prop :=
  len l = 0 /\ pos l = 0 /\ Mem.load (buf l) 0 = Done 0.

(** [after_turns cc hc ls w ls' w']: some turns of the editing loop, the
    last of which may leave the loop, lead from [ls] to [ls']. *)
Inductive after_turns (cc : option completion_callback) (hc : option hints_callback)
    : LinenoiseState -> world -> LinenoiseState -> world -> Prop :=
| turns_last ls w k ls' w' :
    edit_turn cc hc ls w = Done (k, ls', w') ->
    after_turns cc hc ls w ls' w'
| turns_next ls w ls1 w1 ls' w' :
    edit_turn cc hc ls w = Done (Continue, ls1, w1) ->
    after_turns cc hc ls1 w1 ls' w' ->
    after_turns cc hc ls w ls' w'.

(** Every candidate a completion callback offers fits the buffer with its
    terminator. *)
Definition candidates_fit (cc : option completion_callback) (l : LinenoiseState) : Prop :=
  forall cb line c, cc = Some cb -> In c (cb line) -> Z.of_nat (length c) < buflen l.

(** Calls of the history interface. *)
Inductive hist_op : Type :=
| HistoryAdd (line : list Z)
| HistorySetMaxLen (n : Z).

Definition hist_call (op : hist_op) (ls : LinenoiseState) : outcome LinenoiseState :=
  match op with
  | HistoryAdd line => do '(_, ls) <- LinenoiseHistoryAdd ls line; Done ls
  | HistorySetMaxLen n => Done (snd (LinenoiseHistorySetMaxLen ls n))
  end.

Fixpoint hist_calls (ops : list hist_op) (ls : LinenoiseState) : outcome LinenoiseState :=
  match ops with
  | [] => Done ls
  | op :: ops => do ls <- hist_call op ls; hist_calls ops ls
  end.

(** What a refresh may change in the session: its two render memos. *)
Definition memo_of (l l' : LinenoiseState) : LinenoiseState :=
  set_oldpos (set_maxrows l (maxrows l')) (oldpos l').

(** The window of the single-line refresh fits: the cursor is in the
    frame, the prompt and the visible part fit the columns, and the locals
    [pos] and [len] were lowered without passing below zero. *)
Definition window_fits (l : LinenoiseState) (wd : window) : Prop :=
  let plen := Z.of_nat (length (prompt l)) in
  plen + win_pos wd < cols l
  /\ plen + win_len wd <= cols l
  /\ 0 <= win_off wd <= pos l
  /\ win_pos wd = pos l - win_off wd
  /\ 0 <= win_len wd <= len l - win_off wd.

(** The callbacks of the example program. *)
Definition example_hints : hints_callback :=
  fun line =>
    if bool_decide (map tolower line = bytes_of_string "hello")
    then (Some (bytes_of_string " World"), 35, 0)
    else (None, -1, 0).

Definition example_completion : completion_callback :=
  fun line =>
    if bool_decide (map tolower line = bytes_of_string "hello")
    then [bytes_of_string "hello World"]
    else match line with
         | b :: _ => if b =? 104 then [bytes_of_string "hello"] else []
         | [] => []
         end.

(** A completion callback that offers one candidate of 5000 bytes. *)
Definition long_completion : completion_callback :=
  fun _ => [replicate 5000 97].

(** The session [LinenoiseCreate(0, 1, 2, "> ")] returns when the terminal
    has [columns] columns. *)
Definition created_session (columns : Z) : LinenoiseState :=
  match LinenoiseCreate 0 1 2 example_prompt columns with
  | Done ls => ls
  | _ => small_session [] (LINENOISE_MAX_LINE - 1) columns
  end.

Definition example_session : LinenoiseState := created_session 80.

(** [LinenoiseHistorySave] of the history [h], then [LinenoiseHistoryLoad]
    of the file into the session [ls]. *)
Definition save_then_load (h : list (list Z)) (ls : LinenoiseState)
    : outcome (Z * LinenoiseState) :=
  LinenoiseHistoryLoad ls (snd (LinenoiseHistorySave (set_history ls h) true)).

(** An entry without its trailing carriage returns. *)
Fixpoint strip_trailing_cr (s : list Z) : list Z :=
  match s with
  | [] => []
  | b :: s =>
      match strip_trailing_cr s with
      | [] => if b =? 13 then [] else [b]
      | r => b :: r
      end
  end.

(** An entry cut at its first carriage return. *)
Definition cut_cr (s : list Z) : list Z :=
  match cut_at 13 s with
  | Some r => r
  | None => s
  end.

(** No entry equals the one after it. *)
Fixpoint adjacent_distinct (h : list (list Z)) : Prop :=
  match h with
  | a :: (b :: _) as rest => a <> b /\ adjacent_distinct rest
  | _ => True
  end.

(** An entry that is a C string of one line, short enough for [fgets] to
    read it with its newline in one call. *)
Definition line_entry (e : list Z) : Prop :=
  Forall (fun b => b <> 10 /\ b <> 0) e
  /\ Z.of_nat (length e) < LINENOISE_MAX_LINE - 1.

(** The round trip as the specification words it: every history of
    newline-free entries that fit a line of [LINENOISE_MAX_LINE] bytes comes
    back, up to trailing carriage returns. *)
Definition roundtrip_as_stated (h : list (list Z)) (ls : LinenoiseState) : Prop :=
  Forall (fun e => Forall (fun b => b <> 10 /\ b <> 0) e
                   /\ Z.of_nat (length e) < LINENOISE_MAX_LINE) h ->
  history ls = [] ->
  Z.of_nat (length h) <= history_max_len ls ->
  exists r ls',
    save_then_load h ls = Done (r, ls')
    /\ history ls' = map strip_trailing_cr h.

(** A well-formed session: an allocated buffer that satisfies the
    invariant. *)
Definition good (l : LinenoiseState) : Prop := allocated l /\ session_inv l.

(** ** Predicates and functions of the further properties *)

(** The line being edited: the first [len] bytes of the buffer. *)
Definition current_line (l : LinenoiseState) : list Z :=
  take (Z.to_nat (len l)) (buf l).

(** Every hint a hints callback returns is shorter than [INT_MAX]. *)
Definition short_hints (hc : option hints_callback) : Prop :=
  forall cb s h color bold,
    hc = Some cb -> cb s = (Some h, color, bold) -> Z.of_nat (length h) < 2 ^ 31.

(** The terminal width is a positive [int], the prompt is narrower than the
    terminal in single-line mode, and hints are short. *)
Definition renders (hc : option hints_callback) (l : LinenoiseState) : Prop :=
  1 <= cols l < 2 ^ 31
  /\ (mlmode l = false -> Z.of_nat (length (prompt l)) < cols l)
  /\ short_hints hc.

(** The window of the single-line refresh in closed form: the line is
    scrolled just far enough for the cursor to stand in the last column,
    and cut at the right edge. *)
Definition scroll_window (l : LinenoiseState) : window :=
  let plen := Z.of_nat (length (prompt l)) in
  let k := Z.max 0 (plen + pos l - cols l + 1) in
  {| win_off := k;
     win_len := Z.min (len l - k) (cols l - plen);
     win_pos := pos l - k |}.

(** What a refresh writes before the prompt: in multi-line mode the
    sequences that go down to the last row used before, clear every row
    going up and clear the top row; in single-line mode a carriage
    return. *)
Definition refresh_prefix (l : LinenoiseState) : list Z :=
  if mlmode l then
    let plen := C.int (Z.of_nat (length (prompt l))) in
    let rpos := C.int (C.size_t (C.size_t (C.size_t plen + oldpos l) + cols l) / cols l) in
    let old_rows := C.int (maxrows l) in
    (if old_rows - rpos >? 0
     then csi "" ++ dec (old_rows - rpos) ++ bytes_of_string "B"
     else [])
    ++ concat (replicate (Z.to_nat (old_rows - 1)) ([13] ++ csi "0K" ++ csi "1A"))
    ++ [13] ++ csi "0K"
  else [13].

(** What no key changes in a session: the descriptors, the capacity, the
    prompt, the width, the modes, the saved terminal attributes and the
    bound of the history. *)
Definition setup (l : LinenoiseState)
    : Z * Z * Z * Z * list Z * Z * Z * bool * bool * bool * termios * Z :=
  (ifd l, ofd l, efd l, buflen l, prompt l, plen l, cols l, mlmode l,
   rawmode l, nonblock l, orig_termios l, history_max_len l).

(** No coming [write] to the output descriptor fails. *)
Definition writes_succeed (w : world) : Prop :=
  Forall (fun ok => ok = true) (w_wr w).

(** A byte of text: printable ASCII or a byte of a multi-byte character. *)
Definition plain (c : Z) : Prop := 32 <= c < 127 \/ 128 <= c < 256.

(** What no key changes in the world: whether the input is a terminal, its
    attributes and whether they can be read and set, [TERM], and [stdin]. *)
Definition terminal (w : world)
    : bool * termios * bool * bool * option (list Z) * list Z :=
  (w_isatty w, w_attr w, w_tcget_ok w, w_tcset_ok w, w_term w, w_stdin w).

(** From [(l, w)] to [(l', w')] the setup of the session and the terminal
    are kept, and writes that succeeded before still succeed. *)
Definition kept (l : LinenoiseState) (w : world) (l' : LinenoiseState) (w' : world)
    : Prop :=
  setup l' = setup l /\ terminal w' = terminal w
  /\ (writes_succeed w -> writes_succeed w').

(** What a refresh needs of a session: the cursor inside the line, a
    length that is an [int], and the NUL after the line inside the
    allocation. *)
Definition drawable (l : LinenoiseState) : Prop :=
  0 <= pos l <= len l /\ len l < 2 ^ 31 /\ Mem.load (buf l) (len l) = Done 0.

(** A process whose input is not a terminal and whose [stdin] holds
    [input]. *)
Definition pipe (input : list Z) : world :=
  {| w_isatty := false; w_attr := zero_termios; w_tcget_ok := false;
     w_tcset_ok := false; w_in := []; w_out := []; w_err := [];
     w_wr := []; w_term := None; w_stdin := input; w_errno := 0 |}.

(** A terminal whose [TERM] is [term] and whose [stdin] holds [input]. *)
Definition term_tty (term : string) (input : list Z) : world :=
  {| w_isatty := true; w_attr := zero_termios; w_tcget_ok := true;
     w_tcset_ok := true; w_in := []; w_out := []; w_err := [];
     w_wr := []; w_term := Some (bytes_of_string term); w_stdin := input;
     w_errno := 0 |}.

(** * Properties *)

(** A bind that returned: its first part returned too. *)
Ltac bind_inv H :=
  match type of H with
  | obind ?m _ = Done _ =>
      let E := fresh "E" in
      destruct m eqn:E; cbn [obind] in H; [| discriminate H | discriminate H]
  end.

(** Boolean tests in the hypotheses, as propositions. *)
Ltac zbool :=
  repeat match goal with
  | H : (_ && _) = true |- _ => apply andb_prop in H; destruct H
  | H : negb _ = true |- _ => apply negb_true_iff in H
  | H : negb _ = false |- _ => apply negb_false_iff in H
  | H : (_ <? _) = true |- _ => apply Z.ltb_lt in H
  | H : (_ <? _) = false |- _ => apply Z.ltb_ge in H
  | H : (_ <=? _) = true |- _ => apply Z.leb_le in H
  | H : (_ <=? _) = false |- _ => apply Z.leb_gt in H
  | H : (_ =? _) = true |- _ => apply Z.eqb_eq in H
  | H : (_ =? _) = false |- _ => apply Z.eqb_neq in H
  | H : (_ >? _) = _ |- _ => rewrite Z.gtb_ltb in H
  | H : (_ >=? _) = _ |- _ => rewrite Z.geb_leb in H
  end.

(** Every bind of a hypothesis. *)
Ltac bind_all H := repeat bind_inv H.

(** ** Machine arithmetic *)

Lemma size_t_small (x : Z) : 0 <= x < C.SIZE_MAX1 -> C.size_t x = x.
Proof. apply Z.mod_small. Qed.

Lemma size_t_range (x : Z) : 0 <= C.size_t x < C.SIZE_MAX1.
Proof. apply Z.mod_pos_bound. reflexivity. Qed.

(** Decrementing a wrapped sum. *)
Lemma size_t_pred_sum (a b : Z) :
  C.size_t (a + C.size_t (b - 1)) = C.size_t (C.size_t (a + b) - 1).
Proof.
  unfold C.size_t. rewrite Zplus_mod_idemp_r, Zminus_mod_idemp_l.
  f_equal. lia.
Qed.

Lemma int_small (x : Z) : - 2 ^ 31 <= x < 2 ^ 31 -> C.int x = x.
Proof. intros H. unfold C.int. rewrite Z.mod_small; lia. Qed.

Lemma size_t_int_small (x : Z) : 0 <= x < 2 ^ 31 -> C.size_t (C.int x) = x.
Proof.
  intros H. rewrite int_small by lia. apply size_t_small.
  unfold C.SIZE_MAX1. lia.
Qed.

(** ** Loads and stores *)

Lemma load_lookup (m : list Z) (i v : Z) :
  Mem.load m i = Done v <-> 0 <= i /\ m !! Z.to_nat i = Some v.
Proof.
  unfold Mem.load, Mem.in_bounds, Mem.size. split.
  - destruct ((0 <=? i) && (i <? Z.of_nat (length m))) eqn:E; [| discriminate].
    zbool. intros [= <-]. split; [lia |].
    destruct (nth_lookup_or_length m (Z.to_nat i) 0) as [H' | H']; [exact H' | lia].
  - intros [Hi Hl]. pose proof (lookup_lt_Some _ _ _ Hl).
    destruct ((0 <=? i) && (i <? Z.of_nat (length m))) eqn:E.
    + rewrite (nth_lookup_Some _ _ _ _ Hl). reflexivity.
    + apply andb_false_iff in E as [E | E]; zbool; lia.
Qed.

Lemma load_in_bounds (m : list Z) (i v : Z) :
  Mem.load m i = Done v -> 0 <= i < Mem.size m.
Proof.
  intros H. apply load_lookup in H as [Hi Hl]. apply lookup_lt_Some in Hl.
  unfold Mem.size. lia.
Qed.

Lemma store_inv (m : list Z) (i v : Z) (m' : list Z) :
  Mem.store m i v = Done m' ->
  0 <= i < Mem.size m /\ m' = <[Z.to_nat i := v]> m.
Proof.
  unfold Mem.store, Mem.in_bounds.
  destruct ((0 <=? i) && (i <? Mem.size m)) eqn:E; [| discriminate].
  zbool. intros [= <-]. split; [lia | reflexivity].
Qed.

Lemma store_size (m : list Z) (i v : Z) (m' : list Z) :
  Mem.store m i v = Done m' -> Mem.size m' = Mem.size m.
Proof.
  intros H. apply store_inv in H as [_ ->]. unfold Mem.size.
  rewrite length_insert. reflexivity.
Qed.

Lemma load_store_same (m : list Z) (i v : Z) (m' : list Z) :
  Mem.store m i v = Done m' -> Mem.load m' i = Done v.
Proof.
  intros H. apply store_inv in H as [Hi ->]. apply load_lookup.
  split; [lia |]. apply list_lookup_insert_eq. unfold Mem.size in Hi. lia.
Qed.

Lemma load_store_other (m : list Z) (i v : Z) (m' : list Z) (j : Z) :
  Mem.store m i v = Done m' -> i <> j -> 0 <= j -> Mem.load m' j = Mem.load m j.
Proof.
  intros H Hne Hj. apply store_inv in H as [Hi ->].
  unfold Mem.load, Mem.in_bounds, Mem.size. rewrite length_insert.
  destruct ((0 <=? j) && (j <? Z.of_nat (length m))); [| reflexivity].
  rewrite !nth_lookup, list_lookup_insert_ne by lia. reflexivity.
Qed.

Lemma memmove_inv (m : list Z) (d s n : Z) (m' : list Z) :
  Mem.memmove m d s n = Done m' ->
  0 <= d /\ 0 <= s /\ 0 <= n /\ d + n <= Mem.size m /\ s + n <= Mem.size m
  /\ m' = take (Z.to_nat d) m ++ take (Z.to_nat n) (drop (Z.to_nat s) m)
          ++ drop (Z.to_nat (d + n)) m.
Proof.
  unfold Mem.memmove.
  match goal with |- (if ?b then _ else _) = _ -> _ => destruct b eqn:E end;
    [| discriminate].
  zbool. intros [= <-]. repeat split; lia.
Qed.

Lemma memmove_size (m : list Z) (d s n : Z) (m' : list Z) :
  Mem.memmove m d s n = Done m' -> Mem.size m' = Mem.size m.
Proof.
  intros H. apply memmove_inv in H as (Hd & Hs & Hn & Hdn & Hsn & ->).
  unfold Mem.size in *. rewrite !length_app, !length_take, !length_drop. lia.
Qed.

Lemma memmove_load (m : list Z) (d s n : Z) (m' : list Z) (k : Z) :
  Mem.memmove m d s n = Done m' -> 0 <= k < n ->
  Mem.load m' (d + k) = Mem.load m (s + k).
Proof.
  intros H Hk. pose proof (memmove_size _ _ _ _ _ H) as Hsize.
  apply memmove_inv in H as (Hd & Hs & Hn & Hdn & Hsn & ->).
  unfold Mem.load, Mem.in_bounds. rewrite Hsize.
  replace ((0 <=? d + k) && (d + k <? Mem.size m)) with true
    by (symmetry; apply andb_true_intro; split; lia).
  replace ((0 <=? s + k) && (s + k <? Mem.size m)) with true
    by (symmetry; apply andb_true_intro; split; lia).
  f_equal. unfold Mem.size in *. rewrite !nth_lookup.
  rewrite lookup_app_r by (rewrite length_take; lia).
  rewrite length_take.
  rewrite lookup_app_l by (rewrite length_take, length_drop; lia).
  rewrite lookup_take_lt by lia. rewrite lookup_drop. f_equal. f_equal. lia.
Qed.

Lemma strncpy_size (m s : list Z) (n : Z) (m' : list Z) :
  Mem.strncpy m s n = Done m' -> Mem.size m' = Mem.size m.
Proof.
  unfold Mem.strncpy.
  destruct ((0 <=? n) && (n <=? Mem.size m)) eqn:E; [| discriminate].
  zbool. intros [= <-]. unfold Mem.size in *.
  rewrite length_app, length_take, length_drop, length_app, length_replicate. lia.
Qed.

Lemma until_nul_spec (m s : list Z) :
  Mem.until_nul m = Some s ->
  m !! length s = Some 0
  /\ forall j, m !! j = Some 0 -> (length s <= j)%nat.
Proof.
  revert s. induction m as [| b m IH]; intros s H; [discriminate H |].
  cbn [Mem.until_nul] in H. destruct (b =? 0) eqn:E; zbool.
  - injection H as <-. subst b. split; [reflexivity |]. intros j _. cbn. lia.
  - destruct (Mem.until_nul m) as [s' |]; [| discriminate H].
    injection H as <-. destruct (IH s' eq_refl) as [Hz Hmin].
    split; [exact Hz |]. intros [| j] Hj; cbn in Hj.
    + congruence.
    + cbn [length]. apply Hmin in Hj. lia.
Qed.

Lemma strlen_spec (m : list Z) (n : Z) :
  Mem.strlen m = Done n ->
  Mem.load m n = Done 0 /\ forall j, Mem.load m j = Done 0 -> n <= j.
Proof.
  unfold Mem.strlen, Mem.cstr.
  destruct (Mem.until_nul m) as [s |] eqn:E; [| discriminate].
  cbn [obind]. intros [= <-]. destruct (until_nul_spec _ _ E) as [Hz Hmin].
  split.
  - apply load_lookup. rewrite Nat2Z.id. split; [lia | exact Hz].
  - intros j Hj. apply load_lookup in Hj as [Hj0 Hj]. apply Hmin in Hj. lia.
Qed.

Lemma snprintf_s_spec (m : list Z) (n : Z) (e : list Z) (r : Z) (m' : list Z) :
  Z.of_nat (length e) < n -> n < 2 ^ 31 ->
  Mem.snprintf_s m n e = Done (r, m') ->
  r = Z.of_nat (length e) /\ Mem.size m' = Mem.size m
  /\ Mem.load m' (Z.of_nat (length e)) = Done 0.
Proof.
  intros Hfit Hn. unfold Mem.snprintf_s.
  destruct (n =? 0) eqn:E0; zbool; [lia |].
  destruct ((0 <? n) && (n <=? Mem.size m)) eqn:E; [| discriminate]. zbool.
  rewrite take_ge by lia. intros [= <- <-]. unfold Mem.size in *.
  split; [unfold C.int; rewrite Z.mod_small; lia |]. split.
  - rewrite length_app. cbn [app length]. rewrite length_drop. lia.
  - apply load_lookup. rewrite Nat2Z.id. split; [lia |].
    rewrite lookup_app_r by lia. rewrite Nat.sub_diag. reflexivity.
Qed.

(** ** Refreshing leaves the edit buffer alone *)

Lemma RefreshSingleLine_session hc l w l' w' :
  RefreshSingleLine hc l w = Done (l', w') -> l' = l.
Proof.
  unfold RefreshSingleLine. intros H. bind_all H. congruence.
Qed.

Lemma RefreshMultiLine_memo hc l w l' w' :
  RefreshMultiLine hc l w = Done (l', w') -> l' = memo_of l l'.
Proof.
  unfold RefreshMultiLine. intros H. bind_all H.
  injection H as <- _. destruct l; unfold memo_of; cbn.
  repeat match goal with
         | |- context [if ?b then _ else _] => destruct b; cbn
         end; reflexivity.
Qed.

Lemma RefreshLine_memo hc l w l' w' :
  RefreshLine hc l w = Done (l', w') -> l' = memo_of l l'.
Proof.
  unfold RefreshLine. destruct (mlmode l).
  - apply RefreshMultiLine_memo.
  - intros H. apply RefreshSingleLine_session in H. subst l'.
    destruct l; reflexivity.
Qed.

Lemma RefreshLine_buffer hc l w l' w' :
  RefreshLine hc l w = Done (l', w') ->
  buf l' = buf l /\ buflen l' = buflen l /\ len l' = len l /\ pos l' = pos l.
Proof.
  intros H. apply RefreshLine_memo in H. rewrite H. repeat split.
Qed.

(** ** Raw mode *)

Lemma EnableRawMode_success (ls : LinenoiseState) (w : world) :
  w_isatty w = true -> w_tcget_ok w = true -> w_tcset_ok w = true ->
  exists ls' w', EnableRawMode ls w = (0, ls', w') /\ rawmode ls' = false.
Proof.
  intros Htty Hget Hset. unfold EnableRawMode, Sys.tcgetattr, Sys.tcsetattr.
  rewrite Htty, Hget, Hset. simpl. eauto.
Qed.

(** C1.  On a terminal where [tcgetattr] and [tcsetattr] succeed,
    [EnableRawMode] returns 0, and the session's [rawmode] flag is false
    afterwards, not true: the success path assigns [false].  So
    [DisableRawMode], which restores the terminal only when the flag is
    set, leaves the terminal in raw mode after the line was read. *)
Theorem EnableRawMode_leaves_rawmode_false :
  (do ls <- LinenoiseCreate 0 1 2 example_prompt 80;
   let '(r, ls, w) := EnableRawMode ls (tty []) in
   let '(ls', w') := DisableRawMode ls w in
   Done (r, rawmode ls, c_cflag (orig_termios ls), c_cflag (w_attr w),
         c_cflag (w_attr w')))
  = Done (0, false, 0, Termios.CS8, Termios.CS8).
Proof. vm_compute. reflexivity. Qed.

(** ** The invariant of the edit buffer *)

Ltac szg :=
  repeat match goal with
         | |- context [C.size_t ?x] =>
             rewrite (size_t_small x) by (unfold C.SIZE_MAX1; lia)
         end.

Ltac sz :=
  szg;
  repeat match goal with
         | H : context [C.size_t ?x] |- _ =>
             rewrite (size_t_small x) in H by (unfold C.SIZE_MAX1; lia)
         end.

Lemma good_make (l0 l : LinenoiseState) :
  allocated l0 -> buflen l = buflen l0 ->
  Mem.size (buf l) = Mem.size (buf l0) ->
  0 <= pos l -> pos l <= len l -> len l <= buflen l0 ->
  Mem.load (buf l) (len l) = Done 0 ->
  good l /\ buflen l = buflen l0.
Proof.
  intros [Hsize Hcap] Hb Hs Hpos Hle Hlen Hnul.
  split; [| exact Hb]. split; [split | repeat split]; try lia; try assumption.
Qed.

Lemma refresh_good hc (l0 l : LinenoiseState) (w : world) l' w' :
  good l /\ buflen l = buflen l0 ->
  RefreshLine hc l w = Done (l', w') ->
  good l' /\ buflen l' = buflen l0.
Proof.
  intros [[[Hsize Hcap] (Hpos & Hle & Hlen & Hnul)] Hb] H.
  apply RefreshLine_buffer in H as (Hbuf & Hbl & Hl & Hp).
  split; [| lia]. split; [split | repeat split]; rewrite ?Hbuf, ?Hbl, ?Hl, ?Hp;
    try lia; assumption.
Qed.

Ltac good_hyps Hg :=
  let Hsize := fresh "Hsize" in let Hcap := fresh "Hcap" in
  let Hpos := fresh "Hpos" in let Hle := fresh "Hle" in
  let Hlen := fresh "Hlen" in let Hnul := fresh "Hnul" in
  pose proof Hg as [[Hsize Hcap] (Hpos & Hle & Hlen & Hnul)];
  pose proof (load_in_bounds _ _ _ Hnul).

Tactic Notation "fields" :=
  cbn [buf buflen pos len history history_index mlmode
       set_buf set_pos set_len set_history set_history_index].
Tactic Notation "fields" "in" hyp(H) :=
  cbn [buf buflen pos len history history_index mlmode
       set_buf set_pos set_len set_history set_history_index] in H.

(** Close a goal [good l' /\ buflen l' = buflen l] for an explicit [l']. *)
Ltac solve_good Hg :=
  apply good_make;
  [ exact (proj1 Hg) | reflexivity
  | fields;
    repeat first [ erewrite store_size by eassumption
                 | erewrite memmove_size by eassumption
                 | erewrite strncpy_size by eassumption ];
    reflexivity
  | fields; szg; try lia
  | fields; szg; try lia
  | fields; szg; try lia
  | fields; szg; try (eapply load_store_same; eassumption) ].

Lemma LinenoiseEditInsert_good hc l c w r l' w' :
  good l -> LinenoiseEditInsert hc l c w = Done (r, l', w') ->
  good l' /\ buflen l' = buflen l.
Proof.
  intros Hg H. good_hyps Hg. unfold LinenoiseEditInsert in H.
  destruct (len l <? buflen l) eqn:Ecap; zbool;
    [| injection H as _ <- _; split; [exact Hg | reflexivity]].
  destruct (len l =? pos l) eqn:Eend; zbool.
  - bind_inv H. cbn [set_buf set_pos set_len buf len pos mlmode plen cols] in H.
    bind_inv H. sz.
    match type of H with (if ?b then _ else _) = _ => destruct b end.
    + destruct (Sys.write w [c]) as [n w1]. destruct (n =? -1);
        injection H as _ <- _; solve_good Hg.
    + bind_inv H. destruct a1 as [l1 w1]. injection H as _ <- _.
      eapply refresh_good; [| eassumption]. solve_good Hg.
  - bind_inv H. bind_inv H.
    cbn [set_buf set_pos set_len buf len pos mlmode plen cols] in H.
    bind_inv H. sz. bind_inv H. destruct a2 as [l1 w1]. injection H as _ <- _.
    eapply refresh_good; [| eassumption]. solve_good Hg.
Qed.

Lemma moved_good hc (l : LinenoiseState) (p : Z) (w : world) l' w' :
  good l -> 0 <= p <= len l ->
  RefreshLine hc (set_pos l p) w = Done (l', w') ->
  good l' /\ buflen l' = buflen l.
Proof.
  intros Hg Hp H. good_hyps Hg.
  eapply refresh_good; [| eassumption]. solve_good Hg. exact Hnul.
Qed.

Lemma LinenoiseEditMoveLeft_good hc l w l' w' :
  good l -> LinenoiseEditMoveLeft hc l w = Done (l', w') ->
  good l' /\ buflen l' = buflen l.
Proof.
  intros Hg H. good_hyps Hg. unfold LinenoiseEditMoveLeft in H.
  destruct (pos l >? 0) eqn:E; zbool.
  - sz. eapply moved_good; [exact Hg | | eassumption]. lia.
  - injection H as <- _. split; [exact Hg | reflexivity].
Qed.

Lemma LinenoiseEditMoveRight_good hc l w l' w' :
  good l -> LinenoiseEditMoveRight hc l w = Done (l', w') ->
  good l' /\ buflen l' = buflen l.
Proof.
  intros Hg H. good_hyps Hg. unfold LinenoiseEditMoveRight in H.
  destruct (pos l =? len l) eqn:E; zbool; cbn [negb] in H.
  - injection H as <- _. split; [exact Hg | reflexivity].
  - sz. eapply moved_good; [exact Hg | | eassumption]. lia.
Qed.

Lemma LinenoiseEditMoveHome_good hc l w l' w' :
  good l -> LinenoiseEditMoveHome hc l w = Done (l', w') ->
  good l' /\ buflen l' = buflen l.
Proof.
  intros Hg H. good_hyps Hg. unfold LinenoiseEditMoveHome in H.
  destruct (pos l =? 0) eqn:E; zbool; cbn [negb] in H.
  - injection H as <- _. split; [exact Hg | reflexivity].
  - eapply moved_good; [exact Hg | | eassumption]. lia.
Qed.

Lemma LinenoiseEditMoveEnd_good hc l w l' w' :
  good l -> LinenoiseEditMoveEnd hc l w = Done (l', w') ->
  good l' /\ buflen l' = buflen l.
Proof.
  intros Hg H. good_hyps Hg. unfold LinenoiseEditMoveEnd in H.
  destruct (pos l =? len l) eqn:E; zbool; cbn [negb] in H.
  - injection H as <- _. split; [exact Hg | reflexivity].
  - eapply moved_good; [exact Hg | | eassumption]. lia.
Qed.

Lemma LinenoiseEditDelete_good hc l w l' w' :
  good l -> LinenoiseEditDelete hc l w = Done (l', w') ->
  good l' /\ buflen l' = buflen l.
Proof.
  intros Hg H. good_hyps Hg. unfold LinenoiseEditDelete in H.
  destruct ((len l >? 0) && (pos l <? len l)) eqn:E; zbool;
    [| injection H as <- _; split; [exact Hg | reflexivity]].
  bind_inv H. fields in H. bind_inv H. sz.
  eapply refresh_good; [| eassumption]. solve_good Hg.
Qed.

Lemma LinenoiseEditBackspace_good hc l w l' w' :
  good l -> LinenoiseEditBackspace hc l w = Done (l', w') ->
  good l' /\ buflen l' = buflen l.
Proof.
  intros Hg H. good_hyps Hg. unfold LinenoiseEditBackspace in H.
  destruct ((pos l >? 0) && (len l >? 0)) eqn:E; zbool;
    [| injection H as <- _; split; [exact Hg | reflexivity]].
  bind_inv H. fields in H. bind_inv H. sz.
  eapply refresh_good; [| eassumption]. solve_good Hg.
Qed.

Lemma retreat_le (fuel : nat) (space : bool) (b : list Z) (p p' : Z) :
  0 <= p < C.SIZE_MAX1 -> retreat fuel space b p = Done p' -> 0 <= p' <= p.
Proof.
  revert p. induction fuel as [| fuel IH]; intros p Hp H; [discriminate H |].
  cbn [retreat] in H. destruct (p >? 0) eqn:E; zbool; [| injection H as <-; lia].
  bind_inv H. destruct (eqb (a =? 32) space); [| injection H as <-; lia].
  rewrite size_t_small in H by lia. apply IH in H; lia.
Qed.

Lemma LinenoiseEditDeletePrevWord_good hc l w l' w' :
  good l -> LinenoiseEditDeletePrevWord hc l w = Done (l', w') ->
  good l' /\ buflen l' = buflen l.
Proof.
  intros Hg H. good_hyps Hg. unfold LinenoiseEditDeletePrevWord in H.
  bind_inv H. apply retreat_le in E; [| unfold C.SIZE_MAX1; lia].
  bind_inv H. apply retreat_le in E0; [| unfold C.SIZE_MAX1; lia].
  fields in H. bind_inv H. sz.
  eapply refresh_good; [| eassumption]. solve_good Hg.
  replace (len l - (pos l - a0)) with (a0 + (len l - pos l)) by lia.
  erewrite memmove_load by (try eassumption; lia).
  replace (pos l + (len l - pos l)) with (len l) by lia. exact Hnul.
Qed.

Lemma hist_store_length h i e h' :
  hist_store h i e = Done h' -> length h' = length h.
Proof.
  unfold hist_store. destruct ((0 <=? i) && (i <? Z.of_nat (length h))); [| discriminate].
  intros [= <-]. apply length_insert.
Qed.

Lemma LinenoiseEditHistoryNext_good hc l dir w l' w' :
  good l -> LinenoiseEditHistoryNext hc l dir w = Done (l', w') ->
  good l' /\ buflen l' = buflen l.
Proof.
  intros Hg H. good_hyps Hg. unfold LinenoiseEditHistoryNext in H.
  destruct (history_len l >? 1);
    [| injection H as <- _; split; [exact Hg | reflexivity]].
  bind_inv H. bind_inv H.
  match type of H with (if ?b then _ else _) = _ => destruct b end;
    [injection H as <- _; solve_good Hg; exact Hnul |].
  match type of H with (if ?b then _ else _) = _ => destruct b end;
    [injection H as <- _; solve_good Hg; exact Hnul |].
  bind_inv H. fields in H. bind_inv H. bind_inv H. fields in H. bind_inv H.
  pose proof (strlen_spec _ _ E4) as [Hz Hmin].
  pose proof (store_inv _ _ _ _ E3) as [Hin _].
  pose proof (strncpy_size _ _ _ _ E2) as Hs.
  assert (Hb : 0 < buflen l).
  { destruct (Z.eq_dec (buflen l) 0) as [H0' | ?]; [| lia].
    rewrite H0' in Hin. change (C.size_t (0 - 1)) with (2 ^ 64 - 1) in Hin. lia. }
  sz. pose proof (Hmin _ (load_store_same _ _ _ _ E3)).
  pose proof (load_in_bounds _ _ _ Hz).
  eapply refresh_good; [| eassumption]. solve_good Hg. exact Hz.
Qed.

Lemma continue_inv r k ls' w' :
  continue r = Done (k, ls', w') -> r = Done (ls', w').
Proof.
  unfold continue. intros H. bind_inv H. destruct a. congruence.
Qed.

Lemma good_set_history (l : LinenoiseState) (h : list (list Z)) :
  good l -> good (set_history l h) /\ buflen (set_history l h) = buflen l.
Proof. intros Hg. split; [exact Hg | reflexivity]. Qed.

(** Finish a branch: an operation that keeps the invariant, or no change. *)
Ltac op_good Hg :=
  first
    [ match goal with H : _ = Done _ |- _ => discriminate H end
    | match goal with
      | H : Done (_, _) = Done (_, _) |- _ =>
          injection H as <- _; split; [exact Hg | reflexivity]
      end
    | eapply LinenoiseEditDelete_good; eassumption
    | eapply LinenoiseEditBackspace_good; eassumption
    | eapply LinenoiseEditHistoryNext_good; eassumption
    | eapply LinenoiseEditMoveLeft_good; eassumption
    | eapply LinenoiseEditMoveRight_good; eassumption
    | eapply LinenoiseEditMoveHome_good; eassumption
    | eapply LinenoiseEditMoveEnd_good; eassumption
    | eapply LinenoiseEditDeletePrevWord_good; eassumption ].

Lemma dispatch_escape_good hc ls w ls' w' :
  good ls -> dispatch_escape hc ls w = Done (ls', w') ->
  good ls' /\ buflen ls' = buflen ls.
Proof.
  intros Hg H. unfold dispatch_escape in H.
  destruct (Sys.read w) as [r0 w0].
  destruct r0 as [s0 | |]; try op_good Hg;
    destruct (Sys.read w0) as [r1 w1];
    destruct r1 as [s1 | |]; try op_good Hg.
  - destruct (s0 =? 91).
    + destruct ((48 <=? s1) && (s1 <=? 57)).
      * destruct (Sys.read w1) as [r2 w2]. destruct r2 as [s2 | |]; try op_good Hg.
        destruct (s2 =? 126); [| op_good Hg].
        destruct (s1 =? 51); op_good Hg.
      * repeat match type of H with
               | (if ?b then _ else _) = _ => destruct b
               end; op_good Hg.
    + destruct (s0 =? 79); [| op_good Hg].
      repeat match type of H with
             | (if ?b then _ else _) = _ => destruct b
             end; op_good Hg.
  - destruct (s0 =? 91); [op_good Hg |]. destruct (s0 =? 79); op_good Hg.
Qed.

Lemma dispatch_good hc c ls w k ls' w' :
  good ls -> dispatch hc c ls w = Done (k, ls', w') ->
  good ls' /\ buflen ls' = buflen ls.
Proof.
  intros Hg H. good_hyps Hg. unfold dispatch in H.
  destruct (c =? Key.ENTER).
  { set (ls1 := if history_len ls >? 0
                then set_history ls (removelast (history ls)) else ls) in H.
    assert (Hg1 : good ls1 /\ buflen ls1 = buflen ls).
    { subst ls1. destruct (history_len ls >? 0);
        [apply good_set_history; exact Hg | split; [exact Hg | reflexivity]]. }
    clearbody ls1. destruct Hg1 as [Hg1 Hb1].
    bind_inv H. destruct a as [ls2 w2].
    assert (Hg2 : good ls2 /\ buflen ls2 = buflen ls1).
    { destruct (mlmode ls1); [eapply LinenoiseEditMoveEnd_good; eassumption |].
      injection E as <- _. split; [exact Hg1 | reflexivity]. }
    destruct Hg2 as [Hg2 Hb2].
    bind_inv H. destruct a as [ls3 w3]. injection H as _ <- _.
    destruct hc.
    - eapply refresh_good; [| eassumption]. split; [exact Hg2 | lia].
    - injection E0 as <- _. split; [exact Hg2 | lia]. }
  destruct (c =? Key.CTRL_C);
    [injection H as _ <- _; split; [exact Hg | reflexivity] |].
  destruct ((c =? Key.BACKSPACE) || (c =? 8));
    [apply continue_inv in H; op_good Hg |].
  destruct (c =? Key.CTRL_D).
  { destruct (len ls >? 0); [apply continue_inv in H; op_good Hg |].
    bind_inv H. injection H as _ <- _. apply good_set_history. exact Hg. }
  destruct (c =? Key.CTRL_T).
  { destruct ((pos ls >? 0) && (pos ls <? len ls)) eqn:Et; zbool;
      [| injection H as _ <- _; split; [exact Hg | reflexivity]].
    do 4 bind_inv H. apply continue_inv in H.
    assert (Hz : Mem.load a2 (len ls) = Done 0).
    { erewrite load_store_other; [| eassumption | lia | lia].
      erewrite load_store_other; [| eassumption | lia | lia]. exact Hnul. }
    fields in H.
    eapply refresh_good; [| eassumption].
    destruct (pos ls =? C.size_t (len ls - 1)) eqn:Ep; cbn [negb]; sz; zbool;
      solve_good Hg; exact Hz. }
  destruct (c =? Key.CTRL_B); [apply continue_inv in H; op_good Hg |].
  destruct (c =? Key.CTRL_F); [apply continue_inv in H; op_good Hg |].
  destruct (c =? Key.CTRL_P); [apply continue_inv in H; op_good Hg |].
  destruct (c =? Key.CTRL_N); [apply continue_inv in H; op_good Hg |].
  destruct (c =? Key.ESC);
    [apply continue_inv in H; eapply dispatch_escape_good; eassumption |].
  destruct (c =? Key.CTRL_U).
  { bind_inv H. apply continue_inv in H.
    eapply refresh_good; [| eassumption]. solve_good Hg. }
  destruct (c =? Key.CTRL_K).
  { bind_inv H. apply continue_inv in H. fields in H.
    eapply refresh_good; [| eassumption]. solve_good Hg. }
  destruct (c =? Key.CTRL_A); [apply continue_inv in H; op_good Hg |].
  destruct (c =? Key.CTRL_E); [apply continue_inv in H; op_good Hg |].
  destruct (c =? Key.CTRL_L).
  { apply continue_inv in H. eapply refresh_good; [| eassumption].
    split; [exact Hg | reflexivity]. }
  destruct (c =? Key.CTRL_W); [apply continue_inv in H; op_good Hg |].
  bind_inv H. destruct a as [[r l1] w1].
  apply LinenoiseEditInsert_good in E; [| exact Hg].
  destruct (negb (r =? 0)); injection H as _ <- _; exact E.
Qed.

Lemma hist_load_In (h : list (list Z)) (i : Z) (e : list Z) :
  hist_load h i = Done e -> In e h.
Proof.
  unfold hist_load. destruct ((0 <=? i) && (i <? Z.of_nat (length h))); [| discriminate].
  destruct (h !! Z.to_nat i) as [e' |] eqn:El; [| discriminate].
  intros [= <-]. apply list_elem_of_In. eapply list_elem_of_lookup_2. exact El.
Qed.

Lemma complete_loop_good (fuel : nat) hc (lc : list (list Z)) :
  forall (i : Z) (ls : LinenoiseState) (w : world) r ls' w',
    good ls ->
    (forall c, In c lc -> Z.of_nat (length c) < buflen ls) ->
    complete_loop fuel hc lc i ls w = Done (r, ls', w') ->
    good ls' /\ buflen ls' = buflen ls.
Proof.
  induction fuel as [| fuel IH]; intros i ls w r ls' w' Hg Hfit H;
    [discriminate H |].
  good_hyps Hg. cbn [complete_loop] in H. bind_inv H. destruct a as [ls1 w1].
  assert (Hg1 : good ls1 /\ buflen ls1 = buflen ls).
  { destruct (i <? Z.of_nat (length lc)).
    - bind_inv E. bind_inv E. destruct a0 as [shown w2]. injection E as <- _.
      apply RefreshLine_buffer in E1 as (_ & Hbl & _ & _).
      apply good_make; fields; try assumption; try lia.
      exact (proj1 Hg).
    - eapply refresh_good; [| eassumption]. split; [exact Hg | reflexivity]. }
  clear E. destruct Hg1 as [Hg1 Hb1].
  destruct (Sys.read w1) as [rd w2]. destruct rd as [c | |];
    try (injection H as _ <- _; split; assumption).
  destruct (c =? 9).
  { apply IH in H; [| exact Hg1 | intros e He; rewrite Hb1; auto].
    destruct H as [H1 H2]. split; [exact H1 | lia]. }
  destruct (c =? 27).
  { bind_inv H. destruct a as [ls2 w3]. injection H as _ <- _.
    destruct (i <? Z.of_nat (length lc)).
    - eapply refresh_good; [| eassumption]. split; assumption.
    - injection E as <- _. split; assumption. }
  bind_inv H. injection H as _ <- _.
  destruct (i <? Z.of_nat (length lc)); [| injection E as <-; split; assumption].
  bind_inv E. bind_inv E. destruct a1 as [nwritten b]. injection E as <-.
  pose proof (Hfit _ (hist_load_In _ _ _ E0)) as Hlen_e.
  destruct Hg1 as [[Hsize1 Hcap1] _].
  apply snprintf_s_spec in E1 as (-> & Hsz & Hz); [| lia | lia].
  split; [| exact Hb1]. split; [split | repeat split]; fields; sz;
    rewrite ?Hsz; try lia; assumption.
Qed.

Lemma CompleteLine_good cb hc ls w r ls' w' :
  good ls ->
  (forall line c, In c (cb line) -> Z.of_nat (length c) < buflen ls) ->
  CompleteLine cb hc ls w = Done (r, ls', w') ->
  good ls' /\ buflen ls' = buflen ls.
Proof.
  intros Hg Hfit H. unfold CompleteLine in H. bind_inv H.
  destruct (Z.of_nat (length (cb a)) =? 0).
  - injection H as _ <- _. split; [exact Hg | reflexivity].
  - eapply complete_loop_good; [exact Hg | | eassumption]. intros c Hc. eauto.
Qed.

Lemma edit_turn_good cc hc ls w k ls' w' :
  good ls -> candidates_fit cc ls ->
  edit_turn cc hc ls w = Done (k, ls', w') ->
  good ls' /\ buflen ls' = buflen ls.
Proof.
  intros Hg Hfit H. unfold edit_turn in H.
  destruct (Sys.read w) as [rd w1].
  destruct rd as [c | |];
    try (injection H as _ <- _; split; [exact Hg | reflexivity]).
  destruct cc as [cb |]; [| eapply dispatch_good; eassumption].
  destruct (c =? 9); [| eapply dispatch_good; eassumption].
  bind_inv H. destruct a as [[r ls1] w2].
  apply CompleteLine_good in E; [| exact Hg | intros line e He; eapply Hfit; eauto].
  destruct E as [Hg1 Hb1].
  destruct (C.char_negative (C.char r)); [injection H as _ <- _; split; assumption |].
  destruct (C.char r =? 0); [injection H as _ <- _; split; assumption |].
  apply dispatch_good in H; [| exact Hg1]. destruct H as [H1 H2].
  split; [exact H1 | lia].
Qed.

Lemma after_turns_good cc hc ls w ls' w' :
  after_turns cc hc ls w ls' w' ->
  good ls -> candidates_fit cc ls ->
  good ls' /\ buflen ls' = buflen ls.
Proof.
  induction 1 as [ls w k ls' w' Hturn | ls w ls1 w1 ls' w' Hturn _ IH];
    intros Hg Hfit.
  - eapply edit_turn_good; eassumption.
  - destruct (edit_turn_good _ _ _ _ _ _ _ Hg Hfit Hturn) as [Hg1 Hb1].
    destruct IH as [H1 H2]; [exact Hg1 | |].
    + intros cb line c Hcc Hc. rewrite Hb1. eapply Hfit; eassumption.
    + split; [exact H1 | lia].
Qed.

Lemma edit_loop_turns (fuel : nat) cc hc :
  forall ls w n ls' w',
    edit_loop fuel cc hc ls w = Done (n, ls', w') ->
    after_turns cc hc ls w ls' w'.
Proof.
  induction fuel as [| fuel IH]; intros ls w n ls' w' H; [discriminate H |].
  cbn [edit_loop] in H. bind_inv H. destruct a as [[k ls1] w1].
  destruct k as [| count].
  - eapply turns_next; [exact E | eapply IH; exact H].
  - injection H as _ <- <-. eapply turns_last. exact E.
Qed.

Lemma empty_good (ls : LinenoiseState) :
  allocated ls -> empty_buffer ls -> good ls.
Proof.
  intros Ha (Hl & Hp & Hz). split; [exact Ha |]. destruct Ha as [_ Hcap].
  unfold session_inv. rewrite Hl, Hp. repeat split; try lia. exact Hz.
Qed.

(** X28.  Start the editing loop on an allocated session with an empty
    buffer, with completion candidates (if a callback is registered)
    shorter than [buflen].  After every turn of the loop, whatever bytes
    were read, [0 <= pos <= len <= buflen] and [buf[len] == 0], where
    [buflen] is the field of the session, one less than the size of the
    buffer: the line and its terminator lie inside the buffer. *)
Theorem edit_loop_invariant cc hc (ls : LinenoiseState) (w : world)
    (ls' : LinenoiseState) (w' : world) :
  allocated ls -> empty_buffer ls -> candidates_fit cc ls ->
  after_turns cc hc ls w ls' w' ->
  session_inv ls' /\ len ls' < Mem.size (buf ls').
Proof.
  intros Ha He Hfit Hturns.
  destruct (after_turns_good _ _ _ _ _ _ Hturns (empty_good _ Ha He) Hfit)
    as [[[Hsize _] Hinv] _].
  split; [exact Hinv |]. destruct Hinv as (_ & _ & Hle & _). lia.
Qed.

Lemma edit_loop_invariant_witness :
  exists ls' w',
    after_turns (Some example_completion) (Some example_hints) example_session
      (tty (bytes_of_string "h" ++ [Key.TAB; Key.CTRL_A; Key.CTRL_K]
            ++ bytes_of_string "a b" ++ [Key.CTRL_W; Key.CTRL_T; Key.ENTER]))
      ls' w'
    /\ session_inv ls' /\ len ls' < Mem.size (buf ls').
Proof.
  destruct (edit_loop 12 (Some example_completion) (Some example_hints) example_session
              (tty (bytes_of_string "h" ++ [Key.TAB; Key.CTRL_A; Key.CTRL_K]
                    ++ bytes_of_string "a b" ++ [Key.CTRL_W; Key.CTRL_T; Key.ENTER])))
    as [[[n ls'] w'] | |] eqn:E; [| vm_compute in E; discriminate E ..].
  apply edit_loop_turns in E. exists ls', w'. split; [exact E |].
  apply (edit_loop_invariant (Some example_completion) (Some example_hints)
           example_session
           (tty (bytes_of_string "h" ++ [Key.TAB; Key.CTRL_A; Key.CTRL_K]
                 ++ bytes_of_string "a b" ++ [Key.CTRL_W; Key.CTRL_T; Key.ENTER]))
           ls' w').
  - split; vm_compute; [reflexivity | split; discriminate || reflexivity].
  - repeat split; vm_compute; reflexivity.
  - intros cb line c [= <-] Hc. unfold example_completion in Hc.
    destruct (bool_decide _); [| destruct line as [| b ?]; [| destruct (b =? 104)]];
      cbn [In] in Hc; try contradiction;
      destruct Hc as [<- | []]; vm_compute; reflexivity.
  - exact E.
Defined.

Lemma store_ok (m : list Z) (i v : Z) :
  0 <= i < Mem.size m -> Mem.store m i v = Done (<[Z.to_nat i := v]> m).
Proof.
  intros H. unfold Mem.store, Mem.in_bounds.
  replace ((0 <=? i) && (i <? Mem.size m)) with true
    by (symmetry; apply andb_true_intro; split; lia).
  reflexivity.
Qed.

(** C2.  The invariant is broken by completion: [CompleteLine] stores what
    [snprintf] returns, the length of the whole candidate and not of what
    was copied, in [len] and [pos].  On the empty buffer of a new session,
    with a completion callback that offers a candidate of 5000 bytes, TAB
    and a letter leave [len = pos = 5000] in the buffer of 4096 bytes:
    [len] is beyond [buflen] and [buf[len]] is outside the buffer. *)
Theorem long_candidate_overruns :
  allocated example_session /\ empty_buffer example_session
  /\ exists ls' w',
       after_turns (Some long_completion) None example_session
         (tty [Key.TAB; 120]) ls' w'
       /\ len ls' = 5000 /\ pos ls' = 5000 /\ buflen ls' = 4095
       /\ Mem.size (buf ls') = 4096
       /\ Mem.load (buf ls') (len ls') = Undefined.
Proof.
  split; [split; vm_compute; [reflexivity | split; discriminate || reflexivity] |].
  split; [repeat split; vm_compute; reflexivity |].
  destruct (edit_turn (Some long_completion) None example_session (tty [Key.TAB; 120]))
    as [[[k ls'] w'] | |] eqn:E; [| vm_compute in E; discriminate E ..].
  exists ls', w'. split; [eapply turns_last; exact E |].
  vm_compute in E. injection E as _ <- _. repeat split; reflexivity.
Qed.

(** ** The edit buffer across invocations *)

(** C3.  [LinenoiseClearBuffer] zeroes the buffer and [pos] but leaves
    [len] as it was, and [Linenoise] only stores a NUL at [buf[0]] before
    it starts.  After the line "hi" was read, the session has [len = 2]
    both after [LinenoiseClearBuffer] and at the start of the next
    [Linenoise]; a second call that receives "a", CTRL-E, "b", ENTER after
    the clear returns "a", and one that receives "a", ENTER without the
    clear returns the empty line. *)
Theorem clear_buffer_keeps_len :
  (do ls <- LinenoiseCreate 0 1 2 example_prompt 80;
   do '(r1, ls1) <- read_line None None ls (bytes_of_string "hi" ++ [Key.ENTER]);
   do '(ls2, _) <- LinenoiseClearBuffer None ls1 (tty []);
   do '(r3, ls3) <- read_line None None ls2
                      (bytes_of_string "a" ++ [Key.CTRL_E] ++ bytes_of_string "b"
                       ++ [Key.ENTER]);
   do '(r4, ls4) <- read_line None None ls1 (bytes_of_string "a" ++ [Key.ENTER]);
   Done (r1, (len ls1, pos ls1), (len ls2, pos ls2, take 3 (buf ls2)), r3, r4))
  = Done (Some (bytes_of_string "hi"), (2, 2), (2, 0, [0; 0; 0]),
          Some (bytes_of_string "a"), Some []).
Proof. vm_compute. reflexivity. Qed.

(** ** The scratch slot of the history *)

(** C4.  The empty scratch entry is appended once, by [LinenoiseCreate],
    not on entering the editing loop.  With the history ["one"; "two"] at
    the start of a later [Linenoise], a loop that is entered and left at
    once leaves the history as it was (no slot was appended), ENTER frees
    the stored entry "two", and CTRL-P overwrites "two" with the line being
    edited. *)
Theorem scratch_slot_only_at_creation :
  (do ls <- LinenoiseCreate 0 1 2 example_prompt 80;
   do '(r1, ls1) <- read_line None None ls (bytes_of_string "one" ++ [Key.ENTER]);
   do '(_, ls1) <- LinenoiseHistoryAdd ls1 (bytes_of_string "one");
   do '(_, ls1) <- LinenoiseHistoryAdd ls1 (bytes_of_string "two");
   do '(ls1, _) <- LinenoiseClearBuffer None ls1 (tty []);
   do '(_, ls2) <- read_line None None ls1 [];
   do '(_, ls3) <- read_line None None ls1 [Key.ENTER];
   do '(_, ls4) <- read_line None None ls1 [Key.CTRL_P];
   Done (history ls, history ls1, history ls2, history ls3, history ls4))
  = Done ([[]],
          [bytes_of_string "one"; bytes_of_string "two"],
          [bytes_of_string "one"; bytes_of_string "two"],
          [bytes_of_string "one"],
          [bytes_of_string "one"; []]).
Proof. vm_compute. reflexivity. Qed.

(** ** The history store *)

Lemma history_len_set_history l h :
  history_len (set_history l h) = Z.of_nat (length h).
Proof. reflexivity. Qed.

Lemma LinenoiseHistoryAdd_spec (l : LinenoiseState) (line : list Z) :
  history_len l <= history_max_len l ->
  exists r l',
    LinenoiseHistoryAdd l line = Done (r, l')
    /\ history_len l' <= history_max_len l'
    /\ history_max_len l' = history_max_len l
    /\ (last (history l) = Some line -> r = 0)
    /\ (r = 0 -> l' = l)
    /\ (r <> 0 ->
        r = 1 /\ last (history l') = Some line /\ last (history l) <> Some line
        /\ history l' = (if history_len l =? history_max_len l
                         then drop 1 (history l) else history l) ++ [line]).
Proof.
  intros Hinv. unfold LinenoiseHistoryAdd.
  destruct (history_max_len l =? 0) eqn:Emax.
  { exists 0, l. repeat split; try tauto; try lia. }
  destruct (negb (history_len l =? 0) && bool_decide (last (history l) = Some line))
    eqn:Edup.
  { exists 0, l. repeat split; try tauto; try lia. }
  assert (Hnew : last (history l) <> Some line).
  { intros Hl. apply andb_false_iff in Edup as [E | E].
    - apply negb_false_iff in E. unfold history_len in E.
      destruct (history l); [discriminate Hl | simpl in E; lia].
    - apply bool_decide_eq_false in E. contradiction. }
  unfold history_len in *.
  destruct (Z.of_nat (length (history l)) =? history_max_len l) eqn:Efull;
    cbn [history set_history history_max_len].
  - rewrite length_drop.
    destruct (Z.of_nat (length (history l) - 1) <? history_max_len l) eqn:E; [| exfalso; zbool; lia].
    eexists 1, _. split; [reflexivity |]. cbn [history set_history history_max_len].
    rewrite length_app, length_drop. cbn [length]. zbool.
    repeat split; try lia; try tauto; try contradiction; try apply last_snoc.
  - destruct (Z.of_nat (length (history l)) <? history_max_len l) eqn:E; [| exfalso; zbool; lia].
    eexists 1, _. split; [reflexivity |]. cbn [history set_history history_max_len].
    rewrite length_app. cbn [length]. zbool.
    repeat split; try lia; try tauto; try contradiction; try apply last_snoc.
Qed.

Lemma LinenoiseHistorySetMaxLen_spec (l : LinenoiseState) (n : Z) :
  let '(r, l') := LinenoiseHistorySetMaxLen l n in
  (n < 1 /\ r = 0 /\ l' = l)
  \/ (1 <= n /\ r = 1 /\ history_max_len l' = n
      /\ history l' = drop (length (history l) - Z.to_nat n) (history l)
      /\ history_len l' <= n).
Proof.
  unfold LinenoiseHistorySetMaxLen.
  destruct (n <? 1) eqn:En; zbool; [left; repeat split; lia | right].
  unfold history_len. cbn [history set_history history_max_len set_history_max_len].
  rewrite length_drop.
  set (h := history l).
  destruct (n <? Z.of_nat (length h)) eqn:Elt; zbool.
  - replace (Z.to_nat (Z.of_nat (length h) - n)) with (length h - Z.to_nat n)%nat by lia.
    destruct (Z.of_nat (length h - (length h - Z.to_nat n)) >? n) eqn:E; zbool;
      [exfalso; lia |].
    cbn [history set_history history_max_len set_history_max_len].
    rewrite length_drop. repeat split; first [lia | reflexivity].
  - replace (Z.to_nat (Z.of_nat (length h) - Z.of_nat (length h))) with 0%nat by lia.
    rewrite Nat.sub_0_r.
    destruct (Z.of_nat (length h) >? n) eqn:E; zbool; [exfalso; lia |].
    cbn [history set_history history_max_len set_history_max_len drop].
    replace (length h - Z.to_nat n)%nat with 0%nat by lia.
    repeat split; first [lia | reflexivity | rewrite length_drop; lia].
Qed.

Lemma hist_call_bounded (op : hist_op) (l : LinenoiseState) :
  history_len l <= history_max_len l ->
  exists l', hist_call op l = Done l' /\ history_len l' <= history_max_len l'.
Proof.
  intros Hinv. destruct op as [line | n]; cbn [hist_call].
  - destruct (LinenoiseHistoryAdd_spec l line Hinv) as (r & l' & -> & Hb & _).
    exists l'. split; [reflexivity | exact Hb].
  - pose proof (LinenoiseHistorySetMaxLen_spec l n) as H.
    destruct (LinenoiseHistorySetMaxLen l n) as [r l']. exists l'.
    split; [reflexivity |]. cbn [snd].
    destruct H as [(_ & _ & ->) | (_ & _ & -> & _ & H)]; assumption.
Qed.

Lemma hist_calls_bounded (ops : list hist_op) (l : LinenoiseState) :
  history_len l <= history_max_len l ->
  exists l', hist_calls ops l = Done l' /\ history_len l' <= history_max_len l'.
Proof.
  revert l. induction ops as [| op ops IH]; intros l Hinv; cbn [hist_calls].
  - eauto.
  - destruct (hist_call_bounded op l Hinv) as (l1 & -> & H1). cbn [obind]. auto.
Qed.

(** An add that stores its line: the oldest entry leaves a full history. *)
Lemma LinenoiseHistoryAdd_stores (l : LinenoiseState) (line : list Z) :
  history_len l <= history_max_len l -> history_max_len l <> 0 ->
  last (history l) <> Some line ->
  LinenoiseHistoryAdd l line
  = Done (1, set_history l
               ((if history_len l =? history_max_len l
                 then drop 1 (history l) else history l) ++ [line])).
Proof.
  intros Hinv Hmax Hnew. unfold LinenoiseHistoryAdd.
  replace (history_max_len l =? 0) with false by (symmetry; apply Z.eqb_neq; exact Hmax).
  replace (bool_decide (last (history l) = Some line)) with false
    by (symmetry; apply bool_decide_eq_false; exact Hnew).
  rewrite andb_false_r. unfold history_len in *.
  destruct (Z.of_nat (length (history l)) =? history_max_len l) eqn:Efull; zbool;
    cbn [history set_history history_max_len].
  - rewrite length_drop.
    replace (Z.of_nat (length (history l) - 1) <? history_max_len l) with true
      by (symmetry; apply Z.ltb_lt; lia).
    reflexivity.
  - replace (Z.of_nat (length (history l)) <? history_max_len l) with true
      by (symmetry; apply Z.ltb_lt; lia).
    reflexivity.
Qed.

(** An add that stores nothing: the history keeps no entry, or the line
    is the newest entry. *)
Lemma LinenoiseHistoryAdd_skips (l : LinenoiseState) (line : list Z) :
  history_max_len l = 0 \/ last (history l) = Some line ->
  LinenoiseHistoryAdd l line = Done (0, l).
Proof.
  intros H. unfold LinenoiseHistoryAdd.
  destruct (history_max_len l =? 0) eqn:Emax; [reflexivity |]. zbool.
  destruct H as [H | H]; [contradiction |].
  replace (bool_decide (last (history l) = Some line)) with true
    by (symmetry; apply bool_decide_eq_true; exact H).
  replace (history_len l =? 0) with false; [reflexivity |].
  symmetry. apply Z.eqb_neq. unfold history_len.
  destruct (history l); [discriminate H | cbn [length]; lia].
Qed.

(** C5.  From a session whose history is within its bound, every sequence
    of [LinenoiseHistoryAdd] and [LinenoiseHistorySetMaxLen] calls returns
    and leaves [history_len <= history_max_len].  In the session reached:
    an add of the current last entry (or any add when the bound is 0)
    returns 0 and changes nothing; every other add returns 1 and stores its
    line as the newest entry, after the old entries, without index 0 when
    the history was full, so that the bound holds again and the newest
    entry differs from the one before it; and a new bound [n >= 1] keeps the
    newest [n] entries, while a bound below 1 is refused. *)
Theorem history_bounded_and_deduplicated (ls : LinenoiseState) (ops : list hist_op) :
  history_len ls <= history_max_len ls ->
  exists ls',
    hist_calls ops ls = Done ls'
    /\ history_len ls' <= history_max_len ls'
    /\ (forall line,
          history_max_len ls' = 0 \/ last (history ls') = Some line ->
          LinenoiseHistoryAdd ls' line = Done (0, ls'))
    /\ (forall line,
          history_max_len ls' <> 0 -> last (history ls') <> Some line ->
          exists ls'',
            LinenoiseHistoryAdd ls' line = Done (1, ls'')
            /\ history ls''
               = (if history_len ls' =? history_max_len ls'
                  then drop 1 (history ls') else history ls') ++ [line]
            /\ last (history ls'') = Some line
            /\ history_max_len ls'' = history_max_len ls'
            /\ history_len ls'' <= history_max_len ls'')
    /\ (forall n,
          n < 1 -> LinenoiseHistorySetMaxLen ls' n = (0, ls'))
    /\ (forall n,
          1 <= n ->
          exists ls'',
            LinenoiseHistorySetMaxLen ls' n = (1, ls'')
            /\ history_max_len ls'' = n
            /\ history ls'' = drop (length (history ls') - Z.to_nat n) (history ls')
            /\ history_len ls'' <= n).
Proof.
  intros Hinv. destruct (hist_calls_bounded ops ls Hinv) as (ls' & Hrun & Hb).
  exists ls'. split; [exact Hrun | split; [exact Hb |]].
  split; [intros line H; apply LinenoiseHistoryAdd_skips; exact H |].
  split.
  - intros line Hmax Hnew.
    rewrite (LinenoiseHistoryAdd_stores ls' line Hb Hmax Hnew).
    eexists. split; [reflexivity |]. cbn [history set_history history_max_len].
    split; [reflexivity |]. split; [apply last_snoc |]. split; [reflexivity |].
    unfold history_len in *. cbn [history set_history].
    rewrite length_app. cbn [length].
    destruct (Z.of_nat (length (history ls')) =? history_max_len ls') eqn:E; zbool.
    + rewrite length_drop. lia.
    + lia.
  - split.
    + intros n Hn. pose proof (LinenoiseHistorySetMaxLen_spec ls' n) as H.
      destruct (LinenoiseHistorySetMaxLen ls' n) as [r l'].
      destruct H as [(_ & -> & ->) | (H & _)]; [reflexivity | lia].
    + intros n Hn. pose proof (LinenoiseHistorySetMaxLen_spec ls' n) as H.
      destruct (LinenoiseHistorySetMaxLen ls' n) as [r l'].
      destruct H as [(H & _) | (_ & -> & Hmax & Hh & Hlen)]; [lia |].
      exists l'. repeat split; assumption.
Qed.

Lemma history_bounded_and_deduplicated_witness :
  exists ls' ls'',
    hist_calls [HistoryAdd (bytes_of_string "a"); HistorySetMaxLen 2;
                HistoryAdd (bytes_of_string "b"); HistoryAdd (bytes_of_string "b")]
      (small_session [] 7 80) = Done ls'
    /\ history ls' = [bytes_of_string "a"; bytes_of_string "b"]
    /\ history_max_len ls' = 2
    /\ LinenoiseHistoryAdd ls' (bytes_of_string "c") = Done (1, ls'')
    /\ history ls'' = [bytes_of_string "b"; bytes_of_string "c"].
Proof.
  destruct (history_bounded_and_deduplicated (small_session [] 7 80)
              [HistoryAdd (bytes_of_string "a"); HistorySetMaxLen 2;
               HistoryAdd (bytes_of_string "b"); HistoryAdd (bytes_of_string "b")])
    as (ls' & Hrun & _ & _ & Hadd & _).
  - vm_compute. discriminate.
  - assert (Hh : history ls' = [bytes_of_string "a"; bytes_of_string "b"]
                 /\ history_max_len ls' = 2).
    { vm_compute in Hrun. injection Hrun as <-. split; reflexivity. }
    destruct Hh as [Hh Hmax].
    destruct (Hadd (bytes_of_string "c")) as (ls'' & Hc & Hh'' & _).
    + rewrite Hmax. discriminate.
    + rewrite Hh. vm_compute. discriminate.
    + exists ls', ls''. split; [exact Hrun |]. split; [exact Hh |].
      split; [exact Hmax |]. split; [exact Hc |].
      rewrite Hh''. unfold history_len. rewrite Hh, Hmax. reflexivity.
Defined.

(** ** Saving and loading the history *)

Lemma set_history_twice l a b : set_history (set_history l a) b = set_history l b.
Proof. reflexivity. Qed.

Lemma LinenoiseHistoryAdd_append (l : LinenoiseState) (line : list Z) :
  history_len l < history_max_len l -> last (history l) <> Some line ->
  LinenoiseHistoryAdd l line = Done (1, set_history l (history l ++ [line])).
Proof.
  intros Hroom Hnew. unfold LinenoiseHistoryAdd.
  assert (0 <= history_len l) by (unfold history_len; lia).
  destruct (history_max_len l =? 0) eqn:E0; zbool; [lia |].
  rewrite (bool_decide_eq_false_2 _ Hnew), andb_false_r.
  destruct (history_len l =? history_max_len l) eqn:E1; zbool; [lia |].
  destruct (history_len l <? history_max_len l) eqn:E2; zbool; [reflexivity | lia].
Qed.

Lemma fgets_line_entry (e rest : list Z) (n : nat) :
  Forall (fun b => b <> 10 /\ b <> 0) e -> (length e < n)%nat ->
  fgets_line n (e ++ 10 :: rest) = (e ++ [10], rest).
Proof.
  intros He. revert n. induction He as [| b e [Hb _] _ IH]; intros n Hn.
  - destruct n; [lia | reflexivity].
  - destruct n; [cbn in Hn; lia |]. cbn [app fgets_line].
    destruct (b =? 10) eqn:E; zbool; [contradiction |].
    rewrite IH by (cbn in Hn; lia). reflexivity.
Qed.

Lemma fgets_entry (e rest : list Z) :
  line_entry e ->
  fgets LINENOISE_MAX_LINE (e ++ 10 :: rest) = Some (e ++ [10], rest).
Proof.
  intros [He Hlen]. unfold fgets. change (LINENOISE_MAX_LINE <=? 0) with false.
  cbv iota. rewrite fgets_line_entry; [| exact He | unfold LINENOISE_MAX_LINE in *; lia].
  destruct e; reflexivity.
Qed.

Lemma until_nul_none (s : list Z) :
  Forall (fun b => b <> 0) s -> Mem.until_nul s = None.
Proof.
  induction 1 as [| b s Hb _ IH]; [reflexivity |]. cbn [Mem.until_nul].
  destruct (b =? 0) eqn:E; zbool; [contradiction |]. rewrite IH. reflexivity.
Qed.

Lemma cut_at_app_some (c : Z) (s t r : list Z) :
  cut_at c s = Some r -> cut_at c (s ++ t) = Some r.
Proof.
  revert r. induction s as [| b s IH]; intros r H; [discriminate H |].
  cbn [cut_at app] in *. destruct (b =? c); [exact H |].
  destruct (cut_at c s) as [r' |]; [| discriminate H].
  rewrite (IH r' eq_refl). exact H.
Qed.

Lemma cut_at_app_none (c : Z) (s t : list Z) :
  cut_at c s = None ->
  cut_at c (s ++ t) = match cut_at c t with Some r => Some (s ++ r) | None => None end.
Proof.
  induction s as [| b s IH]; intros H.
  - cbn [app]. destruct (cut_at c t); reflexivity.
  - cbn [cut_at app] in *. destruct (b =? c); [discriminate H |].
    destruct (cut_at c s); [discriminate H |]. rewrite IH by reflexivity.
    destruct (cut_at c t); reflexivity.
Qed.

Lemma cut_at_absent (c : Z) (s : list Z) :
  Forall (fun b => b <> c) s -> cut_at c s = None.
Proof.
  induction 1 as [| b s Hb _ IH]; [reflexivity |]. cbn [cut_at].
  destruct (b =? c) eqn:E; zbool; [contradiction |]. rewrite IH. reflexivity.
Qed.

Lemma load_line_entry (e : list Z) :
  Forall (fun b => b <> 10 /\ b <> 0) e -> load_line (e ++ [10]) = cut_cr e.
Proof.
  intros He. unfold load_line, as_cstr, cut_cr.
  rewrite until_nul_none.
  2: { apply Forall_app. split; [| repeat constructor; discriminate].
       eapply Forall_impl; [exact He |]. intros b [_ H]. exact H. }
  destruct (cut_at 13 e) as [r |] eqn:Ecr.
  - rewrite (cut_at_app_some _ _ _ _ Ecr). reflexivity.
  - rewrite (cut_at_app_none _ _ _ Ecr). cbn [cut_at Z.eqb].
    rewrite cut_at_app_none.
    + cbn [cut_at]. rewrite Z.eqb_refl, app_nil_r. reflexivity.
    + apply cut_at_absent. eapply Forall_impl; [exact He |]. intros b [H _]. exact H.
Qed.

Lemma adjacent_distinct_last (a : list (list Z)) (x : list Z) (r : list (list Z)) :
  adjacent_distinct (a ++ x :: r) -> last a <> Some x.
Proof.
  induction a as [| y a IH]; intros H; [discriminate |].
  destruct a as [| z a].
  - cbn in H. destruct H as [H _]. cbn. congruence.
  - change (last (y :: z :: a)) with (last (z :: a)). apply IH.
    cbn in H. destruct H as [_ H]. exact H.
Qed.

Lemma history_load_loop_entries (h : list (list Z)) :
  forall (fuel : nat) (ls : LinenoiseState),
    Forall line_entry h -> (length h < fuel)%nat ->
    adjacent_distinct (history ls ++ map cut_cr h) ->
    history_len ls + Z.of_nat (length h) <= history_max_len ls ->
    history_load_loop fuel ls (concat (map (fun e => e ++ [10]) h))
    = Done (set_history ls (history ls ++ map cut_cr h)).
Proof.
  induction h as [| e h IH]; intros fuel ls Hh Hfuel Hadj Hroom.
  - destruct fuel; [lia |]. cbn. rewrite app_nil_r. destruct ls; reflexivity.
  - destruct fuel; [lia |]. apply Forall_cons_1 in Hh as [He Hh].
    cbn [map concat history_load_loop]. rewrite <- app_assoc. cbn [app].
    rewrite (fgets_entry _ _ He). rewrite (load_line_entry _ (proj1 He)).
    cbn [map] in Hadj.
    rewrite LinenoiseHistoryAdd_append;
      [| cbn [length] in Hroom; lia | eapply adjacent_distinct_last; exact Hadj].
    cbn [obind]. rewrite IH.
    + cbn [history set_history]. rewrite set_history_twice, <- app_assoc. reflexivity.
    + exact Hh.
    + cbn [length] in Hfuel. lia.
    + cbn [history set_history]. rewrite <- app_assoc. exact Hadj.
    + unfold history_len in *. cbn [history history_max_len set_history length] in *.
      rewrite length_app. cbn [length]. lia.
Qed.

Lemma length_saved (h : list (list Z)) :
  (length h <= length (concat (map (fun e : list Z => e ++ [10%Z]) h)))%nat.
Proof.
  induction h as [| e h IH]; [reflexivity |].
  cbn [map concat]. rewrite !length_app. cbn [length]. lia.
Qed.

Lemma cut_cr_absent (e : list Z) : Forall (fun b => b <> 13) e -> cut_cr e = e.
Proof. intros H. unfold cut_cr. rewrite cut_at_absent by exact H. reflexivity. Qed.

(** C6, as the code has it.  Take a history whose entries hold no newline
    and no NUL and are shorter than [LINENOISE_MAX_LINE - 1] bytes, and in
    which no entry cut at its first carriage return equals the next one cut
    the same way.  Saving it and loading the file into a session with an
    empty history and [history_max_len] at least its length returns 0 and
    yields the entries, each cut at its first carriage return; these are the
    saved entries byte for byte when none holds a carriage return. *)
Theorem save_load_roundtrip (h : list (list Z)) (ls : LinenoiseState) :
  Forall line_entry h ->
  adjacent_distinct (map cut_cr h) ->
  history ls = [] ->
  Z.of_nat (length h) <= history_max_len ls ->
  save_then_load h ls = Done (0, set_history ls (map cut_cr h))
  /\ (Forall (Forall (fun b => b <> 13)) h -> map cut_cr h = h).
Proof.
  intros Hh Hadj Hempty Hroom. split.
  - unfold save_then_load, LinenoiseHistorySave, LinenoiseHistoryLoad.
    cbn [snd history set_history].
    rewrite history_load_loop_entries.
    + rewrite Hempty. reflexivity.
    + exact Hh.
    + pose proof (length_saved h). lia.
    + rewrite Hempty. exact Hadj.
    + unfold history_len. rewrite Hempty. cbn [length]. lia.
  - intros Hcr. induction Hcr as [| e h He _ IH]; [reflexivity |].
    cbn [map]. rewrite cut_cr_absent by exact He. f_equal. apply IH.
    + apply Forall_cons_1 in Hh as [_ Hh]. exact Hh.
    + destruct h as [| e' h']; [exact I |]. cbn in Hadj. tauto.
    + cbn [length] in Hroom. lia.
Qed.

Lemma save_load_roundtrip_witness :
  save_then_load [bytes_of_string "one"; [116; 119; 111; 13]; []; bytes_of_string "one"]
    (FreeHistory example_session)
  = Done (0, set_history (FreeHistory example_session)
               [bytes_of_string "one"; bytes_of_string "two"; []; bytes_of_string "one"]).
Proof.
  apply (save_load_roundtrip
           [bytes_of_string "one"; [116; 119; 111; 13]; []; bytes_of_string "one"]
           (FreeHistory example_session)).
  - repeat constructor; vm_compute; discriminate || reflexivity.
  - vm_compute. repeat split; discriminate.
  - reflexivity.
  - vm_compute. discriminate.
Defined.

(** C6, as stated, fails on three kinds of history, each loaded into the
    session left by [LinenoiseRestore] (empty history, room for 100
    entries): two equal adjacent entries come back as one; an entry with a
    carriage return inside comes back cut there; an entry of
    [LINENOISE_MAX_LINE - 1] bytes, the longest line the editor returns,
    comes back followed by an empty entry. *)
Lemma save_load_alters_history :
  ~ roundtrip_as_stated [bytes_of_string "a"; bytes_of_string "a"]
      (FreeHistory example_session)
  /\ ~ roundtrip_as_stated [[97; 13; 98]] (FreeHistory example_session)
  /\ ~ roundtrip_as_stated [replicate 4095 97] (FreeHistory example_session)
  /\ (do '(_, ls) <- save_then_load [bytes_of_string "a"; bytes_of_string "a"]
                       (FreeHistory example_session);
      Done (history ls)) = Done [bytes_of_string "a"]
  /\ (do '(_, ls) <- save_then_load [[97; 13; 98]] (FreeHistory example_session);
      Done (history ls)) = Done [bytes_of_string "a"]
  /\ (do '(_, ls) <- save_then_load [replicate 4095 97] (FreeHistory example_session);
      Done (history ls)) = Done [replicate 4095 97; []].
Proof.
  assert (Hrefute : forall h,
    Forall (fun e => Forall (fun b => b <> 10 /\ b <> 0) e
                     /\ Z.of_nat (length e) < LINENOISE_MAX_LINE) h ->
    Z.of_nat (length h) <= 100 ->
    (do '(_, ls) <- save_then_load h (FreeHistory example_session);
     Done (bool_decide (history ls = map strip_trailing_cr h))) = Done false ->
    ~ roundtrip_as_stated h (FreeHistory example_session)).
  { intros h Hh Hlen Hrun Hclaim.
    destruct (Hclaim Hh eq_refl Hlen) as (r & ls' & Hload & Hsame).
    rewrite Hload in Hrun. cbn [obind] in Hrun.
    rewrite bool_decide_eq_true_2 in Hrun by exact Hsame. discriminate Hrun. }
  repeat split; try (vm_compute; reflexivity); apply Hrefute;
    try (vm_compute; reflexivity); try (vm_compute; discriminate).
  - repeat constructor; vm_compute; discriminate || reflexivity.
  - repeat constructor; vm_compute; discriminate || reflexivity.
  - constructor; [| constructor]. split; [| vm_compute; reflexivity].
    apply Forall_replicate. split; discriminate.
Qed.

(** ** Hints *)

Lemma RefreshShowHints_no_room (cb : hints_callback) (ab : list Z)
    (l : LinenoiseState) (plen : Z) :
  (C.size_t (C.size_t plen + len l) <? cols l) = false ->
  RefreshShowHints (Some cb) ab l plen = Done ab.
Proof. intros H. unfold RefreshShowHints. rewrite H. reflexivity. Qed.

(** What [RefreshShowHints] appends when there is room: the colour
    sequence, the hint cut to the columns left, and the reset sequence. *)
Lemma RefreshShowHints_shows (cb : hints_callback) (ab : list Z)
    (l : LinenoiseState) (plen : Z) (line h : list Z) (color bold : Z) :
  0 <= plen -> 0 <= len l -> plen + len l < cols l -> cols l < 2 ^ 31 ->
  Mem.cstr (buf l) = Done line -> cb line = (Some h, color, bold) ->
  Z.of_nat (length h) < 2 ^ 31 ->
  exists n tint,
    n = Z.min (Z.of_nat (length h)) (cols l - (plen + len l))
    /\ tint = (if (bold =? 1) && (color =? -1) then 37 else color)
    /\ RefreshShowHints (Some cb) ab l plen
       = Done (if negb (tint =? -1) || negb (bold =? 0)
               then ab ++ (csi "" ++ dec bold ++ bytes_of_string ";" ++ dec tint
                           ++ bytes_of_string ";49m")
                    ++ take (Z.to_nat n) h ++ csi "0m"
               else ab ++ take (Z.to_nat n) h)
    /\ 0 <= n /\ plen + len l + n <= cols l /\ (h <> [] -> 0 < n).
Proof.
  intros Hplen Hlen Hroom Hcols Hline Hcb Hh.
  eexists _, _. split; [reflexivity |]. split; [reflexivity |].
  split; [| split; [lia | split; [lia |]]].
  2: { intros Hne. destruct h; [contradiction | cbn [length]; lia]. }
  unfold RefreshShowHints.
  assert (Hs : C.size_t (C.size_t plen + len l) = plen + len l).
  { rewrite (size_t_small plen) by (unfold C.SIZE_MAX1; lia).
    apply size_t_small. unfold C.SIZE_MAX1. lia. }
  rewrite Hs. replace (plen + len l <? cols l) with true by (symmetry; lia).
  rewrite Hline. cbn [obind]. rewrite Hcb. cbv beta iota zeta.
  rewrite (int_small (Z.of_nat (length h))) by lia.
  rewrite (size_t_small (cols l - _)) by (unfold C.SIZE_MAX1; lia).
  rewrite (int_small (cols l - _)) by lia.
  set (n := Z.min (Z.of_nat (length h)) (cols l - (plen + len l))).
  replace (if Z.of_nat (length h) >? cols l - (plen + len l)
           then cols l - (plen + len l) else Z.of_nat (length h)) with n
    by (subst n; destruct (Z.of_nat (length h) >? cols l - (plen + len l)) eqn:E;
        zbool; lia).
  unfold abAppend, abAppendStr, Mem.size.
  replace ((0 <=? n) && (n <=? Z.of_nat (length h))) with true
    by (symmetry; apply andb_true_intro; split; lia).
  cbn [obind].
  destruct (negb _ || negb _); rewrite <- ?app_assoc; reflexivity.
Qed.

(** ** The window of the single-line refresh *)

Lemma slide_left_spec (fuel : nat) (plen cols : Z) (wd : window) :
  0 <= plen < cols -> 0 <= win_pos wd <= win_len wd ->
  win_len wd + cols < C.SIZE_MAX1 ->
  (Z.to_nat (plen + win_pos wd) < fuel)%nat ->
  exists wd',
    slide_left fuel plen cols wd = Some wd'
    /\ plen + win_pos wd' < cols
    /\ 0 <= win_pos wd' <= win_pos wd
    /\ win_off wd' - win_off wd = win_pos wd - win_pos wd'
    /\ win_len wd - win_len wd' = win_pos wd - win_pos wd'.
Proof.
  revert wd. induction fuel as [| fuel IH]; intros wd Hp Hw Hbig Hfuel; [lia |].
  cbn [slide_left]. rewrite size_t_small by lia.
  destruct (cols <=? plen + win_pos wd) eqn:E; zbool.
  - rewrite !size_t_small by lia.
    destruct (IH {| win_off := win_off wd + 1;
                    win_len := win_len wd - 1;
                    win_pos := win_pos wd - 1 |})
      as (wd' & Hrun & H1 & H2 & H3 & H4); cbn [win_off win_len win_pos]; try lia.
    exists wd'. rewrite Hrun. cbn [win_off win_len win_pos] in *.
    repeat split; lia.
  - exists wd. repeat split; lia.
Qed.

Lemma trim_right_spec (fuel : nat) (plen cols : Z) (wd : window) :
  0 <= plen < cols -> 0 <= win_len wd -> plen + win_len wd < C.SIZE_MAX1 ->
  (Z.to_nat (plen + win_len wd) < fuel)%nat ->
  exists wd',
    trim_right fuel plen cols wd = Some wd'
    /\ plen + win_len wd' <= cols
    /\ 0 <= win_len wd' <= win_len wd
    /\ win_off wd' = win_off wd /\ win_pos wd' = win_pos wd.
Proof.
  revert wd. induction fuel as [| fuel IH]; intros wd Hp Hw Hbig Hfuel; [lia |].
  cbn [trim_right]. rewrite size_t_small by lia.
  destruct (cols <? plen + win_len wd) eqn:E; zbool.
  - rewrite !size_t_small by lia.
    destruct (IH {| win_off := win_off wd;
                    win_len := win_len wd - 1;
                    win_pos := win_pos wd |})
      as (wd' & Hrun & H1 & H2 & H3 & H4); cbn [win_off win_len win_pos]; try lia.
    exists wd'. rewrite Hrun. cbn [win_off win_len win_pos] in *.
    repeat split; lia.
  - exists wd. repeat split; lia.
Qed.

(** X29.  When the prompt is narrower than the terminal (and the sizes
    are far from [2^64]), the two loops of the single-line refresh stop,
    the cursor is in the frame, prompt and visible part fit the columns,
    and neither [pos] nor [len] passed below zero. *)
Theorem refresh_window_fits (l : LinenoiseState) :
  0 <= pos l -> pos l <= len l -> len l < buflen l -> 1 <= cols l ->
  Z.of_nat (length (prompt l)) < cols l ->
  len l + cols l < C.SIZE_MAX1 ->
  exists wd, refresh_window l = Done wd /\ window_fits l wd.
Proof.
  intros Hpos Hle _ Hcols Hplen Hbig. unfold refresh_window.
  set (plen := Z.of_nat (length (prompt l))) in *.
  set (wd0 := {| win_off := 0; win_len := len l; win_pos := pos l |}).
  assert (H0 : win_off wd0 = 0 /\ win_len wd0 = len l /\ win_pos wd0 = pos l)
    by (repeat split).
  destruct H0 as (Hoff & Hwl & Hwp). clearbody wd0.
  rewrite (size_t_small (plen + win_pos wd0)) by lia.
  destruct (slide_left_spec (S (Z.to_nat (plen + win_pos wd0))) plen (cols l) wd0)
    as (wd1 & -> & H1 & H2 & H3 & H4); try lia.
  rewrite (size_t_small (plen + win_len wd1)) by lia.
  destruct (trim_right_spec (S (Z.to_nat (plen + win_len wd1))) plen (cols l) wd1)
    as (wd2 & -> & H5 & H6 & H7 & H8); try lia.
  exists wd2. split; [reflexivity |]. unfold window_fits. fold plen.
  rewrite H7, H8. repeat split; lia.
Qed.

Lemma refresh_window_fits_witness :
  exists wd,
    refresh_window (small_session (bytes_of_string "hello, world") 15 10) = Done wd
    /\ window_fits (small_session (bytes_of_string "hello, world") 15 10) wd.
Proof.
  apply (refresh_window_fits (small_session (bytes_of_string "hello, world") 15 10));
    vm_compute; discriminate || reflexivity.
Defined.

(** C8.  The window computation has no guard for a prompt as wide as the
    terminal: with the two-byte prompt on two columns and an empty line (a
    session with [0 <= pos <= len < buflen] and [cols >= 1]), the first loop
    lowers [pos] and [len] from 0 to [2^64 - 1], no window that fits is
    computed, and the refresh then copies [(int)len = -1] bytes. *)
Theorem window_underflows_for_wide_prompt :
  (0 <= pos (small_session [] 7 2)
   /\ pos (small_session [] 7 2) <= len (small_session [] 7 2)
   /\ len (small_session [] 7 2) < buflen (small_session [] 7 2)
   /\ 1 <= cols (small_session [] 7 2))
  /\ refresh_window (small_session [] 7 2)
     = Done {| win_off := 1; win_len := 2 ^ 64 - 1; win_pos := 2 ^ 64 - 1 |}
  /\ RefreshSingleLine None (small_session [] 7 2) (tty []) = Undefined
  /\ ~ exists wd, refresh_window (small_session [] 7 2) = Done wd
                  /\ window_fits (small_session [] 7 2) wd.
Proof.
  split; [repeat split; vm_compute; discriminate || reflexivity |].
  split; [vm_compute; reflexivity |].
  split; [vm_compute; reflexivity |].
  intros (wd & Hrun & Hfit). vm_compute in Hrun. injection Hrun as <-.
  destruct Hfit as (H & _). vm_compute in H. discriminate H.
Qed.

(** The fuel given to the two loops is enough: the window computation
    fails to return exactly when the terminal has no columns, in which case
    the first loop of the C code never stops. *)
Lemma slide_left_stops (fuel : nat) (plen cols : Z) (wd : window) :
  1 <= cols ->
  (Z.to_nat (C.size_t (plen + win_pos wd)) < fuel)%nat ->
  slide_left fuel plen cols wd <> None.
Proof.
  intros Hcols. revert wd.
  induction fuel as [| fuel IH]; intros wd Hfuel; [lia |].
  cbn [slide_left].
  destruct (cols <=? C.size_t (plen + win_pos wd)) eqn:E; zbool; [| discriminate].
  apply IH. cbn [win_pos]. rewrite size_t_pred_sum.
  rewrite (size_t_small (_ - 1)).
  - lia.
  - pose proof (size_t_range (plen + win_pos wd)). lia.
Qed.

Lemma slide_left_never (fuel : nat) (plen cols : Z) (wd : window) :
  cols <= 0 -> slide_left fuel plen cols wd = None.
Proof.
  intros Hcols. revert wd. induction fuel as [| fuel IH]; intros wd; [reflexivity |].
  cbn [slide_left]. pose proof (size_t_range (plen + win_pos wd)).
  destruct (cols <=? C.size_t (plen + win_pos wd)) eqn:E; zbool; [apply IH | lia].
Qed.

Lemma trim_right_stops (fuel : nat) (plen cols : Z) (wd : window) :
  0 <= cols ->
  (Z.to_nat (C.size_t (plen + win_len wd)) < fuel)%nat ->
  trim_right fuel plen cols wd <> None.
Proof.
  intros Hcols. revert wd.
  induction fuel as [| fuel IH]; intros wd Hfuel; [lia |].
  cbn [trim_right].
  destruct (cols <? C.size_t (plen + win_len wd)) eqn:E; zbool; [| discriminate].
  apply IH. cbn [win_len]. rewrite size_t_pred_sum.
  rewrite (size_t_small (_ - 1)).
  - lia.
  - pose proof (size_t_range (plen + win_len wd)). lia.
Qed.

Lemma refresh_window_diverges (l : LinenoiseState) :
  0 <= cols l ->
  (cols l = 0 -> refresh_window l = Diverges)
  /\ (1 <= cols l -> exists wd, refresh_window l = Done wd).
Proof.
  intros Hcols. unfold refresh_window. split.
  - intros H0. rewrite slide_left_never by lia. reflexivity.
  - intros H1.
    match goal with
    | |- context [slide_left ?f ?p ?c ?w] =>
        pose proof (slide_left_stops f p c w H1 ltac:(lia)) as Hs;
        destruct (slide_left f p c w) as [wd1 |]; [| congruence]
    end.
    match goal with
    | |- context [trim_right ?f ?p ?c ?w] =>
        pose proof (trim_right_stops f p c w Hcols ltac:(lia)) as Ht;
        destruct (trim_right f p c w) as [wd2 |]; [| congruence]
    end.
    eauto.
Qed.

(** ** CTRL-W at the start of the line *)

(** C9.  The dispatcher hands CTRL-W to [LinenoiseEditDeletePrevWord]
    whatever [pos] is.  With [pos = 0] in a well-formed session neither
    loop moves the cursor and [memmove] copies the line onto itself: the
    call is nothing but a refresh of the unchanged session, and [buf], [len]
    and [pos] are the same afterwards. *)
Theorem kill_prev_word_at_start (hc : option hints_callback) (ls : LinenoiseState)
    (w : world) :
  allocated ls -> session_inv ls -> pos ls = 0 ->
  dispatch hc Key.CTRL_W ls w = continue (LinenoiseEditDeletePrevWord hc ls w)
  /\ LinenoiseEditDeletePrevWord hc ls w = RefreshLine hc ls w
  /\ forall ls' w',
       LinenoiseEditDeletePrevWord hc ls w = Done (ls', w') ->
       buf ls' = buf ls /\ len ls' = len ls /\ pos ls' = pos ls.
Proof.
  intros [Hsize Hcap] (Hpos & Hle & Hlen & Hnul) Hzero.
  assert (Hsame : LinenoiseEditDeletePrevWord hc ls w = RefreshLine hc ls w).
  { unfold LinenoiseEditDeletePrevWord. rewrite Hzero.
    assert (Hr : forall sp, retreat (S (Z.to_nat 0)) sp (buf ls) 0 = Done 0)
      by reflexivity.
    rewrite Hr. cbn [obind]. rewrite Hr. cbn [obind set_pos buf pos len].
    rewrite Z.sub_0_r, Z.sub_diag.
    assert (Hn : C.size_t (C.size_t (len ls) + 1) = len ls + 1).
    { unfold C.size_t, C.SIZE_MAX1. rewrite (Z.mod_small (len ls)) by lia.
      apply Z.mod_small. lia. }
    assert (Hd : C.size_t 0 = 0) by reflexivity.
    rewrite Hn, Hd.
    unfold Mem.memmove.
    replace ((0 <=? 0) && (0 <=? 0) && (0 <=? len ls + 1)
             && (0 + (len ls + 1) <=? Mem.size (buf ls))
             && (0 + (len ls + 1) <=? Mem.size (buf ls))) with true
      by (symmetry; repeat (apply andb_true_intro; split); lia).
    cbn [obind Z.to_nat take drop app]. rewrite Z.add_0_l, take_drop.
    rewrite Z.sub_0_r. unfold C.size_t, C.SIZE_MAX1.
    rewrite (Z.mod_small (len ls)) by lia.
    f_equal. destruct ls; cbn in *. subst. reflexivity. }
  split; [reflexivity | split; [exact Hsame |]].
  intros ls' w' H. rewrite Hsame in H.
  apply RefreshLine_buffer in H. tauto.
Qed.

Lemma kill_prev_word_at_start_witness :
  LinenoiseEditDeletePrevWord None (set_pos (small_session (bytes_of_string "ab c") 7 80) 0)
    (tty [])
  = RefreshLine None (set_pos (small_session (bytes_of_string "ab c") 7 80) 0) (tty []).
Proof.
  apply (kill_prev_word_at_start None
           (set_pos (small_session (bytes_of_string "ab c") 7 80) 0) (tty [])).
  - split; vm_compute; [reflexivity | split; discriminate || reflexivity].
  - repeat split; vm_compute; discriminate || reflexivity.
  - reflexivity.
Defined.

(** ** Insertion at capacity *)

(** C10.  With [len >= buflen], [LinenoiseEditInsert] returns 0 and leaves
    the session (so [buf], [len] and [pos]) and the terminal as they were.
    Whenever it returns something else than 0, that is [-1], the session was
    in single-line mode with the cursor at the end and no hints callback,
    the appended byte still fitted the line, and the [write] of that byte
    failed. *)
Theorem insert_at_capacity (hc : option hints_callback) (l : LinenoiseState)
    (c : Z) (w : world) :
  (buflen l <= len l -> LinenoiseEditInsert hc l c w = Done (0, l, w))
  /\ (forall r l' w',
        LinenoiseEditInsert hc l c w = Done (r, l', w') -> r <> 0 ->
        r = -1 /\ len l < buflen l /\ len l = pos l /\ mlmode l' = false
        /\ hc = None /\ C.size_t (plen l' + len l') < cols l'
        /\ exists wr, w_wr w = false :: wr /\ w_out w' = w_out w).
Proof.
  split.
  - intros Hfull. unfold LinenoiseEditInsert.
    destruct (len l <? buflen l) eqn:E; [lia | reflexivity].
  - intros r l' w' H Hr. unfold LinenoiseEditInsert in H.
    destruct (len l <? buflen l) eqn:Ecap; [| injection H as <- _ _; lia].
    destruct (len l =? pos l) eqn:Eend.
    + bind_inv H. cbn [set_buf set_pos set_len buf len pos mlmode plen cols] in H.
      bind_inv H.
      match type of H with (if ?b then _ else _) = _ => destruct b eqn:Efast end.
      * unfold Sys.write in H.
        destruct (w_wr w) as [|[] wr] eqn:Ewr; simpl in H;
          try (inversion H; subst; congruence).
        inversion H; subst; clear H. simpl.
        apply andb_prop in Efast as [Efast Ehc].
        apply andb_prop in Efast as [Eml Ecols].
        destruct hc; [discriminate Ehc |].
        destruct (mlmode l); [discriminate Eml |].
        repeat split; try lia. eauto.
      * bind_inv H. destruct a1. inversion H; subst; congruence.
    + repeat bind_inv H.
      match type of H with context [let '(_, _) := ?p in _] => destruct p end.
      inversion H; subst; congruence.
Qed.

Lemma insert_at_capacity_witness :
  LinenoiseEditInsert None (small_session (bytes_of_string "abc") 3 80) 100 (tty [])
  = Done (0, small_session (bytes_of_string "abc") 3 80, tty [])
  /\ (-1 = -1 /\ 1 < 3 /\ 1 = 1 /\ false = false /\ @None hints_callback = None
      /\ C.size_t (2 + 2) < 80
      /\ exists wr, [false] = false :: wr /\ @nil Z = []).
Proof.
  split.
  - apply (proj1 (insert_at_capacity None
                    (small_session (bytes_of_string "abc") 3 80) 100 (tty []))).
    vm_compute. discriminate.
  - apply (proj2 (insert_at_capacity None
                    (small_session (bytes_of_string "a") 3 80) 98
                    (with_out (tty []) [] [false])) (-1)
             (set_buf (set_len (set_pos (small_session (bytes_of_string "a") 3 80) 2) 2)
                (bytes_of_string "ab" ++ [0; 0]))
             (tty [])).
    + vm_compute. reflexivity.
    + discriminate.
Defined.

(** ** The fuel of the loops that read the terminal

    Only [read] takes bytes off the input, and every turn of the editing
    loop and of the completion loop reads one: with more fuel than there are
    input events, the loops give the same outcome whatever the fuel. *)

Lemma write_in (w : world) (b : list Z) (r : Z) (w' : world) :
  Sys.write w b = (r, w') -> w_in w' = w_in w.
Proof.
  unfold Sys.write. destruct (w_wr w) as [| [] wr]; intros [= _ <-]; reflexivity.
Qed.

Lemma write_snd_in (w : world) (b : list Z) : w_in (snd (Sys.write w b)) = w_in w.
Proof. destruct (Sys.write w b) as [r w'] eqn:E. exact (write_in _ _ _ _ E). Qed.

Lemma read_in (w : world) (r : rd_result) (w' : world) :
  Sys.read w = (r, w') ->
  (length (w_in w') <= length (w_in w))%nat
  /\ (forall b, r = RdGot b -> (length (w_in w') < length (w_in w))%nat).
Proof.
  unfold Sys.read. destruct (w_in w) as [| [b |] rest] eqn:E;
    intros [= <- <-]; cbn [w_in with_in length]; rewrite ?E; cbn [length];
    split; try lia; intros b' [=]; lia.
Qed.

Lemma RefreshLine_in hc l w l' w' :
  RefreshLine hc l w = Done (l', w') -> w_in w' = w_in w.
Proof.
  unfold RefreshLine, RefreshMultiLine, RefreshSingleLine.
  destruct (mlmode l); intros H; bind_all H; injection H as _ <-;
    apply write_snd_in.
Qed.

(** Follow the world through a function that returned. *)
Ltac chase H :=
  repeat first
    [ bind_inv H
    | match type of H with
      | context [let '(_, _) := ?p in _] =>
          match p with
          | Sys.write _ _ => let E := fresh "Ew" in destruct p eqn:E
          | _ => destruct p
          end
      | (if ?b then _ else _) = _ => destruct b
      end ].

Ltac same_in :=
  repeat match goal with
         | H : RefreshLine _ _ _ = Done (_, _) |- _ => apply RefreshLine_in in H
         | H : Sys.write _ _ = (_, _) |- _ => apply write_in in H
         end;
  try congruence.

Lemma LinenoiseEditInsert_in hc l c w r l' w' :
  LinenoiseEditInsert hc l c w = Done (r, l', w') -> w_in w' = w_in w.
Proof.
  unfold LinenoiseEditInsert. intros H. chase H; injection H as _ _ <-; same_in.
Qed.

Lemma LinenoiseEditMoveLeft_in hc l w l' w' :
  LinenoiseEditMoveLeft hc l w = Done (l', w') -> w_in w' = w_in w.
Proof. unfold LinenoiseEditMoveLeft. intros H. chase H; same_in. Qed.

Lemma LinenoiseEditMoveRight_in hc l w l' w' :
  LinenoiseEditMoveRight hc l w = Done (l', w') -> w_in w' = w_in w.
Proof. unfold LinenoiseEditMoveRight. intros H. chase H; same_in. Qed.

Lemma LinenoiseEditMoveHome_in hc l w l' w' :
  LinenoiseEditMoveHome hc l w = Done (l', w') -> w_in w' = w_in w.
Proof. unfold LinenoiseEditMoveHome. intros H. chase H; same_in. Qed.

Lemma LinenoiseEditMoveEnd_in hc l w l' w' :
  LinenoiseEditMoveEnd hc l w = Done (l', w') -> w_in w' = w_in w.
Proof. unfold LinenoiseEditMoveEnd. intros H. chase H; same_in. Qed.

Lemma LinenoiseEditDelete_in hc l w l' w' :
  LinenoiseEditDelete hc l w = Done (l', w') -> w_in w' = w_in w.
Proof. unfold LinenoiseEditDelete. intros H. chase H; same_in. Qed.

Lemma LinenoiseEditBackspace_in hc l w l' w' :
  LinenoiseEditBackspace hc l w = Done (l', w') -> w_in w' = w_in w.
Proof. unfold LinenoiseEditBackspace. intros H. chase H; same_in. Qed.

Lemma LinenoiseEditDeletePrevWord_in hc l w l' w' :
  LinenoiseEditDeletePrevWord hc l w = Done (l', w') -> w_in w' = w_in w.
Proof. unfold LinenoiseEditDeletePrevWord. intros H. chase H; same_in. Qed.

Lemma LinenoiseEditHistoryNext_in hc l dir w l' w' :
  LinenoiseEditHistoryNext hc l dir w = Done (l', w') -> w_in w' = w_in w.
Proof. unfold LinenoiseEditHistoryNext. intros H. chase H; same_in. Qed.

Ltac op_in :=
  first
    [ match goal with H : _ = Done _ |- _ => discriminate H end
    | match goal with
      | H : Done (_, _) = Done (_, _) |- _ => injection H as _ <-; lia
      end
    | match goal with
      | H : _ = Done (_, _) |- _ =>
          first [ apply LinenoiseEditDelete_in in H
                | apply LinenoiseEditBackspace_in in H
                | apply LinenoiseEditHistoryNext_in in H
                | apply LinenoiseEditMoveLeft_in in H
                | apply LinenoiseEditMoveRight_in in H
                | apply LinenoiseEditMoveHome_in in H
                | apply LinenoiseEditMoveEnd_in in H
                | apply LinenoiseEditDeletePrevWord_in in H
                | apply RefreshLine_in in H ];
          rewrite H; lia
      end ].

Lemma dispatch_escape_in hc ls w ls' w' :
  dispatch_escape hc ls w = Done (ls', w') ->
  (length (w_in w') <= length (w_in w))%nat.
Proof.
  intros H. unfold dispatch_escape in H.
  destruct (Sys.read w) as [r0 w0] eqn:E0. apply read_in in E0 as [E0 _].
  destruct r0 as [s0 | |]; try op_in;
    destruct (Sys.read w0) as [r1 w1] eqn:E1; apply read_in in E1 as [E1 _];
    destruct r1 as [s1 | |]; try op_in.
  - destruct (s0 =? 91).
    + destruct ((48 <=? s1) && (s1 <=? 57)).
      * destruct (Sys.read w1) as [r2 w2] eqn:E2. apply read_in in E2 as [E2 _].
        destruct r2 as [s2 | |]; try op_in.
        destruct (s2 =? 126); [| op_in]. destruct (s1 =? 51); op_in.
      * repeat match type of H with
               | (if ?b then _ else _) = _ => destruct b
               end; op_in.
    + destruct (s0 =? 79); [| op_in].
      repeat match type of H with
             | (if ?b then _ else _) = _ => destruct b
             end; op_in.
  - destruct (s0 =? 91); [op_in |]. destruct (s0 =? 79); op_in.
Qed.

Lemma dispatch_in hc c ls w k ls' w' :
  dispatch hc c ls w = Done (k, ls', w') ->
  (length (w_in w') <= length (w_in w))%nat.
Proof.
  intros H. unfold dispatch in H.
  destruct (c =? Key.ENTER).
  { bind_inv H. destruct a as [ls2 w2]. bind_inv H. destruct a as [ls3 w3].
    injection H as _ _ <-.
    assert (Hw2 : w_in w2 = w_in w).
    { match type of E with
      | (if ?b then _ else _) = _ => destruct b
      end; [apply LinenoiseEditMoveEnd_in in E; exact E | congruence]. }
    assert (Hw3 : w_in w3 = w_in w2).
    { destruct hc; [apply RefreshLine_in in E0; exact E0 | congruence]. }
    rewrite Hw3, Hw2. lia. }
  destruct (c =? Key.CTRL_C); [injection H as _ _ <-; reflexivity |].
  destruct ((c =? Key.BACKSPACE) || (c =? 8)); [apply continue_inv in H; op_in |].
  destruct (c =? Key.CTRL_D).
  { destruct (len ls >? 0); [apply continue_inv in H; op_in |].
    bind_inv H. injection H as _ _ <-. lia. }
  destruct (c =? Key.CTRL_T).
  { destruct ((pos ls >? 0) && (pos ls <? len ls));
      [| injection H as _ _ <-; lia].
    do 4 bind_inv H. apply continue_inv in H. op_in. }
  destruct (c =? Key.CTRL_B); [apply continue_inv in H; op_in |].
  destruct (c =? Key.CTRL_F); [apply continue_inv in H; op_in |].
  destruct (c =? Key.CTRL_P); [apply continue_inv in H; op_in |].
  destruct (c =? Key.CTRL_N); [apply continue_inv in H; op_in |].
  destruct (c =? Key.ESC);
    [apply continue_inv in H; eapply dispatch_escape_in; eassumption |].
  destruct (c =? Key.CTRL_U); [bind_inv H; apply continue_inv in H; op_in |].
  destruct (c =? Key.CTRL_K); [bind_inv H; apply continue_inv in H; op_in |].
  destruct (c =? Key.CTRL_A); [apply continue_inv in H; op_in |].
  destruct (c =? Key.CTRL_E); [apply continue_inv in H; op_in |].
  destruct (c =? Key.CTRL_L).
  { apply continue_inv in H. apply RefreshLine_in in H. rewrite H.
    unfold LinenoiseClearScreen. rewrite write_snd_in. lia. }
  destruct (c =? Key.CTRL_W); [apply continue_inv in H; op_in |].
  bind_inv H. destruct a as [[r l1] w1]. apply LinenoiseEditInsert_in in E.
  destruct (negb (r =? 0)); injection H as _ _ <-; rewrite E; lia.
Qed.

Lemma complete_loop_fuel hc (lc : list (list Z)) (fuel1 : nat) :
  forall (fuel2 : nat) (i : Z) (ls : LinenoiseState) (w : world),
    (length (w_in w) < fuel1)%nat -> (length (w_in w) < fuel2)%nat ->
    complete_loop fuel1 hc lc i ls w = complete_loop fuel2 hc lc i ls w.
Proof.
  induction fuel1 as [| fuel1 IH]; intros fuel2 i ls w H1 H2; [lia |].
  destruct fuel2 as [| fuel2]; [lia |]. cbn [complete_loop].
  match goal with
  | |- obind ?m _ = obind ?m _ => destruct m as [[ls1 w1] | |] eqn:E
  end; cbn [obind]; try reflexivity.
  assert (Hin : w_in w1 = w_in w).
  { destruct (i <? Z.of_nat (length lc)).
    - bind_inv E. bind_inv E. destruct a0 as [shown w2]. injection E as _ <-.
      apply RefreshLine_in in E1. exact E1.
    - apply RefreshLine_in in E. exact E. }
  destruct (Sys.read w1) as [rd w2] eqn:Er. apply read_in in Er as [_ Er].
  destruct rd as [c | |]; try reflexivity.
  destruct (c =? 9); [| reflexivity].
  specialize (Er c eq_refl). rewrite Hin in Er.
  apply IH; match goal with
            | |- context [if ?b then LinenoiseBeep _ else _] => destruct b
            end; cbn [LinenoiseBeep Sys.write_err with_err w_in]; lia.
Qed.

Lemma complete_loop_in (fuel : nat) hc (lc : list (list Z)) :
  forall (i : Z) (ls : LinenoiseState) (w : world) r ls' w',
    complete_loop fuel hc lc i ls w = Done (r, ls', w') ->
    (length (w_in w') <= length (w_in w))%nat.
Proof.
  induction fuel as [| fuel IH]; intros i ls w r ls' w' H; [discriminate H |].
  cbn [complete_loop] in H. bind_inv H. destruct a as [ls1 w1].
  assert (Hin : w_in w1 = w_in w).
  { destruct (i <? Z.of_nat (length lc)).
    - bind_inv E. bind_inv E. destruct a0 as [shown w2]. injection E as _ <-.
      apply RefreshLine_in in E1. exact E1.
    - apply RefreshLine_in in E. exact E. }
  clear E. destruct (Sys.read w1) as [rd w2] eqn:Er. apply read_in in Er as [Er _].
  rewrite Hin in Er.
  destruct rd as [c | |]; try (injection H as _ _ <-; lia).
  destruct (c =? 9).
  { apply IH in H.
    match type of H with
    | context [if ?b then LinenoiseBeep _ else _] => destruct b
    end; cbn [LinenoiseBeep Sys.write_err with_err w_in] in H; lia. }
  destruct (c =? 27).
  { bind_inv H. destruct a as [ls2 w3]. injection H as _ _ <-.
    destruct (i <? Z.of_nat (length lc));
      [apply RefreshLine_in in E; rewrite E; lia | injection E as _ <-; lia]. }
  bind_inv H. injection H as _ _ <-. lia.
Qed.

Lemma CompleteLine_in cb hc ls w r ls' w' :
  CompleteLine cb hc ls w = Done (r, ls', w') ->
  (length (w_in w') <= length (w_in w))%nat.
Proof.
  unfold CompleteLine. intros H. bind_inv H.
  destruct (Z.of_nat (length (cb a)) =? 0).
  - injection H as _ _ <-. reflexivity.
  - eapply complete_loop_in. exact H.
Qed.

Lemma edit_turn_in cc hc ls w k ls' w' :
  edit_turn cc hc ls w = Done (k, ls', w') ->
  k = Continue -> (length (w_in w') < length (w_in w))%nat.
Proof.
  unfold edit_turn. intros H Hk.
  destruct (Sys.read w) as [rd w1] eqn:Er. apply read_in in Er as [_ Er].
  destruct rd as [c | |]; try (injection H as <- _ _; discriminate Hk).
  specialize (Er c eq_refl).
  destruct cc as [cb |]; [| apply dispatch_in in H; lia].
  destruct (c =? 9); [| apply dispatch_in in H; lia].
  bind_inv H. destruct a as [[r ls1] w2]. apply CompleteLine_in in E.
  destruct (C.char_negative (C.char r)); [injection H as <- _ _; discriminate Hk |].
  destruct (C.char r =? 0); [injection H as _ _ <-; lia |].
  apply dispatch_in in H. lia.
Qed.

Lemma edit_loop_fuel cc hc (fuel1 : nat) :
  forall (fuel2 : nat) (ls : LinenoiseState) (w : world),
    (length (w_in w) < fuel1)%nat -> (length (w_in w) < fuel2)%nat ->
    edit_loop fuel1 cc hc ls w = edit_loop fuel2 cc hc ls w.
Proof.
  induction fuel1 as [| fuel1 IH]; intros fuel2 ls w H1 H2; [lia |].
  destruct fuel2 as [| fuel2]; [lia |]. cbn [edit_loop].
  destruct (edit_turn cc hc ls w) as [[[k ls1] w1] | |] eqn:E; cbn [obind];
    try reflexivity.
  destruct k as [| count]; [| reflexivity].
  pose proof (edit_turn_in _ _ _ _ _ _ _ E eq_refl).
  apply IH; lia.
Qed.

(** The other bounded loops: the fuel they are given is enough as well. *)
Lemma retreat_fuel (space : bool) (b : list Z) (fuel1 : nat) :
  forall (fuel2 : nat) (p : Z),
    0 <= p < C.SIZE_MAX1 -> (Z.to_nat p < fuel1)%nat -> (Z.to_nat p < fuel2)%nat ->
    retreat fuel1 space b p = retreat fuel2 space b p.
Proof.
  induction fuel1 as [| fuel1 IH]; intros fuel2 p Hp H1 H2; [lia |].
  destruct fuel2 as [| fuel2]; [lia |]. cbn [retreat].
  destruct (p >? 0) eqn:E; zbool; [| reflexivity].
  destruct (Mem.load b (p - 1)) as [c | |]; cbn [obind]; try reflexivity.
  destruct (eqb (c =? 32) space); [| reflexivity].
  rewrite size_t_small by lia. apply IH; lia.
Qed.

Lemma strip_eol_fuel (fuel1 : nat) :
  forall (fuel2 : nat) (b : list Z) (n : Z),
    0 <= n < C.SIZE_MAX1 -> (Z.to_nat n < fuel1)%nat -> (Z.to_nat n < fuel2)%nat ->
    strip_eol fuel1 b n = strip_eol fuel2 b n.
Proof.
  induction fuel1 as [| fuel1 IH]; intros fuel2 b n Hn H1 H2; [lia |].
  destruct fuel2 as [| fuel2]; [lia |]. cbn [strip_eol].
  destruct (n =? 0) eqn:E; zbool; cbn [negb]; [reflexivity |].
  destruct (Mem.load b (n - 1)) as [c | |]; cbn [obind]; try reflexivity.
  destruct ((c =? 10) || (c =? 13)); [| reflexivity].
  rewrite size_t_small by lia.
  destruct (Mem.store b (n - 1) 0) as [b' | |]; cbn [obind]; try reflexivity.
  apply IH; lia.
Qed.

Lemma fgets_line_rest (n : nat) (s line rest : list Z) :
  fgets_line n s = (line, rest) -> (length line + length rest = length s)%nat.
Proof.
  revert s line rest. induction n as [| n IH]; intros s line rest H.
  - cbn in H. injection H as <- <-. reflexivity.
  - destruct s as [| c s]; [injection H as <- <-; reflexivity |].
    cbn [fgets_line] in H. destruct (c =? 10); [injection H as <- <-; reflexivity |].
    destruct (fgets_line n s) as [l r] eqn:E. injection H as <- <-.
    apply IH in E. cbn [length]. lia.
Qed.

Lemma fgets_consumes (stream line rest : list Z) :
  fgets LINENOISE_MAX_LINE stream = Some (line, rest) ->
  (length rest < length stream)%nat.
Proof.
  unfold fgets. change (LINENOISE_MAX_LINE <=? 0) with false. cbv iota.
  destruct stream as [| c s]; [discriminate |].
  destruct (Z.to_nat (LINENOISE_MAX_LINE - 1)) as [| n] eqn:En;
    [vm_compute in En; discriminate En |].
  intros H. injection H as H.
  pose proof (fgets_line_rest (S n) (c :: s) line rest H) as Hlen.
  cbn [fgets_line] in H. destruct (c =? 10).
  - injection H as <- <-. cbn [length]. lia.
  - destruct (fgets_line n s) as [l r]. injection H as <- <-.
    cbn [length] in *. lia.
Qed.

Lemma history_load_loop_fuel (fuel1 : nat) :
  forall (fuel2 : nat) (ls : LinenoiseState) (stream : list Z),
    (length stream < fuel1)%nat -> (length stream < fuel2)%nat ->
    history_load_loop fuel1 ls stream = history_load_loop fuel2 ls stream.
Proof.
  induction fuel1 as [| fuel1 IH]; intros fuel2 ls stream H1 H2; [lia |].
  destruct fuel2 as [| fuel2]; [lia |]. cbn [history_load_loop].
  destruct (fgets LINENOISE_MAX_LINE stream) as [[line rest] |] eqn:E;
    [| reflexivity].
  apply fgets_consumes in E.
  destruct (LinenoiseHistoryAdd ls (load_line line)) as [[r ls1] | |];
    cbn [obind]; try reflexivity.
  apply IH; lia.
Qed.

(** ** The render engine returns *)

Lemma slide_left_closed (fuel : nat) (plen cols : Z) (wd : window) :
  0 <= plen < cols -> 0 <= win_pos wd <= win_len wd ->
  win_len wd + cols < C.SIZE_MAX1 ->
  (Z.to_nat (plen + win_pos wd) < fuel)%nat ->
  slide_left fuel plen cols wd
  = Some (let k := Z.max 0 (plen + win_pos wd - cols + 1) in
          {| win_off := win_off wd + k;
             win_len := win_len wd - k;
             win_pos := win_pos wd - k |}).
Proof.
  revert wd. induction fuel as [| fuel IH]; intros wd Hp Hw Hbig Hfuel; [lia |].
  cbn [slide_left]. rewrite size_t_small by lia.
  destruct (cols <=? plen + win_pos wd) eqn:E; zbool.
  - rewrite !size_t_small by lia.
    rewrite IH by (cbn [win_off win_len win_pos]; lia).
    cbn [win_off win_len win_pos]. cbv zeta. f_equal. f_equal; lia.
  - cbv zeta. replace (Z.max 0 (plen + win_pos wd - cols + 1)) with 0 by lia.
    rewrite Z.add_0_r, !Z.sub_0_r. destruct wd; reflexivity.
Qed.

Lemma trim_right_closed (fuel : nat) (plen cols : Z) (wd : window) :
  0 <= plen < cols -> 0 <= win_len wd -> plen + win_len wd < C.SIZE_MAX1 ->
  (Z.to_nat (plen + win_len wd) < fuel)%nat ->
  trim_right fuel plen cols wd
  = Some {| win_off := win_off wd;
            win_len := Z.min (win_len wd) (cols - plen);
            win_pos := win_pos wd |}.
Proof.
  revert wd. induction fuel as [| fuel IH]; intros wd Hp Hw Hbig Hfuel; [lia |].
  cbn [trim_right]. rewrite size_t_small by lia.
  destruct (cols <? plen + win_len wd) eqn:E; zbool.
  - rewrite !size_t_small by lia.
    rewrite IH by (cbn [win_off win_len win_pos]; lia).
    cbn [win_off win_len win_pos]. f_equal. f_equal; lia.
  - replace (Z.min (win_len wd) (cols - plen)) with (win_len wd) by lia.
    destruct wd; reflexivity.
Qed.

Lemma refresh_window_closed (l : LinenoiseState) :
  0 <= pos l <= len l -> Z.of_nat (length (prompt l)) < cols l ->
  len l + cols l < C.SIZE_MAX1 ->
  refresh_window l = Done (scroll_window l).
Proof.
  intros Hpos Hplen Hbig. unfold refresh_window, scroll_window.
  set (plen := Z.of_nat (length (prompt l))) in *.
  cbn [win_pos]. rewrite (size_t_small (plen + pos l)) by lia.
  rewrite slide_left_closed by (cbn [win_off win_len win_pos]; lia).
  cbn [win_off win_len win_pos]. cbv zeta.
  set (k := Z.max 0 (plen + pos l - cols l + 1)).
  rewrite (size_t_small (plen + (len l - k))) by lia.
  rewrite trim_right_closed by (cbn [win_off win_len win_pos]; lia).
  cbn [win_off win_len win_pos]. rewrite Z.add_0_l. reflexivity.
Qed.

(** X1.  The two loops of the single-line refresh compute the window in
    closed form: the line is shown from its start while the cursor fits,
    and otherwise scrolled so that the cursor stands in the last column;
    the visible part never passes the right edge and never starts after
    the cursor. *)
Theorem window_keeps_cursor_in_view (l : LinenoiseState) :
  0 <= pos l <= len l -> Z.of_nat (length (prompt l)) < cols l ->
  len l + cols l < C.SIZE_MAX1 ->
  exists wd,
    refresh_window l = Done wd
    /\ wd = scroll_window l
    /\ (Z.of_nat (length (prompt l)) + pos l < cols l ->
        win_off wd = 0 /\ win_pos wd = pos l)
    /\ (cols l <= Z.of_nat (length (prompt l)) + pos l ->
        Z.of_nat (length (prompt l)) + win_pos wd = cols l - 1)
    /\ (Z.of_nat (length (prompt l)) + len l < cols l ->
        win_off wd = 0 /\ win_len wd = len l)
    /\ win_pos wd <= win_len wd.
Proof.
  intros Hpos Hplen Hbig. exists (scroll_window l).
  split; [apply refresh_window_closed; assumption |].
  split; [reflexivity |].
  unfold scroll_window. cbn [win_off win_len win_pos].
  repeat split; lia.
Qed.

Lemma window_keeps_cursor_in_view_witness :
  exists wd,
    refresh_window (small_session (bytes_of_string "hello, world") 15 10) = Done wd
    /\ wd = {| win_off := 5; win_len := 7; win_pos := 7 |}.
Proof.
  destruct (window_keeps_cursor_in_view
              (small_session (bytes_of_string "hello, world") 15 10))
    as (wd & Hrun & Hwd & _).
  - vm_compute. split; discriminate.
  - vm_compute. reflexivity.
  - vm_compute. reflexivity.
  - exists wd. split; [exact Hrun |]. rewrite Hwd. vm_compute. reflexivity.
Defined.

(** A boolean test that holds. *)
Ltac holds :=
  repeat (apply andb_true_intro; split);
  first [ apply Z.leb_le | apply Z.ltb_lt | apply Z.eqb_eq | reflexivity ].

Lemma until_nul_some (m : list Z) (j : nat) :
  m !! j = Some 0 -> exists s, Mem.until_nul m = Some s.
Proof.
  revert j. induction m as [| b m IH]; intros j H; [discriminate H |].
  cbn [Mem.until_nul]. destruct (b =? 0) eqn:E; [eauto |].
  destruct j as [| j]; cbn in H; [injection H as ->; discriminate E |].
  destruct (IH j H) as [s ->]. eauto.
Qed.

Lemma cstr_of_nul (m : list Z) (n : Z) :
  Mem.load m n = Done 0 ->
  exists s, Mem.cstr m = Done s /\ Z.of_nat (length s) <= n.
Proof.
  intros H. apply load_lookup in H as [Hn Hl].
  destruct (until_nul_some _ _ Hl) as [s Hs].
  exists s. unfold Mem.cstr. rewrite Hs. split; [reflexivity |].
  destruct (until_nul_spec _ _ Hs) as [_ Hmin]. apply Hmin in Hl. lia.
Qed.

Lemma RefreshShowHints_returns hc (ab : list Z) (l : LinenoiseState) (p : Z) :
  (exists s, Mem.cstr (buf l) = Done s) -> cols l < 2 ^ 31 -> short_hints hc ->
  exists ab', RefreshShowHints hc ab l p = Done ab'.
Proof.
  intros [s Hs] Hcols Hshort. unfold RefreshShowHints.
  destruct hc as [cb |]; [| eauto].
  destruct (C.size_t (C.size_t p + len l) <? cols l) eqn:E; zbool; [| eauto].
  rewrite Hs. cbn [obind].
  destruct (cb s) as [[hint color] bold] eqn:Ecb.
  destruct hint as [h |]; [| eauto].
  pose proof (Hshort cb s h color bold eq_refl Ecb) as Hh.
  pose proof (size_t_range (C.size_t p + len l)) as Hx.
  set (x := C.size_t (C.size_t p + len l)) in *.
  rewrite (size_t_small (cols l - x)) by (unfold C.SIZE_MAX1; lia).
  rewrite (int_small (cols l - x)) by lia.
  rewrite (int_small (Z.of_nat (length h))) by lia.
  unfold abAppend, Mem.size.
  match goal with
  | |- context [if ?b then Done ?v else Undefined] =>
      replace b with true by (symmetry; destruct (_ >? _) eqn:Egt; zbool; holds; lia)
  end.
  cbn [obind]. eauto.
Qed.

Lemma RefreshSingleLine_returns hc (l : LinenoiseState) (w : world) :
  drawable l -> renders hc l -> mlmode l = false ->
  exists ab, RefreshSingleLine hc l w = Done (l, snd (Sys.write w ab)).
Proof.
  intros ([Hpos Hle] & Hlen & Hnul) (Hcols & Hplen & Hshort) Hml.
  pose proof (load_in_bounds _ _ _ Hnul). specialize (Hplen Hml).
  unfold RefreshSingleLine.
  rewrite refresh_window_closed by (unfold C.SIZE_MAX1; lia).
  cbn [obind]. unfold scroll_window. cbn [win_off win_len win_pos].
  set (plen := Z.of_nat (length (prompt l))) in *.
  set (k := Z.max 0 (plen + pos l - cols l + 1)).
  unfold offset.
  replace ((0 <=? k) && (k <=? Mem.size (buf l))) with true
    by (symmetry; holds; lia).
  cbn [obind]. unfold abAppend.
  rewrite int_small by lia.
  replace ((0 <=? Z.min (len l - k) (cols l - plen))
           && (Z.min (len l - k) (cols l - plen)
               <=? Mem.size (drop (Z.to_nat k) (buf l)))) with true
    by (symmetry; holds; unfold Mem.size in *; rewrite ?length_drop; lia).
  cbn [obind].
  match goal with
  | |- context [RefreshShowHints hc ?ab l ?p] =>
      destruct (RefreshShowHints_returns hc ab l p) as [ab' ->];
        [ destruct (cstr_of_nul _ _ Hnul) as (s & Hs & _); eauto
        | lia | exact Hshort |]
  end.
  cbn [obind]. eauto.
Qed.

Lemma RefreshMultiLine_returns hc (l : LinenoiseState) (w : world) :
  drawable l -> renders hc l ->
  exists l' ab,
    RefreshMultiLine hc l w = Done (l', snd (Sys.write w ab))
    /\ l' = memo_of l l'.
Proof.
  intros ([Hpos Hle] & Hlen & Hnul) (Hcols & _ & Hshort).
  pose proof (load_in_bounds _ _ _ Hnul).
  assert (Hd : forall a, udiv a (cols l) = Done (a / cols l)).
  { intros a. unfold udiv.
    replace (cols l =? 0) with false by (symmetry; apply Z.eqb_neq; lia).
    reflexivity. }
  assert (Hm : forall a, umod a (cols l) = Done (a mod cols l)).
  { intros a. unfold umod.
    replace (cols l =? 0) with false by (symmetry; apply Z.eqb_neq; lia).
    reflexivity. }
  assert (Hr : forall a, irem a (C.int (cols l)) = Done (Z.rem a (C.int (cols l)))).
  { intros a. unfold irem. rewrite int_small by lia.
    replace (cols l =? 0) with false by (symmetry; apply Z.eqb_neq; lia).
    reflexivity. }
  assert (Hrun : exists l' ab, RefreshMultiLine hc l w = Done (l', snd (Sys.write w ab))).
  { unfold RefreshMultiLine. rewrite !Hd. cbn [obind].
    match goal with
    | |- context [if ?b then set_maxrows l ?x else l] => destruct b
    end; cbn [buf len pos cols maxrows set_maxrows];
    (unfold abAppend at 1; rewrite (int_small (len l)) by lia;
     replace ((0 <=? len l) && (len l <=? Mem.size (buf l))) with true
       by (symmetry; holds; lia);
     cbn [obind];
     match goal with
     | |- context [RefreshShowHints ?h ?ab ?l1 ?p] =>
         destruct (RefreshShowHints_returns h ab l1 p) as [ab' ->];
           [ destruct (cstr_of_nul _ _ Hnul) as (s & Hs & _); exists s; exact Hs
           | cbn [cols set_maxrows]; lia
           | exact Hshort
           | ]
     end;
     cbn [obind]; rewrite Hm; cbn [obind];
     match goal with
     | |- context [if ?b then set_maxrows ?l1 ?x else ?l1] => destruct b
     end; cbn [buf len pos cols maxrows set_maxrows];
     rewrite Hd; cbn [obind]; rewrite Hr; cbn [obind]; eauto). }
  destruct Hrun as (l' & ab & Hrun). exists l', ab. split; [exact Hrun |].
  eapply RefreshMultiLine_memo. exact Hrun.
Qed.

Lemma RefreshLine_drawn hc (l : LinenoiseState) (w : world) :
  drawable l -> renders hc l ->
  exists l' ab,
    RefreshLine hc l w = Done (l', snd (Sys.write w ab))
    /\ l' = memo_of l l'.
Proof.
  intros Hg Hr. unfold RefreshLine. destruct (mlmode l) eqn:Hml.
  - apply RefreshMultiLine_returns; assumption.
  - destruct (RefreshSingleLine_returns hc l w Hg Hr Hml) as [ab ->].
    exists l, ab. split; [reflexivity |]. destruct l; reflexivity.
Qed.

Lemma good_drawable (l : LinenoiseState) : good l -> drawable l.
Proof.
  intros Hg. good_hyps Hg. split; [lia |]. split; [lia | exact Hnul].
Qed.

Lemma RefreshLine_write hc (l : LinenoiseState) (w : world) :
  good l -> renders hc l ->
  exists l' ab,
    RefreshLine hc l w = Done (l', snd (Sys.write w ab))
    /\ l' = memo_of l l'.
Proof. intros Hg. apply RefreshLine_drawn, good_drawable, Hg. Qed.

(** ** Hints in the refresh *)

(** A refresh writes what [RefreshShowHints] appends right after the
    prompt and the line; what it writes after that, and the session it
    leaves, do not depend on the hint. *)
Lemma refresh_threads_hint hc1 hc2 (l : LinenoiseState) (w : world) (x1 x2 : list Z) :
  drawable l -> 1 <= cols l < 2 ^ 31 ->
  Z.of_nat (length (prompt l)) + len l < cols l ->
  (forall ab l1, buf l1 = buf l -> len l1 = len l -> cols l1 = cols l ->
     RefreshShowHints hc1 ab l1 (C.int (Z.of_nat (length (prompt l))))
     = Done (ab ++ x1)) ->
  (forall ab l1, buf l1 = buf l -> len l1 = len l -> cols l1 = cols l ->
     RefreshShowHints hc2 ab l1 (C.int (Z.of_nat (length (prompt l))))
     = Done (ab ++ x2)) ->
  exists l' post,
    RefreshLine hc1 l w
    = Done (l', snd (Sys.write w
                       (refresh_prefix l ++ prompt l ++ current_line l ++ x1 ++ post)))
    /\ RefreshLine hc2 l w
       = Done (l', snd (Sys.write w
                          (refresh_prefix l ++ prompt l ++ current_line l ++ x2 ++ post))).
Proof.
  intros ([Hpos Hle] & Hlen & Hnul) Hcols Hroom H1 H2.
  pose proof (load_in_bounds _ _ _ Hnul) as Hin.
  unfold RefreshLine, current_line, refresh_prefix. destruct (mlmode l).
  - assert (Hd : forall a, udiv a (cols l) = Done (a / cols l)).
    { intros a. unfold udiv.
      replace (cols l =? 0) with false by (symmetry; apply Z.eqb_neq; lia).
      reflexivity. }
    assert (Hm : forall a, umod a (cols l) = Done (a mod cols l)).
    { intros a. unfold umod.
      replace (cols l =? 0) with false by (symmetry; apply Z.eqb_neq; lia).
      reflexivity. }
    assert (Hr : forall a, irem a (C.int (cols l)) = Done (Z.rem a (C.int (cols l)))).
    { intros a. unfold irem. rewrite int_small by lia.
      replace (cols l =? 0) with false by (symmetry; apply Z.eqb_neq; lia).
      reflexivity. }
    unfold RefreshMultiLine. rewrite !Hd. cbn [obind]. cbv zeta.
    match goal with
    | |- context [if ?b then set_maxrows l ?x else l] => destruct b
    end; cbn [buf len pos cols maxrows prompt set_maxrows];
    (unfold abAppend; rewrite (int_small (len l)) by lia;
     replace ((0 <=? len l) && (len l <=? Mem.size (buf l))) with true
       by (symmetry; holds; lia);
     cbn [obind];
     rewrite H1, H2 by reflexivity; cbn [obind]; rewrite !Hm; cbn [obind];
     match goal with
     | |- context [if ?b then abAppendStr (abAppendStr _ [10]) [13] else _] =>
         destruct b
     end; cbn [andb];
     repeat match goal with
            | |- context [if ?b then set_maxrows ?l1 ?x else ?l1] => destruct b
            end; cbn [buf len pos cols maxrows prompt set_maxrows];
     rewrite !Hd; cbn [obind]; rewrite !Hr; cbn [obind];
     repeat match goal with
            | |- context [if ?b then abAppendStr ?a ?s else _] => destruct b
            end;
     unfold abAppendStr;
     eexists _, _; split; rewrite <- ?app_assoc; cbn [app]; reflexivity).
  - unfold RefreshSingleLine.
    rewrite refresh_window_closed by (unfold C.SIZE_MAX1; lia).
    cbn [obind]. unfold scroll_window. cbn [win_off win_len win_pos].
    set (plen := Z.of_nat (length (prompt l))) in *.
    replace (Z.max 0 (plen + pos l - cols l + 1)) with 0 by lia.
    unfold offset.
    replace ((0 <=? 0) && (0 <=? Mem.size (buf l))) with true
      by (symmetry; holds; unfold Mem.size; lia).
    cbn [obind]. unfold abAppend.
    replace (Z.min (len l - 0) (cols l - plen)) with (len l) by lia.
    rewrite int_small by lia. change (Z.to_nat 0) with 0%nat. rewrite drop_0.
    replace ((0 <=? len l) && (len l <=? Mem.size (buf l))) with true
      by (symmetry; holds; lia).
    cbn [obind]. rewrite H1, H2 by reflexivity. cbn [obind].
    unfold abAppendStr. exists l. eexists. split; rewrite <- ?app_assoc; reflexivity.
Qed.

(** C7, as the code has it.  In both modes the refresh renders a hint only
    when [plen + len < cols]: without that room a refresh with a hints
    callback writes what a refresh without one writes.  With that room,
    [RefreshShowHints] appends the hint the callback returns for the line,
    cut to the [cols - (plen + len)] columns that are left, so that prompt,
    line and hint do not exceed [cols]; the hint stands between its colour
    sequence and the reset sequence when the callback sets a colour or bold.
    The refresh, in either mode, writes exactly that right after the prompt
    and the line, and otherwise what a refresh without hints writes.  When
    the callback returns no hint, nothing is appended. *)
Theorem hints_need_room (cb : hints_callback) (l : LinenoiseState) (w : world) :
  0 <= len l -> Z.of_nat (length (prompt l)) + len l < 2 ^ 31 ->
  0 <= cols l < 2 ^ 31 ->
  (cols l <= Z.of_nat (length (prompt l)) + len l ->
   RefreshLine (Some cb) l w = RefreshLine None l w)
  /\ (Z.of_nat (length (prompt l)) + len l < cols l ->
      forall line h color bold,
        Mem.cstr (buf l) = Done line -> cb line = (Some h, color, bold) ->
        Z.of_nat (length h) < 2 ^ 31 ->
        exists n tint shown,
          n = Z.min (Z.of_nat (length h))
                (cols l - (Z.of_nat (length (prompt l)) + len l))
          /\ tint = (if (bold =? 1) && (color =? -1) then 37 else color)
          /\ shown = (if negb (tint =? -1) || negb (bold =? 0)
                     then (csi "" ++ dec bold ++ bytes_of_string ";" ++ dec tint
                           ++ bytes_of_string ";49m")
                          ++ take (Z.to_nat n) h ++ csi "0m"
                     else take (Z.to_nat n) h)
          /\ 0 <= n /\ Z.of_nat (length (prompt l)) + len l + n <= cols l
          /\ (h <> [] -> 0 < n)
          /\ (forall ab,
                RefreshShowHints (Some cb) ab l (C.int (Z.of_nat (length (prompt l))))
                = Done (ab ++ shown))
          /\ (drawable l ->
              exists l' post,
                RefreshLine (Some cb) l w
                = Done (l', snd (Sys.write w
                                   (refresh_prefix l ++ prompt l ++ current_line l
                                    ++ shown ++ post)))
                /\ RefreshLine None l w
                   = Done (l', snd (Sys.write w
                                      (refresh_prefix l ++ prompt l ++ current_line l
                                       ++ post)))))
  /\ (forall ab line color bold,
        Mem.cstr (buf l) = Done line -> cb line = (None, color, bold) ->
        RefreshShowHints (Some cb) ab l (C.int (Z.of_nat (length (prompt l))))
        = Done ab).
Proof.
  intros Hlen Hsum Hcols.
  set (plen := Z.of_nat (length (prompt l))) in *.
  assert (Hint : C.int plen = plen) by (apply int_small; lia).
  split; [| split].
  - intros Hfull.
    assert (Hno : forall l' ab, len l' = len l -> cols l' = cols l ->
                  RefreshShowHints (Some cb) ab l' plen = Done ab).
    { intros l' ab Hl Hc. apply RefreshShowHints_no_room. rewrite Hl, Hc.
      rewrite (size_t_small plen) by (unfold C.SIZE_MAX1; lia).
      rewrite size_t_small by (unfold C.SIZE_MAX1; lia). lia. }
    unfold RefreshLine. destruct (mlmode l).
    + unfold RefreshMultiLine. fold plen. rewrite Hint.
      repeat match goal with
             | |- obind ?m _ = obind ?m _ => destruct m; cbn [obind]; try reflexivity
             end.
      destruct (C.int a >? C.int (maxrows l)); rewrite Hno by reflexivity;
        reflexivity.
    + unfold RefreshSingleLine. fold plen. rewrite Hint.
      repeat match goal with
             | |- obind ?m _ = obind ?m _ => destruct m; cbn [obind]; try reflexivity
             end.
      rewrite Hno by reflexivity. reflexivity.
  - intros Hroom line h color bold Hline Hcb Hh.
    assert (Hshow : forall ab l1,
              buf l1 = buf l -> len l1 = len l -> cols l1 = cols l ->
              RefreshShowHints (Some cb) ab l1 (C.int plen)
              = Done (ab ++ (if negb ((if (bold =? 1) && (color =? -1) then 37 else color)
                                      =? -1) || negb (bold =? 0)
                             then (csi "" ++ dec bold ++ bytes_of_string ";"
                                   ++ dec (if (bold =? 1) && (color =? -1)
                                           then 37 else color)
                                   ++ bytes_of_string ";49m")
                                  ++ take (Z.to_nat (Z.min (Z.of_nat (length h))
                                                       (cols l - (plen + len l)))) h
                                  ++ csi "0m"
                             else take (Z.to_nat (Z.min (Z.of_nat (length h))
                                                    (cols l - (plen + len l)))) h))).
    { intros ab l1 Hb Hl Hc. rewrite Hint.
      destruct (RefreshShowHints_shows cb ab l1 plen line h color bold)
        as (n & tint & -> & -> & Hrun & _);
        rewrite ?Hb, ?Hl, ?Hc; try assumption; try lia.
      rewrite Hrun, Hl, Hc.
      destruct (negb _ || negb _); rewrite <- ?app_assoc; reflexivity. }
    eexists _, _, _. split; [reflexivity |]. split; [reflexivity |].
    split; [reflexivity |]. split; [lia |]. split; [lia |].
    split; [intros Hne; destruct h; [contradiction | cbn [length]; lia] |].
    split; [intros ab; apply Hshow; reflexivity |].
    intros Hd.
    apply (refresh_threads_hint (Some cb) None l w _ []); try assumption; try lia.
    intros ab l1 _ _ _. rewrite app_nil_r. reflexivity.
  - intros ab line color bold Hline Hcb. rewrite Hint. unfold RefreshShowHints.
    destruct (C.size_t (C.size_t plen + len l) <? cols l); [| reflexivity].
    rewrite Hline. cbn [obind]. rewrite Hcb. reflexivity.
Qed.

Lemma hints_need_room_witness :
  RefreshLine (Some example_hints) (small_session (bytes_of_string "hello") 7 5) (tty [])
  = RefreshLine None (small_session (bytes_of_string "hello") 7 5) (tty [])
  /\ RefreshShowHints (Some example_hints) []
       (small_session (bytes_of_string "hello") 7 10) 2
     = Done (csi "0;35;49m" ++ bytes_of_string " Wo" ++ csi "0m").
Proof.
  split.
  - apply (hints_need_room example_hints (small_session (bytes_of_string "hello") 7 5)
             (tty [])); vm_compute; try split; discriminate || reflexivity.
  - destruct (hints_need_room example_hints
                (small_session (bytes_of_string "hello") 7 10) (tty []))
      as (_ & Hshow & _);
      [vm_compute; discriminate | vm_compute; reflexivity
      | vm_compute; split; discriminate || reflexivity |].
    destruct (Hshow eq_refl (bytes_of_string "hello") (bytes_of_string " World") 35 0)
      as (n & tint & shown & -> & -> & -> & _ & _ & _ & Hrun & _);
      [vm_compute; reflexivity | vm_compute; reflexivity | vm_compute; reflexivity |].
    refine (eq_trans _ (eq_trans (Hrun []) _)); vm_compute; reflexivity.
Defined.

(** C7, as stated, fails in multi-line mode: with the line "hello" after
    the two-byte prompt on five columns, the hints callback of the example
    program offers " World", and the multi-line refresh renders none of
    it. *)
Lemma multiline_hint_needs_room :
  mlmode (set_mlmode (small_session (bytes_of_string "hello") 7 5) true) = true
  /\ example_hints (bytes_of_string "hello") = (Some (bytes_of_string " World"), 35, 0)
  /\ RefreshShowHints (Some example_hints) []
       (set_mlmode (small_session (bytes_of_string "hello") 7 5) true) 2 = Done []
  /\ RefreshMultiLine (Some example_hints)
       (set_mlmode (small_session (bytes_of_string "hello") 7 5) true) (tty [])
     = RefreshMultiLine None
         (set_mlmode (small_session (bytes_of_string "hello") 7 5) true) (tty [])
  /\ exists l' w',
       RefreshMultiLine (Some example_hints)
         (set_mlmode (small_session (bytes_of_string "hello") 7 5) true) (tty [])
       = Done (l', w')
       /\ w_out w' = [13] ++ csi "0K" ++ bytes_of_string "> hello"
                     ++ [13] ++ csi "2C".
Proof.
  split; [reflexivity |]. split; [vm_compute; reflexivity |].
  split; [vm_compute; reflexivity |]. split; [vm_compute; reflexivity |].
  eexists _, _. split; vm_compute; reflexivity.
Qed.

(** ** What the edit operations do to the line *)

Lemma memmove_ok (m : list Z) (d s n : Z) :
  0 <= d -> 0 <= s -> 0 <= n -> d + n <= Mem.size m -> s + n <= Mem.size m ->
  Mem.memmove m d s n
  = Done (take (Z.to_nat d) m ++ take (Z.to_nat n) (drop (Z.to_nat s) m)
          ++ drop (Z.to_nat (d + n)) m).
Proof.
  intros. unfold Mem.memmove.
  replace ((0 <=? d) && (0 <=? s) && (0 <=? n) && (d + n <=? Mem.size m)
           && (s + n <=? Mem.size m)) with true by (symmetry; holds; lia).
  reflexivity.
Qed.

Lemma take_S_insert (m : list Z) (i : nat) (v : Z) :
  (i < length m)%nat -> take (S i) (<[i := v]> m) = take i m ++ [v].
Proof.
  intros Hi. erewrite take_S_r by (apply list_lookup_insert_eq; lia).
  rewrite take_insert_ge by lia. reflexivity.
Qed.

Lemma insert_take_S (m : list Z) (i : nat) (v : Z) :
  (i < length m)%nat -> <[i := v]> (take (S i) m) = take i m ++ [v].
Proof.
  intros Hi. rewrite <- take_insert_lt by lia. apply take_S_insert. exact Hi.
Qed.

Lemma current_line_length (l : LinenoiseState) :
  good l -> length (current_line l) = Z.to_nat (len l).
Proof.
  intros Hg. good_hyps Hg. unfold current_line, Mem.size in *.
  rewrite length_take. lia.
Qed.

Lemma current_line_memo (l1 l' : LinenoiseState) :
  l' = memo_of l1 l' -> current_line l' = current_line l1.
Proof. intros ->. reflexivity. Qed.

Lemma setup_memo (l1 l' : LinenoiseState) :
  l' = memo_of l1 l' -> setup l' = setup l1.
Proof. intros ->. reflexivity. Qed.

Lemma renders_setup hc (l l' : LinenoiseState) :
  setup l' = setup l -> renders hc l -> renders hc l'.
Proof.
  unfold setup, renders. intros H. injection H as _ _ _ _ Hp _ Hc Hm _ _ _ _.
  rewrite Hp, Hc, Hm. tauto.
Qed.

Lemma load_of_lookup (m : list Z) (i : nat) (v : Z) :
  m !! i = Some v -> Mem.load m (Z.of_nat i) = Done v.
Proof.
  intros H. apply load_lookup. rewrite Nat2Z.id. split; [lia | exact H].
Qed.

Lemma write_ok (w : world) (b : list Z) :
  writes_succeed w ->
  Sys.write w b
  = (Z.of_nat (length b), with_out w (w_out w ++ b) (tail (w_wr w))).
Proof.
  unfold writes_succeed, Sys.write. intros H.
  destruct (w_wr w) as [| ok wr]; [reflexivity |].
  apply Forall_cons_1 in H as [-> _]. reflexivity.
Qed.

Lemma write_succeed (w : world) (b : list Z) :
  writes_succeed w -> writes_succeed (snd (Sys.write w b)).
Proof.
  intros H. rewrite write_ok by exact H. unfold writes_succeed in *.
  cbn [snd w_wr with_out]. destruct (w_wr w) as [| ok wr]; [constructor |].
  apply Forall_cons_1 in H as [_ H]. exact H.
Qed.

Lemma insert_end_line (m : list Z) (n : nat) (c : Z) :
  (S n < length m)%nat ->
  take (S n) (<[S n := 0]> (<[n := c]> m)) = take n (take n m) ++ c :: drop n (take n m).
Proof.
  intros Hn. rewrite take_insert_ge by lia. rewrite take_S_insert by lia.
  rewrite take_take, Nat.min_id, drop_ge by (rewrite length_take; lia).
  reflexivity.
Qed.

Lemma insert_mid_line (m : list Z) (p n : nat) (c : Z) :
  (p <= n)%nat -> (S n < length m)%nat ->
  take (S n)
    (<[S n := 0]>
       (<[p := c]> (take (S p) m ++ take (n - p) (drop p m) ++ drop (S n) m)))
  = take p (take n m) ++ c :: drop p (take n m).
Proof.
  intros Hp Hn. rewrite take_insert_ge by lia. rewrite take_insert_lt by lia.
  rewrite app_assoc.
  rewrite take_app_length'
    by (rewrite length_app, !length_take, length_drop; lia).
  rewrite insert_app_l by (rewrite length_take; lia).
  rewrite insert_take_S by lia.
  rewrite take_take, Nat.min_l by lia.
  rewrite take_drop_commute. replace (p + (n - p))%nat with n by lia.
  rewrite <- app_assoc. reflexivity.
Qed.

(** Draw an explicit session: the refresh returns, and the session drawn
    differs from it in the render memos only. *)
Lemma draw hc (l0 l1 : LinenoiseState) (w : world) :
  good l0 -> renders hc l0 -> setup l1 = setup l0 ->
  Mem.size (buf l1) = Mem.size (buf l0) ->
  0 <= pos l1 -> pos l1 <= len l1 -> len l1 <= buflen l0 ->
  Mem.load (buf l1) (len l1) = Done 0 ->
  exists l' ab,
    RefreshLine hc l1 w = Done (l', snd (Sys.write w ab))
    /\ l' = memo_of l1 l'.
Proof.
  intros Hg Hr Hs Hsize Hp Hle Hlen Hnul.
  apply RefreshLine_write; [| eapply renders_setup; eassumption].
  assert (Hb : buflen l1 = buflen l0)
    by (unfold setup in Hs; injection Hs as _ _ _ Hb _ _ _ _ _ _ _ _; exact Hb).
  destruct (good_make l0 l1) as [Hg1 _]; try assumption. exact (proj1 Hg).
Qed.

Lemma insert_effect hc (l : LinenoiseState) (c : Z) (w : world) :
  good l -> renders hc l -> len l < buflen l ->
  exists r l' w',
    LinenoiseEditInsert hc l c w = Done (r, l', w')
    /\ current_line l'
       = take (Z.to_nat (pos l)) (current_line l)
         ++ c :: drop (Z.to_nat (pos l)) (current_line l)
    /\ pos l' = pos l + 1 /\ len l' = len l + 1
    /\ (writes_succeed w -> r = 0).
Proof.
  intros Hg Hr Hroom. good_hyps Hg. unfold LinenoiseEditInsert.
  rewrite (proj2 (Z.ltb_lt _ _) Hroom).
  assert (Hn : (S (Z.to_nat (len l)) < length (buf l))%nat)
    by (unfold Mem.size in *; lia).
  destruct (len l =? pos l) eqn:E; zbool.
  - rewrite store_ok by lia. cbn [obind]. fields. szg.
    rewrite store_ok by (unfold Mem.size in *; rewrite length_insert; lia).
    cbn [obind]. fields.
    replace (Z.to_nat (len l + 1)) with (S (Z.to_nat (len l))) by lia.
    rewrite <- E.
    match goal with
    | |- context [if ?b then _ else _] => destruct b
    end.
    + destruct (Sys.write w [c]) as [r1 w1] eqn:Ew.
      assert (Hline : forall r, exists r0 l' w',
                 Done (r, set_buf (set_len (set_pos (set_buf l (<[Z.to_nat (len l):=c]> (buf l))) (len l + 1)) (len l + 1)) (<[S (Z.to_nat (len l)):=0]> (<[Z.to_nat (len l):=c]> (buf l))), w1)
                 = Done (r0, l', w')
                 /\ current_line l'
                    = take (Z.to_nat (len l)) (current_line l)
                      ++ c :: drop (Z.to_nat (len l)) (current_line l)
                 /\ pos l' = len l + 1 /\ len l' = len l + 1
                 /\ (writes_succeed w -> r1 = 1 -> r = 0 -> r0 = 0)).
      { intros r. eexists _, _, _. split; [reflexivity |].
        unfold current_line. fields.
        replace (Z.to_nat (len l + 1)) with (S (Z.to_nat (len l))) by lia.
        split; [apply insert_end_line; exact Hn |]. repeat split. auto. }
      assert (Hw : writes_succeed w -> r1 = 1).
      { intros Hok. rewrite write_ok in Ew by exact Hok. injection Ew as <- _.
        reflexivity. }
      destruct (r1 =? -1) eqn:Er; zbool.
      * destruct (Hline (-1)) as (r0 & l' & w' & H1 & H2 & H3 & H4 & H5).
        exists r0, l', w'. repeat split; try assumption.
        intros Hok. specialize (Hw Hok). lia.
      * destruct (Hline 0) as (r0 & l' & w' & H1 & H2 & H3 & H4 & H5).
        exists r0, l', w'. repeat split; try assumption. auto.
    + match goal with
      | |- context [RefreshLine hc ?l1 w] =>
          destruct (draw hc l l1 w) as (l' & ab & -> & Hmemo);
            try assumption; fields; try reflexivity; try lia
      end.
      * unfold Mem.size. rewrite !length_insert. reflexivity.
      * replace (len l + 1) with (Z.of_nat (S (Z.to_nat (len l)))) by lia.
        apply load_of_lookup. apply list_lookup_insert_eq.
        rewrite length_insert. lia.
      * cbn [obind]. eexists _, _, _. split; [reflexivity |].
        rewrite (current_line_memo _ _ Hmemo), Hmemo. unfold current_line.
        cbn [memo_of set_oldpos set_maxrows pos len]. fields.
        replace (Z.to_nat (len l + 1)) with (S (Z.to_nat (len l))) by lia.
        split; [apply insert_end_line; exact Hn |]. repeat split.
  - szg. rewrite memmove_ok by lia. cbn [obind].
    rewrite store_ok
      by (unfold Mem.size in *;
          rewrite !length_app, !length_take, !length_drop; lia).
    cbn [obind]. fields. szg.
    rewrite store_ok
      by (unfold Mem.size in *;
          rewrite length_insert, !length_app, !length_take, !length_drop; lia).
    cbn [obind]. fields.
    replace (Z.to_nat (pos l + 1)) with (S (Z.to_nat (pos l))) by lia.
    replace (Z.to_nat (len l - pos l))
      with (Z.to_nat (len l) - Z.to_nat (pos l))%nat by lia.
    replace (Z.to_nat (pos l + 1 + (len l - pos l)))
      with (S (Z.to_nat (len l))) by lia.
    replace (Z.to_nat (len l + 1)) with (S (Z.to_nat (len l))) by lia.
    match goal with
    | |- context [RefreshLine hc ?l1 w] =>
        destruct (draw hc l l1 w) as (l' & ab & -> & Hmemo);
          try assumption; fields; try reflexivity; try lia
    end.
    + unfold Mem.size in *.
      rewrite !length_insert, !length_app, !length_take, !length_drop. lia.
    + replace (len l + 1) with (Z.of_nat (S (Z.to_nat (len l)))) by lia.
      apply load_of_lookup. apply list_lookup_insert_eq.
      unfold Mem.size in *.
      rewrite length_insert, !length_app, !length_take, !length_drop. lia.
    + cbn [obind]. eexists _, _, _. split; [reflexivity |].
      rewrite (current_line_memo _ _ Hmemo), Hmemo. unfold current_line.
      cbn [memo_of set_oldpos set_maxrows pos len]. fields.
      replace (Z.to_nat (len l + 1)) with (S (Z.to_nat (len l))) by lia.
      split; [apply insert_mid_line; lia |]. repeat split.
Qed.

Lemma close_gap_line (m : list Z) (a b n k : nat) (rest : list Z) :
  (a <= b)%nat -> (b <= n)%nat -> (n - b <= k)%nat -> (b + k <= length m)%nat ->
  take (n - (b - a)) (take a m ++ take k (drop b m) ++ rest)
  = take a (take n m) ++ drop b (take n m).
Proof.
  intros Hab Hbn Hk Hm.
  assert (Hd : drop b (take n m) = take (n - b) (drop b m)).
  { rewrite take_drop_commute. replace (b + (n - b))%nat with n by lia.
    reflexivity. }
  rewrite Hd, take_take, Nat.min_l by lia.
  rewrite take_app_ge by (rewrite length_take; lia).
  rewrite length_take, Nat.min_l by lia.
  replace (n - (b - a) - a)%nat with (n - b)%nat by lia.
  rewrite take_app_le by (rewrite length_take, length_drop; lia).
  rewrite take_take, Nat.min_l by lia.
  reflexivity.
Qed.

Lemma close_gap_nul (m : list Z) (a b n k : nat) (rest : list Z) :
  (a <= b)%nat -> (b <= n)%nat -> (n - b < k)%nat -> (b + k <= length m)%nat ->
  m !! n = Some 0 ->
  (take a m ++ take k (drop b m) ++ rest) !! (n - (b - a))%nat = Some 0.
Proof.
  intros Hab Hbn Hk Hm Hz.
  rewrite lookup_app_r by (rewrite length_take; lia).
  rewrite length_take, Nat.min_l by lia.
  rewrite lookup_app_l by (rewrite length_take, length_drop; lia).
  rewrite lookup_take_lt by lia. rewrite lookup_drop.
  replace (b + (n - (b - a) - a))%nat with n by lia. exact Hz.
Qed.

Lemma nul_lookup (l : LinenoiseState) :
  good l -> buf l !! Z.to_nat (len l) = Some 0.
Proof. intros Hg. good_hyps Hg. apply load_lookup in Hnul. tauto. Qed.

Lemma draw_line hc (l0 l1 : LinenoiseState) (w : world) :
  good l0 -> renders hc l0 -> setup l1 = setup l0 ->
  Mem.size (buf l1) = Mem.size (buf l0) ->
  0 <= pos l1 -> pos l1 <= len l1 -> len l1 <= buflen l0 ->
  Mem.load (buf l1) (len l1) = Done 0 ->
  exists l' w',
    RefreshLine hc l1 w = Done (l', w')
    /\ current_line l' = current_line l1
    /\ pos l' = pos l1 /\ len l' = len l1.
Proof.
  intros Hg Hr Hs Hsize Hp Hle Hlen Hnul.
  destruct (draw hc l0 l1 w) as (l' & ab & Hrun & Hmemo); try assumption.
  exists l', (snd (Sys.write w ab)). split; [exact Hrun |].
  rewrite (current_line_memo _ _ Hmemo), Hmemo. repeat split.
Qed.

Lemma backspace_effect hc (l : LinenoiseState) (w : world) :
  good l -> renders hc l -> 0 < pos l ->
  exists l' w',
    LinenoiseEditBackspace hc l w = Done (l', w')
    /\ current_line l'
       = take (Z.to_nat (pos l - 1)) (current_line l)
         ++ drop (Z.to_nat (pos l)) (current_line l)
    /\ pos l' = pos l - 1 /\ len l' = len l - 1.
Proof.
  intros Hg Hr Hp. good_hyps Hg. pose proof (nul_lookup l Hg) as Hz.
  unfold LinenoiseEditBackspace, Mem.size in *.
  replace ((pos l >? 0) && (len l >? 0)) with true
    by (symmetry; rewrite !Z.gtb_ltb; holds; lia).
  szg. rewrite memmove_ok by (unfold Mem.size; lia). cbn [obind]. fields. szg.
  replace (Z.to_nat (pos l - 1 + (len l - pos l)))
    with (Z.to_nat (pos l - 1) + Z.to_nat (len l - pos l))%nat by lia.
  set (a := Z.to_nat (pos l - 1)). set (k := Z.to_nat (len l - pos l)).
  set (b1 := take a (buf l) ++ take k (drop (Z.to_nat (pos l)) (buf l))
             ++ drop (a + k) (buf l)).
  assert (Hb1 : length b1 = length (buf l)).
  { subst b1 a k. rewrite !length_app, !length_take, !length_drop. lia. }
  rewrite store_ok by (unfold Mem.size; lia). cbn [obind].
  match goal with
  | |- context [RefreshLine hc ?l1 w] =>
      destruct (draw_line hc l l1 w) as (l' & w' & -> & Hline & Hpos' & Hlen');
        try assumption; fields; try reflexivity; try lia
  end.
  - unfold Mem.size. rewrite length_insert. lia.
  - replace (len l - 1) with (Z.of_nat (Z.to_nat (len l - 1))) at 2 by lia.
    apply load_of_lookup. apply list_lookup_insert_eq. lia.
  - exists l', w'. split; [reflexivity |]. rewrite Hline, Hpos', Hlen'.
    unfold current_line. fields. split; [| split; reflexivity].
    rewrite take_insert_ge by lia. subst b1.
    replace (Z.to_nat (len l - 1))
      with (Z.to_nat (len l) - (Z.to_nat (pos l) - a))%nat by lia.
    apply close_gap_line; lia.
Qed.

Lemma delete_effect hc (l : LinenoiseState) (w : world) :
  good l -> renders hc l -> pos l < len l ->
  exists l' w',
    LinenoiseEditDelete hc l w = Done (l', w')
    /\ current_line l'
       = take (Z.to_nat (pos l)) (current_line l)
         ++ drop (Z.to_nat (pos l + 1)) (current_line l)
    /\ pos l' = pos l /\ len l' = len l - 1.
Proof.
  intros Hg Hr Hp. good_hyps Hg. pose proof (nul_lookup l Hg) as Hz.
  unfold LinenoiseEditDelete, Mem.size in *.
  replace ((len l >? 0) && (pos l <? len l)) with true
    by (symmetry; rewrite !Z.gtb_ltb; holds; lia).
  szg. rewrite memmove_ok by (unfold Mem.size; lia). cbn [obind]. fields. szg.
  replace (Z.to_nat (pos l + (len l - pos l - 1)))
    with (Z.to_nat (pos l) + Z.to_nat (len l - pos l - 1))%nat by lia.
  set (a := Z.to_nat (pos l)). set (k := Z.to_nat (len l - pos l - 1)).
  set (b1 := take a (buf l) ++ take k (drop (Z.to_nat (pos l + 1)) (buf l))
             ++ drop (a + k) (buf l)).
  assert (Hb1 : length b1 = length (buf l)).
  { subst b1 a k. rewrite !length_app, !length_take, !length_drop. lia. }
  rewrite store_ok by (unfold Mem.size; lia). cbn [obind].
  match goal with
  | |- context [RefreshLine hc ?l1 w] =>
      destruct (draw_line hc l l1 w) as (l' & w' & -> & Hline & Hpos' & Hlen');
        try assumption; fields; try reflexivity; try lia
  end.
  - unfold Mem.size. rewrite length_insert. lia.
  - replace (len l - 1) with (Z.of_nat (Z.to_nat (len l - 1))) at 2 by lia.
    apply load_of_lookup. apply list_lookup_insert_eq. lia.
  - exists l', w'. split; [reflexivity |]. rewrite Hline, Hpos', Hlen'.
    unfold current_line. fields. split; [| split; reflexivity].
    rewrite take_insert_ge by lia. subst b1.
    replace (Z.to_nat (len l - 1))
      with (Z.to_nat (len l) - (Z.to_nat (pos l + 1) - a))%nat by lia.
    apply close_gap_line; lia.
Qed.

Lemma retreat_spec (space : bool) (b : list Z) (fuel : nat) :
  forall p : Z,
    0 <= p <= Mem.size b -> p < C.SIZE_MAX1 -> (Z.to_nat p < fuel)%nat ->
    exists p',
      retreat fuel space b p = Done p' /\ 0 <= p' <= p
      /\ (forall i, p' <= i < p ->
          exists c, b !! Z.to_nat i = Some c /\ (c =? 32) = space)
      /\ (p' = 0
          \/ exists c, b !! Z.to_nat (p' - 1) = Some c /\ (c =? 32) = negb space).
Proof.
  induction fuel as [| fuel IH]; intros p Hp Hbig Hfuel; [lia |].
  cbn [retreat]. destruct (p >? 0) eqn:E; zbool.
  - unfold Mem.load, Mem.in_bounds.
    replace ((0 <=? p - 1) && (p - 1 <? Mem.size b)) with true
      by (symmetry; holds; lia).
    cbn [obind].
    assert (Hl : b !! Z.to_nat (p - 1) = Some (nth (Z.to_nat (p - 1)) b 0)).
    { destruct (nth_lookup_or_length b (Z.to_nat (p - 1)) 0) as [Hl | Hl];
        [exact Hl | unfold Mem.size in Hp; lia]. }
    set (c := nth (Z.to_nat (p - 1)) b 0) in *.
    destruct (eqb (c =? 32) space) eqn:Ec.
    + apply eqb_prop in Ec. rewrite size_t_small by lia.
      destruct (IH (p - 1)) as (p' & -> & Hle & Hrun & Hstop); try lia.
      exists p'. split; [reflexivity |]. split; [lia |]. split; [| exact Hstop].
      intros i Hi. destruct (Z.eq_dec i (p - 1)) as [-> | Hne].
      * exists c. split; assumption.
      * apply Hrun. lia.
    + exists p. split; [reflexivity |]. split; [lia |]. split; [intros i Hi; lia |].
      right. exists c. split; [exact Hl |].
      destruct (c =? 32), space; try reflexivity; discriminate Ec.
  - exists p. split; [reflexivity |]. split; [lia |].
    split; [intros i Hi; lia | left; lia].
Qed.

Lemma current_line_lookup (l : LinenoiseState) (i : nat) :
  (i < Z.to_nat (len l))%nat -> current_line l !! i = buf l !! i.
Proof. intros Hi. unfold current_line. apply lookup_take_lt. exact Hi. Qed.

Lemma kill_word_effect hc (l : LinenoiseState) (w : world) :
  good l -> renders hc l ->
  exists (p1 p2 : Z) l' w',
    0 <= p2 <= p1 /\ p1 <= pos l
    /\ (forall i c, p1 <= i < pos l ->
        current_line l !! Z.to_nat i = Some c -> c = 32)
    /\ (forall i c, p2 <= i < p1 ->
        current_line l !! Z.to_nat i = Some c -> c <> 32)
    /\ (p1 = 0 \/ exists c, current_line l !! Z.to_nat (p1 - 1) = Some c /\ c <> 32)
    /\ (p2 = 0 \/ current_line l !! Z.to_nat (p2 - 1) = Some 32)
    /\ LinenoiseEditDeletePrevWord hc l w = Done (l', w')
    /\ current_line l'
       = take (Z.to_nat p2) (current_line l)
         ++ drop (Z.to_nat (pos l)) (current_line l)
    /\ pos l' = p2 /\ len l' = len l - (pos l - p2).
Proof.
  intros Hg Hr. good_hyps Hg. pose proof (nul_lookup l Hg) as Hz.
  unfold LinenoiseEditDeletePrevWord.
  destruct (retreat_spec true (buf l) (S (Z.to_nat (pos l))) (pos l))
    as (p1 & -> & Hp1 & Hrun1 & Hstop1); try (unfold C.SIZE_MAX1; lia).
  cbn [obind].
  destruct (retreat_spec false (buf l) (S (Z.to_nat p1)) p1)
    as (p2 & -> & Hp2 & Hrun2 & Hstop2); try (unfold C.SIZE_MAX1; lia).
  cbn [obind]. fields. szg.
  unfold Mem.size in *.
  rewrite memmove_ok by (unfold Mem.size; lia). cbn [obind].
  set (b1 := take (Z.to_nat p2) (buf l)
             ++ take (Z.to_nat (len l - pos l + 1)) (drop (Z.to_nat (pos l)) (buf l))
             ++ drop (Z.to_nat (p2 + (len l - pos l + 1))) (buf l)).
  assert (Hb1 : length b1 = length (buf l)).
  { subst b1. rewrite !length_app, !length_take, !length_drop. lia. }
  match goal with
  | |- context [RefreshLine hc ?l1 w] =>
      destruct (draw_line hc l l1 w) as (l' & w' & Hdraw & Hline & Hpos' & Hlen');
        try assumption; fields; try reflexivity; try lia
  end.
  - unfold Mem.size. lia.
  - replace (len l - (pos l - p2))
      with (Z.of_nat (Z.to_nat (len l) - (Z.to_nat (pos l) - Z.to_nat p2))) by lia.
    apply load_of_lookup. subst b1. apply close_gap_nul; try lia. exact Hz.
  - exists p1, p2, l', w'.
    split; [lia |]. split; [lia |].
    split.
    { intros i c Hi Hc. rewrite current_line_lookup in Hc by lia.
      destruct (Hrun1 i Hi) as (c' & Hc' & Hsp). zbool. congruence. }
    split.
    { intros i c Hi Hc. rewrite current_line_lookup in Hc by lia.
      destruct (Hrun2 i Hi) as (c' & Hc' & Hsp). zbool. congruence. }
    split.
    { destruct (Z.eq_dec p1 0) as [-> | Hne]; [left; reflexivity |].
      destruct Hstop1 as [-> | (c & Hc & Hsp)]; [left; reflexivity | right].
      exists c. rewrite current_line_lookup by lia. cbn [negb] in Hsp. zbool.
      split; assumption. }
    split.
    { destruct (Z.eq_dec p2 0) as [-> | Hne]; [left; reflexivity |].
      destruct Hstop2 as [-> | (c & Hc & Hsp)]; [left; reflexivity | right].
      rewrite current_line_lookup by lia. cbn [negb] in Hsp. zbool.
      congruence. }
    split; [exact Hdraw |]. rewrite Hline, Hpos', Hlen'.
    unfold current_line. fields. split; [| split; reflexivity]. subst b1.
    replace (Z.to_nat (len l - (pos l - p2)))
      with (Z.to_nat (len l) - (Z.to_nat (pos l) - Z.to_nat p2))%nat by lia.
    apply close_gap_line; lia.
Qed.

Lemma move_effect hc (l : LinenoiseState) (p : Z) (w : world) :
  good l -> renders hc l -> 0 <= p <= len l ->
  exists l' w',
    RefreshLine hc (set_pos l p) w = Done (l', w')
    /\ current_line l' = current_line l /\ len l' = len l /\ pos l' = p.
Proof.
  intros Hg Hr Hp. good_hyps Hg.
  destruct (draw_line hc l (set_pos l p) w) as (l' & w' & Hrun & H1 & H2 & H3);
    try assumption; fields; try reflexivity; try lia.
  exists l', w'. repeat split; assumption.
Qed.

(** A session whose line is [s], with the cursor at [p]. *)
Lemma small_session_wide (s : list Z) (cap p columns : Z) :
  Z.of_nat (length s) <= cap < 2 ^ 31 -> 0 <= p <= Z.of_nat (length s) ->
  2 < columns < 2 ^ 31 ->
  good (set_pos (small_session s cap columns) p)
  /\ renders None (set_pos (small_session s cap columns) p)
  /\ current_line (set_pos (small_session s cap columns) p) = s.
Proof.
  intros Hs Hp Hc. unfold good, allocated, session_inv, renders, current_line.
  cbn [small_session set_pos buf buflen pos len cols mlmode prompt].
  unfold Mem.size.
  assert (Hlen : length (take (Z.to_nat (cap + 1))
                           (s ++ replicate (Z.to_nat (cap + 1)) 0))
                 = Z.to_nat (cap + 1)).
  { rewrite length_take, length_app, length_replicate. lia. }
  rewrite Hlen. repeat split; try lia.
  - apply load_lookup. rewrite Nat2Z.id. split; [lia |].
    rewrite lookup_take_lt by lia. rewrite lookup_app_r by lia.
    rewrite Nat.sub_diag. apply lookup_replicate_2. lia.
  - intros _. change (Z.of_nat (length example_prompt)) with 2. lia.
  - intros cb s0 h c b [=].
  - rewrite Nat2Z.id, take_take, Nat.min_l by lia. apply take_app_length.
Qed.

Lemma small_session_good (s : list Z) (cap p : Z) :
  Z.of_nat (length s) <= cap < 2 ^ 31 -> 0 <= p <= Z.of_nat (length s) ->
  good (set_pos (small_session s cap 80) p)
  /\ renders None (set_pos (small_session s cap 80) p)
  /\ current_line (set_pos (small_session s cap 80) p) = s.
Proof. intros Hs Hp. apply small_session_wide; (assumption || lia). Qed.

(** X2.  [LinenoiseEditInsert] on a line that is not full puts the byte at
    the cursor: the bytes before the cursor, the new byte, the bytes after
    it; cursor and length grow by one, and the call returns 0 when the
    terminal accepts what is written. *)
Theorem insert_puts_byte_at_cursor hc (l : LinenoiseState) (c : Z) (w : world) :
  good l -> renders hc l -> len l < buflen l ->
  exists r l' w',
    LinenoiseEditInsert hc l c w = Done (r, l', w')
    /\ current_line l'
       = take (Z.to_nat (pos l)) (current_line l)
         ++ c :: drop (Z.to_nat (pos l)) (current_line l)
    /\ pos l' = pos l + 1 /\ len l' = len l + 1
    /\ (writes_succeed w -> r = 0).
Proof. apply insert_effect. Qed.

Lemma insert_puts_byte_at_cursor_witness :
  exists r l' w',
    LinenoiseEditInsert None (set_pos (small_session (bytes_of_string "ac") 7 80) 1)
      98 (tty []) = Done (r, l', w')
    /\ current_line l' = bytes_of_string "abc" /\ pos l' = 2.
Proof.
  destruct (small_session_good (bytes_of_string "ac") 7 1) as (Hg & Hr & Hs);
    [vm_compute; split; discriminate || reflexivity
    | vm_compute; split; discriminate |].
  destruct (insert_puts_byte_at_cursor None
              (set_pos (small_session (bytes_of_string "ac") 7 80) 1) 98 (tty [])
              Hg Hr)
    as (r & l' & w' & Hrun & Hline & Hpos & _).
  - vm_compute. reflexivity.
  - exists r, l', w'. split; [exact Hrun |]. rewrite Hline, Hpos, Hs.
    split; reflexivity.
Defined.

(** X3.  [LinenoiseEditBackspace] removes the byte before the cursor and
    moves the cursor one to the left; with the cursor at the start of the
    line it changes nothing and writes nothing. *)
Theorem backspace_removes_byte_before_cursor hc (l : LinenoiseState) (w : world) :
  good l -> renders hc l ->
  exists l' w',
    LinenoiseEditBackspace hc l w = Done (l', w')
    /\ (0 < pos l ->
        current_line l'
        = take (Z.to_nat (pos l - 1)) (current_line l)
          ++ drop (Z.to_nat (pos l)) (current_line l)
        /\ pos l' = pos l - 1 /\ len l' = len l - 1)
    /\ (pos l = 0 -> l' = l /\ w' = w).
Proof.
  intros Hg Hr. good_hyps Hg. destruct (Z.eq_dec (pos l) 0) as [H0 | Hne].
  - exists l, w. unfold LinenoiseEditBackspace. rewrite H0.
    split; [reflexivity |]. split; [lia | tauto].
  - destruct (backspace_effect hc l w Hg Hr) as (l' & w' & Hrun & Heff); [lia |].
    exists l', w'. split; [exact Hrun |]. split; [intros _; exact Heff | lia].
Qed.

Lemma backspace_removes_byte_before_cursor_witness :
  exists l' w',
    LinenoiseEditBackspace None (set_pos (small_session (bytes_of_string "abc") 7 80) 2)
      (tty []) = Done (l', w')
    /\ current_line l' = bytes_of_string "ac" /\ pos l' = 1.
Proof.
  destruct (small_session_good (bytes_of_string "abc") 7 2) as (Hg & Hr & Hs);
    [vm_compute; split; discriminate || reflexivity
    | vm_compute; split; discriminate |].
  destruct (backspace_removes_byte_before_cursor None
              (set_pos (small_session (bytes_of_string "abc") 7 80) 2) (tty []) Hg Hr)
    as (l' & w' & Hrun & Heff & _).
  destruct Heff as (Hline & Hpos & _); [vm_compute; reflexivity |].
  exists l', w'. split; [exact Hrun |]. rewrite Hline, Hpos, Hs.
  split; reflexivity.
Defined.

(** X4.  [LinenoiseEditDelete] removes the byte under the cursor and
    leaves the cursor where it is; with the cursor at the end of the line
    it changes nothing and writes nothing. *)
Theorem delete_removes_byte_at_cursor hc (l : LinenoiseState) (w : world) :
  good l -> renders hc l ->
  exists l' w',
    LinenoiseEditDelete hc l w = Done (l', w')
    /\ (pos l < len l ->
        current_line l'
        = take (Z.to_nat (pos l)) (current_line l)
          ++ drop (Z.to_nat (pos l + 1)) (current_line l)
        /\ pos l' = pos l /\ len l' = len l - 1)
    /\ (pos l = len l -> l' = l /\ w' = w).
Proof.
  intros Hg Hr. good_hyps Hg. destruct (Z.eq_dec (pos l) (len l)) as [H0 | Hne].
  - exists l, w. unfold LinenoiseEditDelete. rewrite H0, Z.ltb_irrefl, andb_false_r.
    split; [reflexivity |]. split; [lia | tauto].
  - destruct (delete_effect hc l w Hg Hr) as (l' & w' & Hrun & Heff); [lia |].
    exists l', w'. split; [exact Hrun |]. split; [intros _; exact Heff | lia].
Qed.

Lemma delete_removes_byte_at_cursor_witness :
  exists l' w',
    LinenoiseEditDelete None (set_pos (small_session (bytes_of_string "abc") 7 80) 1)
      (tty []) = Done (l', w')
    /\ current_line l' = bytes_of_string "ac" /\ pos l' = 1.
Proof.
  destruct (small_session_good (bytes_of_string "abc") 7 1) as (Hg & Hr & Hs);
    [vm_compute; split; discriminate || reflexivity
    | vm_compute; split; discriminate |].
  destruct (delete_removes_byte_at_cursor None
              (set_pos (small_session (bytes_of_string "abc") 7 80) 1) (tty []) Hg Hr)
    as (l' & w' & Hrun & Heff & _).
  destruct Heff as (Hline & Hpos & _); [vm_compute; reflexivity |].
  exists l', w'. split; [exact Hrun |]. rewrite Hline, Hpos, Hs.
  split; reflexivity.
Defined.

(** X5.  [LinenoiseEditDeletePrevWord] removes the spaces before the
    cursor and the word before them: the cursor lands at [p2], where the
    bytes from [p2] to [p1] are no spaces, the bytes from [p1] to the old
    cursor are spaces, both runs are as long as they can be, and the line
    keeps what was before [p2] and what was after the old cursor. *)
Theorem kill_prev_word_removes_word hc (l : LinenoiseState) (w : world) :
  good l -> renders hc l ->
  exists (p1 p2 : Z) l' w',
    0 <= p2 <= p1 /\ p1 <= pos l
    /\ (forall i c, p1 <= i < pos l ->
        current_line l !! Z.to_nat i = Some c -> c = 32)
    /\ (forall i c, p2 <= i < p1 ->
        current_line l !! Z.to_nat i = Some c -> c <> 32)
    /\ (p1 = 0 \/ exists c, current_line l !! Z.to_nat (p1 - 1) = Some c /\ c <> 32)
    /\ (p2 = 0 \/ current_line l !! Z.to_nat (p2 - 1) = Some 32)
    /\ LinenoiseEditDeletePrevWord hc l w = Done (l', w')
    /\ current_line l'
       = take (Z.to_nat p2) (current_line l)
         ++ drop (Z.to_nat (pos l)) (current_line l)
    /\ pos l' = p2 /\ len l' = len l - (pos l - p2).
Proof. apply kill_word_effect. Qed.

Lemma kill_prev_word_removes_word_witness :
  exists l' w',
    LinenoiseEditDeletePrevWord None
      (set_pos (small_session (bytes_of_string "ab cd  ef") 15 80) 7) (tty [])
    = Done (l', w')
    /\ current_line l' = bytes_of_string "ab ef" /\ pos l' = 3.
Proof.
  destruct (small_session_good (bytes_of_string "ab cd  ef") 15 7) as (Hg & Hr & Hs);
    [vm_compute; split; discriminate || reflexivity
    | vm_compute; split; discriminate |].
  destruct (kill_prev_word_removes_word None
              (set_pos (small_session (bytes_of_string "ab cd  ef") 15 80) 7)
              (tty []) Hg Hr)
    as (p1 & p2 & l' & w' & _ & _ & _ & _ & _ & _ & Hrun & _).
  exists l', w'. split; [exact Hrun |].
  vm_compute in Hrun. injection Hrun as <- _. split; reflexivity.
Defined.

Lemma kill_line_effect hc (l : LinenoiseState) (w : world) :
  good l -> renders hc l ->
  exists l' w',
    dispatch hc Key.CTRL_U l w = Done (Continue, l', w')
    /\ current_line l' = [] /\ pos l' = 0 /\ len l' = 0.
Proof.
  intros Hg Hr. good_hyps Hg.
  change (dispatch hc Key.CTRL_U l w)
    with (do b <- Mem.store (buf l) 0 0;
          continue (RefreshLine hc (set_pos (set_len (set_buf l b) 0) 0) w)).
  rewrite store_ok by lia. cbn [obind].
  match goal with
  | |- context [RefreshLine hc ?l1 w] =>
      destruct (draw_line hc l l1 w) as (l' & w' & -> & Hline & Hpos' & Hlen');
        try assumption; fields; try reflexivity; try lia
  end.
  - unfold Mem.size. rewrite length_insert. reflexivity.
  - apply (load_of_lookup _ 0). apply list_lookup_insert_eq.
    unfold Mem.size in *. lia.
  - exists l', w'. split; [reflexivity |]. rewrite Hline, Hpos', Hlen'.
    repeat split.
Qed.

Lemma kill_to_end_effect hc (l : LinenoiseState) (w : world) :
  good l -> renders hc l ->
  exists l' w',
    dispatch hc Key.CTRL_K l w = Done (Continue, l', w')
    /\ current_line l' = take (Z.to_nat (pos l)) (current_line l)
    /\ pos l' = pos l /\ len l' = pos l.
Proof.
  intros Hg Hr. good_hyps Hg.
  change (dispatch hc Key.CTRL_K l w)
    with (do b <- Mem.store (buf l) (pos l) 0;
          continue (RefreshLine hc (set_len (set_buf l b) (pos l)) w)).
  rewrite store_ok by lia. cbn [obind].
  match goal with
  | |- context [RefreshLine hc ?l1 w] =>
      destruct (draw_line hc l l1 w) as (l' & w' & -> & Hline & Hpos' & Hlen');
        try assumption; fields; try reflexivity; try lia
  end.
  - unfold Mem.size. rewrite length_insert. reflexivity.
  - replace (pos l) with (Z.of_nat (Z.to_nat (pos l))) at 2 by lia.
    apply load_of_lookup. apply list_lookup_insert_eq.
    unfold Mem.size in *. lia.
  - exists l', w'. split; [reflexivity |]. rewrite Hline, Hpos', Hlen'.
    unfold current_line. fields. split; [| split; reflexivity].
    rewrite take_insert_ge by lia. rewrite take_take, Nat.min_l by lia.
    reflexivity.
Qed.

(** X6.  CTRL-U empties the line, and CTRL-K cuts it at the cursor; both
    leave the loop running. *)
Theorem kill_keys_cut_the_line hc (l : LinenoiseState) (w : world) :
  good l -> renders hc l ->
  (exists l' w',
     dispatch hc Key.CTRL_U l w = Done (Continue, l', w')
     /\ current_line l' = [] /\ pos l' = 0 /\ len l' = 0)
  /\ (exists l' w',
        dispatch hc Key.CTRL_K l w = Done (Continue, l', w')
        /\ current_line l' = take (Z.to_nat (pos l)) (current_line l)
        /\ pos l' = pos l /\ len l' = pos l).
Proof.
  intros Hg Hr. split; [apply kill_line_effect | apply kill_to_end_effect];
    assumption.
Qed.

Lemma kill_keys_cut_the_line_witness :
  exists l' w',
    dispatch None Key.CTRL_K (set_pos (small_session (bytes_of_string "abc") 7 80) 1)
      (tty []) = Done (Continue, l', w')
    /\ current_line l' = bytes_of_string "a".
Proof.
  destruct (small_session_good (bytes_of_string "abc") 7 1) as (Hg & Hr & Hs);
    [vm_compute; split; discriminate || reflexivity
    | vm_compute; split; discriminate |].
  destruct (kill_keys_cut_the_line None
              (set_pos (small_session (bytes_of_string "abc") 7 80) 1) (tty []) Hg Hr)
    as (_ & l' & w' & Hrun & Hline & _).
  exists l', w'. split; [exact Hrun |]. rewrite Hline, Hs. reflexivity.
Defined.

(** X7.  CTRL-T with the cursor inside the line exchanges the byte before
    the cursor and the byte under it, and moves the cursor one to the right
    unless it stands on the last byte.  With the cursor at the start or at
    the end of the line, CTRL-T does nothing. *)
Theorem transpose_swaps_around_cursor hc (l : LinenoiseState) (w : world) :
  good l -> renders hc l ->
  (0 < pos l < len l ->
   exists x y l' w',
     current_line l !! Z.to_nat (pos l - 1) = Some x
     /\ current_line l !! Z.to_nat (pos l) = Some y
     /\ dispatch hc Key.CTRL_T l w = Done (Continue, l', w')
     /\ current_line l'
        = <[Z.to_nat (pos l) := x]> (<[Z.to_nat (pos l - 1) := y]> (current_line l))
     /\ pos l' = (if pos l =? len l - 1 then pos l else pos l + 1)
     /\ len l' = len l)
  /\ (pos l = 0 \/ pos l = len l ->
      dispatch hc Key.CTRL_T l w = Done (Continue, l, w)).
Proof.
  intros Hg Hr. good_hyps Hg.
  change (dispatch hc Key.CTRL_T l w)
    with (if (pos l >? 0) && (pos l <? len l)
          then do aux <- Mem.load (buf l) (pos l - 1);
               do cur <- Mem.load (buf l) (pos l);
               do b <- Mem.store (buf l) (pos l - 1) cur;
               do b <- Mem.store b (pos l) aux;
               continue
                 (RefreshLine hc
                    (if negb (pos l =? C.size_t (len l - 1))
                     then set_pos (set_buf l b) (C.size_t (pos l + 1))
                     else set_buf l b) w)
          else Done (Continue, l, w)).
  split.
  - intros Hin.
    replace ((pos l >? 0) && (pos l <? len l)) with true
      by (symmetry; rewrite Z.gtb_ltb; holds; lia).
    unfold Mem.size in *.
    destruct (lookup_lt_is_Some_2 (buf l) (Z.to_nat (pos l - 1))) as [x Hx]; [lia |].
    destruct (lookup_lt_is_Some_2 (buf l) (Z.to_nat (pos l))) as [y Hy]; [lia |].
    rewrite (proj2 (load_lookup (buf l) (pos l - 1) x)) by (split; [lia | exact Hx]).
    cbn [obind].
    rewrite (proj2 (load_lookup (buf l) (pos l) y)) by (split; [lia | exact Hy]).
    cbn [obind].
    rewrite store_ok by (unfold Mem.size; lia). cbn [obind].
    rewrite store_ok by (unfold Mem.size; rewrite length_insert; lia).
    cbn [obind]. szg.
    exists x, y.
    assert (Hrun : exists l' w',
               RefreshLine hc
                 (if negb (pos l =? len l - 1)
                  then set_pos (set_buf l (<[Z.to_nat (pos l):=x]>
                                             (<[Z.to_nat (pos l - 1):=y]> (buf l))))
                         (pos l + 1)
                  else set_buf l (<[Z.to_nat (pos l):=x]>
                                    (<[Z.to_nat (pos l - 1):=y]> (buf l)))) w
               = Done (l', w')
               /\ current_line l'
                  = <[Z.to_nat (pos l) := x]>
                      (<[Z.to_nat (pos l - 1) := y]> (current_line l))
               /\ pos l' = (if pos l =? len l - 1 then pos l else pos l + 1)
               /\ len l' = len l).
    { assert (Hz : Mem.load (<[Z.to_nat (pos l):=x]>
                               (<[Z.to_nat (pos l - 1):=y]> (buf l))) (len l)
                   = Done 0).
      { apply load_lookup. split; [lia |].
        rewrite !list_lookup_insert_ne by lia. apply nul_lookup. exact Hg. }
      assert (Hline : take (Z.to_nat (len l))
                        (<[Z.to_nat (pos l):=x]>
                           (<[Z.to_nat (pos l - 1):=y]> (buf l)))
                      = <[Z.to_nat (pos l) := x]>
                          (<[Z.to_nat (pos l - 1) := y]> (current_line l))).
      { unfold current_line. rewrite !take_insert_lt by lia. reflexivity. }
      destruct (pos l =? len l - 1) eqn:E; zbool; cbn [negb];
        match goal with
        | |- context [RefreshLine hc ?l1 w] =>
            destruct (draw_line hc l l1 w) as (l' & w' & -> & H1 & H2 & H3);
              try assumption; fields; try reflexivity; try lia;
              try (unfold Mem.size; rewrite !length_insert; reflexivity)
        end;
        exists l', w'; (split; [reflexivity |]); rewrite H1, H2, H3;
        unfold current_line at 1; fields; repeat split; exact Hline. }
    destruct Hrun as (l' & w' & Hrun & H1 & H2 & H3).
    exists l', w'. rewrite !current_line_lookup by lia.
    split; [exact Hx |]. split; [exact Hy |].
    rewrite Hrun. cbn [continue obind]. repeat split; assumption.
  - intros [H0 | Hend].
    + rewrite H0. reflexivity.
    + rewrite Hend, Z.ltb_irrefl, andb_false_r. reflexivity.
Qed.

Lemma transpose_swaps_around_cursor_witness :
  exists l' w',
    dispatch None Key.CTRL_T (set_pos (small_session (bytes_of_string "abc") 7 80) 1)
      (tty []) = Done (Continue, l', w')
    /\ current_line l' = bytes_of_string "bac" /\ pos l' = 2.
Proof.
  destruct (small_session_good (bytes_of_string "abc") 7 1) as (Hg & Hr & Hs);
    [vm_compute; split; discriminate || reflexivity
    | vm_compute; split; discriminate |].
  destruct (transpose_swaps_around_cursor None
              (set_pos (small_session (bytes_of_string "abc") 7 80) 1) (tty []) Hg Hr)
    as (Hin & _).
  destruct Hin as (x & y & l' & w' & Hx & Hy & Hrun & Hline & Hpos & _);
    [vm_compute; split; reflexivity |].
  exists l', w'. split; [exact Hrun |].
  rewrite Hs in Hx, Hy, Hline. vm_compute in Hx, Hy.
  injection Hx as <-. injection Hy as <-. rewrite Hline, Hpos.
  split; reflexivity.
Defined.

(** X8.  The four cursor movements leave the line as it is and set the
    cursor: one to the left but not before the start, one to the right but
    not past the end, to the start, to the end.  A movement that has nowhere
    to go writes nothing to the terminal. *)
Theorem cursor_moves_keep_the_line hc (l : LinenoiseState) (w : world) :
  good l -> renders hc l ->
  (exists l' w',
     LinenoiseEditMoveLeft hc l w = Done (l', w')
     /\ current_line l' = current_line l /\ len l' = len l
     /\ pos l' = Z.max 0 (pos l - 1)
     /\ (pos l = 0 -> l' = l /\ w' = w))
  /\ (exists l' w',
        LinenoiseEditMoveRight hc l w = Done (l', w')
        /\ current_line l' = current_line l /\ len l' = len l
        /\ pos l' = Z.min (len l) (pos l + 1)
        /\ (pos l = len l -> l' = l /\ w' = w))
  /\ (exists l' w',
        LinenoiseEditMoveHome hc l w = Done (l', w')
        /\ current_line l' = current_line l /\ len l' = len l
        /\ pos l' = 0
        /\ (pos l = 0 -> l' = l /\ w' = w))
  /\ (exists l' w',
        LinenoiseEditMoveEnd hc l w = Done (l', w')
        /\ current_line l' = current_line l /\ len l' = len l
        /\ pos l' = len l
        /\ (pos l = len l -> l' = l /\ w' = w)).
Proof.
  intros Hg Hr. good_hyps Hg.
  unfold LinenoiseEditMoveLeft, LinenoiseEditMoveRight, LinenoiseEditMoveHome,
    LinenoiseEditMoveEnd.
  rewrite Z.gtb_ltb. repeat split.
  - destruct (0 <? pos l) eqn:E; zbool.
    + szg. destruct (move_effect hc l (pos l - 1) w Hg Hr) as (l' & w' & -> & H1 & H2 & H3);
        [lia |].
      exists l', w'. split; [reflexivity |]. repeat split; try assumption; lia.
    + exists l, w. split; [reflexivity |]. repeat split; lia.
  - destruct (pos l =? len l) eqn:E; zbool; cbn [negb].
    + exists l, w. split; [reflexivity |]. repeat split; lia.
    + szg. destruct (move_effect hc l (pos l + 1) w Hg Hr) as (l' & w' & -> & H1 & H2 & H3);
        [lia |].
      exists l', w'. split; [reflexivity |]. repeat split; try assumption; lia.
  - destruct (pos l =? 0) eqn:E; zbool; cbn [negb].
    + exists l, w. split; [reflexivity |]. repeat split; lia.
    + destruct (move_effect hc l 0 w Hg Hr) as (l' & w' & -> & H1 & H2 & H3);
        [lia |].
      exists l', w'. split; [reflexivity |]. repeat split; try assumption; lia.
  - destruct (pos l =? len l) eqn:E; zbool; cbn [negb].
    + exists l, w. split; [reflexivity |]. repeat split; lia.
    + destruct (move_effect hc l (len l) w Hg Hr) as (l' & w' & -> & H1 & H2 & H3);
        [lia |].
      exists l', w'. split; [reflexivity |]. repeat split; try assumption; lia.
Qed.

Lemma cursor_moves_keep_the_line_witness :
  exists l' w',
    LinenoiseEditMoveHome None (small_session (bytes_of_string "abc") 7 80) (tty [])
    = Done (l', w')
    /\ current_line l' = bytes_of_string "abc" /\ pos l' = 0.
Proof.
  destruct (small_session_good (bytes_of_string "abc") 7 3) as (Hg & Hr & Hs);
    [vm_compute; split; discriminate || reflexivity
    | vm_compute; split; discriminate |].
  destruct (cursor_moves_keep_the_line None
              (set_pos (small_session (bytes_of_string "abc") 7 80) 3) (tty []) Hg Hr)
    as (_ & _ & (l' & w' & Hrun & Hline & _ & Hpos & _) & _).
  exists l', w'. split; [exact Hrun |]. rewrite Hline, Hpos, Hs.
  split; reflexivity.
Defined.

(** ** What the refresh writes *)



(** X10.  On a terminal of zero columns the refresh does not return: the
    first loop of the single-line refresh never ends, and the multi-line
    refresh divides by zero. *)
Theorem refresh_needs_columns hc (l : LinenoiseState) (w : world) :
  cols l = 0 ->
  RefreshLine hc l w = if mlmode l then Undefined else Diverges.
Proof.
  intros H0. unfold RefreshLine. destruct (mlmode l).
  - unfold RefreshMultiLine, udiv. rewrite H0. reflexivity.
  - unfold RefreshSingleLine.
    destruct (refresh_window_diverges l) as [Hd _]; [lia |].
    rewrite (Hd H0). reflexivity.
Qed.

Lemma refresh_needs_columns_witness :
  RefreshLine None (small_session [] 7 0) (tty []) = Diverges.
Proof.
  apply (refresh_needs_columns None (small_session [] 7 0) (tty [])).
  reflexivity.
Defined.

(** X11.  In single-line mode without hints, one refresh writes: a
    carriage return, the prompt, the part of the line inside the window of
    [scroll_window], "erase to the right", and the cursor placement
    [CR ESC [ n C] with [n] the prompt length plus the cursor's offset in the
    window. *)
Theorem single_line_refresh_output (l : LinenoiseState) (w : world) :
  good l -> renders None l -> mlmode l = false ->
  RefreshLine None l w
  = Done (l, snd (Sys.write w
       ([13] ++ prompt l
        ++ take (Z.to_nat (win_len (scroll_window l)))
             (drop (Z.to_nat (win_off (scroll_window l))) (current_line l))
        ++ csi "0K"
        ++ [13] ++ csi ""
        ++ dec (win_pos (scroll_window l) + Z.of_nat (length (prompt l)))
        ++ bytes_of_string "C"))).
Proof.
  intros Hg (Hcols & Hplen & _) Hml. good_hyps Hg. specialize (Hplen Hml).
  unfold RefreshLine. rewrite Hml. unfold RefreshSingleLine.
  rewrite refresh_window_closed by (unfold C.SIZE_MAX1; lia).
  cbn [obind]. unfold scroll_window. cbn [win_off win_len win_pos].
  set (plen := Z.of_nat (length (prompt l))) in *.
  set (k := Z.max 0 (plen + pos l - cols l + 1)).
  unfold offset.
  replace ((0 <=? k) && (k <=? Mem.size (buf l))) with true
    by (symmetry; holds; lia).
  cbn [obind]. unfold abAppend.
  rewrite int_small by lia.
  replace ((0 <=? Z.min (len l - k) (cols l - plen))
           && (Z.min (len l - k) (cols l - plen)
               <=? Mem.size (drop (Z.to_nat k) (buf l)))) with true
    by (symmetry; holds; unfold Mem.size in *; rewrite ?length_drop; lia).
  cbn [obind RefreshShowHints]. unfold abAppendStr.
  rewrite size_t_small by (unfold C.SIZE_MAX1; lia).
  rewrite int_small by lia.
  do 3 f_equal. rewrite <- !app_assoc. cbn [app]. do 2 f_equal.
  f_equal. unfold current_line.
  rewrite !take_drop_commute. rewrite take_take.
  rewrite Nat.min_l by (subst k; lia). reflexivity.
Qed.

Lemma single_line_refresh_output_witness :
  RefreshLine None (small_session (bytes_of_string "hello, world") 15 10) (tty [])
  = Done (small_session (bytes_of_string "hello, world") 15 10,
          snd (Sys.write (tty [])
                 ([13] ++ bytes_of_string "> , world" ++ csi "0K"
                  ++ [13] ++ csi "9C"))).
Proof.
  destruct (small_session_wide (bytes_of_string "hello, world") 15 12 10)
    as (Hg & Hr & Hs);
    [vm_compute; split; discriminate || reflexivity
    | vm_compute; split; discriminate
    | vm_compute; split; reflexivity |].
  rewrite (single_line_refresh_output
             (small_session (bytes_of_string "hello, world") 15 10) (tty []) Hg Hr
             eq_refl).
  vm_compute. reflexivity.
Defined.

(** ** What the editing loop never changes *)

Lemma kept_refl (l : LinenoiseState) (w : world) : kept l w l w.
Proof. repeat split. auto. Qed.

Lemma kept_trans l w l1 w1 l2 w2 :
  kept l w l1 w1 -> kept l1 w1 l2 w2 -> kept l w l2 w2.
Proof.
  intros (H1 & H2 & H3) (H4 & H5 & H6). repeat split; try congruence. auto.
Qed.

Lemma write_kept (w : world) (b : list Z) (r : Z) (w' : world) :
  Sys.write w b = (r, w') ->
  terminal w' = terminal w /\ (writes_succeed w -> writes_succeed w').
Proof.
  unfold Sys.write, writes_succeed.
  destruct (w_wr w) as [| [] wr]; intros [= _ <-]; cbn [w_wr with_out];
    (split; [reflexivity |]); intros H; try constructor;
    apply Forall_cons_1 in H as [_ H]; exact H.
Qed.

Lemma write_snd_kept (l : LinenoiseState) (w : world) (b : list Z) :
  kept l w l (snd (Sys.write w b)).
Proof.
  destruct (Sys.write w b) as [r w'] eqn:E. apply write_kept in E as [H1 H2].
  repeat split; assumption.
Qed.

Lemma read_kept (l : LinenoiseState) (w : world) (r : rd_result) (w' : world) :
  Sys.read w = (r, w') -> kept l w l w'.
Proof.
  unfold Sys.read. destruct (w_in w) as [| [b |] rest]; intros [= _ <-];
    repeat split; auto.
Qed.

Lemma beep_kept (l : LinenoiseState) (w : world) : kept l w l (LinenoiseBeep w).
Proof. repeat split. auto. Qed.

Lemma RefreshLine_kept hc l w l' w' :
  RefreshLine hc l w = Done (l', w') -> kept l w l' w'.
Proof.
  intros H. pose proof (RefreshLine_memo _ _ _ _ _ H) as Hmemo.
  assert (Hw : exists ab, w' = snd (Sys.write w ab)).
  { unfold RefreshLine, RefreshMultiLine, RefreshSingleLine in H.
    destruct (mlmode l); bind_all H; injection H as _ <-; eauto. }
  destruct Hw as [ab ->]. destruct (write_snd_kept l w ab) as (_ & H2 & H3).
  split; [rewrite Hmemo; reflexivity | split; assumption].
Qed.

(** An explicit session with the same setup, then a refresh. *)
Lemma drawn_kept hc (l l1 : LinenoiseState) (w : world) l' w' :
  setup l1 = setup l -> RefreshLine hc l1 w = Done (l', w') -> kept l w l' w'.
Proof.
  intros Hs H. apply RefreshLine_kept in H as (H1 & H2 & H3).
  split; [congruence | split; assumption].
Qed.

Lemma kept_same_setup (l l1 : LinenoiseState) (w : world) :
  setup l1 = setup l -> kept l w l1 w.
Proof. intros H. repeat split; auto. Qed.

Ltac kept_close :=
  first
    [ match goal with
      | H : RefreshLine _ _ _ = Done (_, _) |- _ =>
          eapply drawn_kept; [| exact H]; reflexivity
      end
    | match goal with
      | H : Done _ = Done _ |- _ =>
          injection H as <- <-; apply kept_same_setup; reflexivity
      end
    | match goal with
      | H : Done _ = Done _ |- _ =>
          injection H as _ <- <-; apply kept_same_setup; reflexivity
      end ].

Lemma LinenoiseEditInsert_kept hc l c w r l' w' :
  LinenoiseEditInsert hc l c w = Done (r, l', w') -> kept l w l' w'.
Proof.
  unfold LinenoiseEditInsert. intros H. chase H; try kept_close.
  - injection H as _ <- <-. apply write_kept in Ew as [H1 H2].
    repeat split; assumption.
  - injection H as _ <- <-. apply write_kept in Ew as [H1 H2].
    repeat split; assumption.
  - injection H as _ <- <-. eapply drawn_kept; [| eassumption]. reflexivity.
  - injection H as _ <- <-. eapply drawn_kept; [| eassumption]. reflexivity.
Qed.

Lemma LinenoiseEditMoveLeft_kept hc l w l' w' :
  LinenoiseEditMoveLeft hc l w = Done (l', w') -> kept l w l' w'.
Proof. unfold LinenoiseEditMoveLeft. intros H. chase H; kept_close. Qed.

Lemma LinenoiseEditMoveRight_kept hc l w l' w' :
  LinenoiseEditMoveRight hc l w = Done (l', w') -> kept l w l' w'.
Proof. unfold LinenoiseEditMoveRight. intros H. chase H; kept_close. Qed.

Lemma LinenoiseEditMoveHome_kept hc l w l' w' :
  LinenoiseEditMoveHome hc l w = Done (l', w') -> kept l w l' w'.
Proof. unfold LinenoiseEditMoveHome. intros H. chase H; kept_close. Qed.

Lemma LinenoiseEditMoveEnd_kept hc l w l' w' :
  LinenoiseEditMoveEnd hc l w = Done (l', w') -> kept l w l' w'.
Proof. unfold LinenoiseEditMoveEnd. intros H. chase H; kept_close. Qed.

Lemma LinenoiseEditDelete_kept hc l w l' w' :
  LinenoiseEditDelete hc l w = Done (l', w') -> kept l w l' w'.
Proof. unfold LinenoiseEditDelete. intros H. chase H; kept_close. Qed.

Lemma LinenoiseEditBackspace_kept hc l w l' w' :
  LinenoiseEditBackspace hc l w = Done (l', w') -> kept l w l' w'.
Proof. unfold LinenoiseEditBackspace. intros H. chase H; kept_close. Qed.

Lemma LinenoiseEditDeletePrevWord_kept hc l w l' w' :
  LinenoiseEditDeletePrevWord hc l w = Done (l', w') -> kept l w l' w'.
Proof. unfold LinenoiseEditDeletePrevWord. intros H. chase H; kept_close. Qed.

Lemma LinenoiseEditHistoryNext_kept hc l dir w l' w' :
  LinenoiseEditHistoryNext hc l dir w = Done (l', w') -> kept l w l' w'.
Proof. unfold LinenoiseEditHistoryNext. intros H. chase H; kept_close. Qed.

Ltac op_kept :=
  first
    [ match goal with H : _ = Done _ |- _ => discriminate H end
    | match goal with
      | H : Done (_, _) = Done (_, _) |- _ =>
          injection H as <- <-; first [apply kept_refl | apply kept_same_setup; reflexivity]
      end
    | match goal with
      | H : _ = Done (_, _) |- _ =>
          first [ apply LinenoiseEditDelete_kept in H
                | apply LinenoiseEditBackspace_kept in H
                | apply LinenoiseEditHistoryNext_kept in H
                | apply LinenoiseEditMoveLeft_kept in H
                | apply LinenoiseEditMoveRight_kept in H
                | apply LinenoiseEditMoveHome_kept in H
                | apply LinenoiseEditMoveEnd_kept in H
                | apply LinenoiseEditDeletePrevWord_kept in H
                | apply RefreshLine_kept in H ];
          exact H
      end ].

Lemma dispatch_escape_kept hc ls w ls' w' :
  dispatch_escape hc ls w = Done (ls', w') -> kept ls w ls' w'.
Proof.
  intros H. unfold dispatch_escape in H.
  destruct (Sys.read w) as [r0 w0] eqn:E0. apply (read_kept ls) in E0.
  eapply kept_trans; [exact E0 |]. clear E0.
  destruct r0 as [s0 | |]; try op_kept;
    destruct (Sys.read w0) as [r1 w1] eqn:E1; apply (read_kept ls) in E1;
    (eapply kept_trans; [exact E1 |]); clear E1;
    destruct r1 as [s1 | |]; try op_kept.
  - destruct (s0 =? 91).
    + destruct ((48 <=? s1) && (s1 <=? 57)).
      * destruct (Sys.read w1) as [r2 w2] eqn:E2. apply (read_kept ls) in E2.
        eapply kept_trans; [exact E2 |]. clear E2.
        destruct r2 as [s2 | |]; try op_kept.
        destruct (s2 =? 126); [| op_kept]. destruct (s1 =? 51); op_kept.
      * repeat match type of H with
               | (if ?b then _ else _) = _ => destruct b
               end; op_kept.
    + destruct (s0 =? 79); [| op_kept].
      repeat match type of H with
             | (if ?b then _ else _) = _ => destruct b
             end; op_kept.
  - destruct (s0 =? 91); [op_kept |]. destruct (s0 =? 79); op_kept.
Qed.

Lemma dispatch_kept hc c ls w k ls' w' :
  dispatch hc c ls w = Done (k, ls', w') -> kept ls w ls' w'.
Proof.
  intros H. unfold dispatch in H.
  destruct (c =? Key.ENTER).
  { bind_inv H. destruct a as [ls2 w2]. bind_inv H. destruct a as [ls3 w3].
    injection H as _ <- <-.
    assert (H2 : kept ls w ls2 w2).
    { match type of E with
      | (if mlmode ?l1 then _ else _) = _ =>
          assert (Hs : setup l1 = setup ls)
            by (destruct (history_len ls >? 0); reflexivity);
          destruct (mlmode l1)
      end.
      - apply LinenoiseEditMoveEnd_kept in E as (H1 & H2 & H3).
        split; [congruence | split; assumption].
      - injection E as <- <-. apply kept_same_setup. exact Hs. }
    eapply kept_trans; [exact H2 |].
    destruct hc; [apply RefreshLine_kept in E0; exact E0 |].
    injection E0 as <- <-. apply kept_refl. }
  destruct (c =? Key.CTRL_C); [injection H as _ <- <-; repeat split; auto |].
  destruct ((c =? Key.BACKSPACE) || (c =? 8)); [apply continue_inv in H; op_kept |].
  destruct (c =? Key.CTRL_D).
  { destruct (len ls >? 0); [apply continue_inv in H; op_kept |].
    bind_inv H. injection H as _ <- <-. apply kept_same_setup. reflexivity. }
  destruct (c =? Key.CTRL_T).
  { destruct ((pos ls >? 0) && (pos ls <? len ls));
      [| injection H as _ <- <-; apply kept_refl].
    do 4 bind_inv H. apply continue_inv in H.
    eapply drawn_kept; [| exact H].
    destruct (negb _); reflexivity. }
  destruct (c =? Key.CTRL_B); [apply continue_inv in H; op_kept |].
  destruct (c =? Key.CTRL_F); [apply continue_inv in H; op_kept |].
  destruct (c =? Key.CTRL_P); [apply continue_inv in H; op_kept |].
  destruct (c =? Key.CTRL_N); [apply continue_inv in H; op_kept |].
  destruct (c =? Key.ESC);
    [apply continue_inv in H; eapply dispatch_escape_kept; eassumption |].
  destruct (c =? Key.CTRL_U).
  { bind_inv H. apply continue_inv in H. eapply drawn_kept; [| exact H].
    reflexivity. }
  destruct (c =? Key.CTRL_K).
  { bind_inv H. apply continue_inv in H. eapply drawn_kept; [| exact H].
    reflexivity. }
  destruct (c =? Key.CTRL_A); [apply continue_inv in H; op_kept |].
  destruct (c =? Key.CTRL_E); [apply continue_inv in H; op_kept |].
  destruct (c =? Key.CTRL_L).
  { apply continue_inv in H. apply RefreshLine_kept in H.
    eapply kept_trans; [| exact H]. unfold LinenoiseClearScreen.
    apply write_snd_kept. }
  destruct (c =? Key.CTRL_W); [apply continue_inv in H; op_kept |].
  bind_inv H. destruct a as [[r l1] w1]. apply LinenoiseEditInsert_kept in E.
  destruct (negb (r =? 0)); injection H as _ <- <-; exact E.
Qed.

Lemma complete_loop_kept (fuel : nat) hc (lc : list (list Z)) :
  forall (i : Z) (ls : LinenoiseState) (w : world) r ls' w',
    complete_loop fuel hc lc i ls w = Done (r, ls', w') -> kept ls w ls' w'.
Proof.
  induction fuel as [| fuel IH]; intros i ls w r ls' w' H; [discriminate H |].
  cbn [complete_loop] in H. bind_inv H. destruct a as [ls1 w1].
  assert (H1 : kept ls w ls1 w1).
  { destruct (i <? Z.of_nat (length lc)).
    - bind_inv E. bind_inv E. destruct a0 as [shown w2]. injection E as <- <-.
      apply RefreshLine_kept in E1 as (Hs & Ht & Hw).
      split; [| split; assumption].
      unfold setup in *. cbn [ifd ofd efd buflen prompt plen cols mlmode rawmode
        nonblock orig_termios history_max_len set_buf set_pos set_len] in *.
      exact Hs.
    - apply RefreshLine_kept in E. exact E. }
  clear E. eapply kept_trans; [exact H1 |]. clear H1.
  destruct (Sys.read w1) as [rd w2] eqn:Er. apply (read_kept ls1) in Er.
  eapply kept_trans; [exact Er |]. clear Er.
  destruct rd as [c | |]; try (injection H as _ <- <-; apply kept_refl).
  destruct (c =? 9).
  { apply IH in H. eapply kept_trans; [| exact H].
    match goal with
    | |- context [if ?b then LinenoiseBeep _ else _] => destruct b
    end; [apply beep_kept | apply kept_refl]. }
  destruct (c =? 27).
  { bind_inv H. destruct a as [ls2 w3]. injection H as _ <- <-.
    destruct (i <? Z.of_nat (length lc));
      [apply RefreshLine_kept in E; exact E | injection E as <- <-; apply kept_refl]. }
  bind_inv H. injection H as _ <- <-.
  destruct (i <? Z.of_nat (length lc)); [| injection E as <-; apply kept_refl].
  bind_inv E. bind_inv E. destruct a1 as [nwritten b]. injection E as <-.
  apply kept_same_setup. reflexivity.
Qed.

Lemma CompleteLine_kept cb hc ls w r ls' w' :
  CompleteLine cb hc ls w = Done (r, ls', w') -> kept ls w ls' w'.
Proof.
  unfold CompleteLine. intros H. bind_inv H.
  destruct (Z.of_nat (length (cb a)) =? 0).
  - injection H as _ <- <-. apply beep_kept.
  - eapply complete_loop_kept. exact H.
Qed.

Lemma edit_turn_kept cc hc ls w k ls' w' :
  edit_turn cc hc ls w = Done (k, ls', w') -> kept ls w ls' w'.
Proof.
  unfold edit_turn. intros H.
  destruct (Sys.read w) as [rd w1] eqn:Er. apply (read_kept ls) in Er.
  eapply kept_trans; [exact Er |]. clear Er.
  destruct rd as [c | |]; try (injection H as _ <- <-; apply kept_refl).
  destruct cc as [cb |]; [| eapply dispatch_kept; exact H].
  destruct (c =? 9); [| eapply dispatch_kept; exact H].
  bind_inv H. destruct a as [[r ls1] w2]. apply CompleteLine_kept in E.
  eapply kept_trans; [exact E |].
  destruct (C.char_negative (C.char r)); [injection H as _ <- <-; apply kept_refl |].
  destruct (C.char r =? 0); [injection H as _ <- <-; apply kept_refl |].
  eapply dispatch_kept. exact H.
Qed.

Lemma after_turns_kept cc hc ls w ls' w' :
  after_turns cc hc ls w ls' w' -> kept ls w ls' w'.
Proof.
  induction 1 as [ls w k ls' w' Hturn | ls w ls1 w1 ls' w' Hturn _ IH].
  - eapply edit_turn_kept. exact Hturn.
  - eapply kept_trans; [eapply edit_turn_kept; exact Hturn | exact IH].
Qed.

(** X12.  Whatever is typed, the editing loop changes neither the setup
    of the session (descriptors, capacity, prompt, width, modes, saved
    terminal attributes, bound of the history) nor the terminal (its
    attributes, [TERM], [stdin]); and when no coming write fails before the
    turns, none fails after them. *)
Theorem editing_keeps_setup_and_terminal cc hc (ls : LinenoiseState) (w : world)
    (ls' : LinenoiseState) (w' : world) :
  after_turns cc hc ls w ls' w' ->
  setup ls' = setup ls /\ terminal w' = terminal w
  /\ (writes_succeed w -> writes_succeed w').
Proof. apply after_turns_kept. Qed.

Lemma editing_keeps_setup_and_terminal_witness :
  exists ls' w',
    after_turns (Some example_completion) (Some example_hints) example_session
      (tty (bytes_of_string "h" ++ [Key.TAB; Key.CTRL_A; Key.CTRL_K]
            ++ bytes_of_string "a b" ++ [Key.CTRL_W; Key.CTRL_T; Key.ENTER]))
      ls' w'
    /\ setup ls' = setup example_session.
Proof.
  destruct (edit_loop 12 (Some example_completion) (Some example_hints) example_session
              (tty (bytes_of_string "h" ++ [Key.TAB; Key.CTRL_A; Key.CTRL_K]
                    ++ bytes_of_string "a b" ++ [Key.CTRL_W; Key.CTRL_T; Key.ENTER])))
    as [[[n ls'] w'] | |] eqn:E; [| vm_compute in E; discriminate E ..].
  apply edit_loop_turns in E. exists ls', w'. split; [exact E |].
  apply (editing_keeps_setup_and_terminal _ _ _ _ _ _ E).
Defined.

(** ** Reading a line from a terminal *)

Lemma dispatch_plain hc (c : Z) (ls : LinenoiseState) (w : world) :
  plain c ->
  dispatch hc c ls w
  = (do '(r, ls, w) <- LinenoiseEditInsert hc ls c w;
     if negb (r =? 0) then Done (Return (-1), ls, w) else Done (Continue, ls, w)).
Proof.
  intros Hc. unfold plain in Hc. unfold dispatch.
  unfold Key.ENTER, Key.CTRL_C, Key.BACKSPACE, Key.CTRL_D, Key.CTRL_T, Key.CTRL_B,
    Key.CTRL_F, Key.CTRL_P, Key.CTRL_N, Key.ESC, Key.CTRL_U, Key.CTRL_K, Key.CTRL_A,
    Key.CTRL_E, Key.CTRL_L, Key.CTRL_W.
  repeat match goal with
         | |- context [c =? ?k] =>
             replace (c =? k) with false by (symmetry; apply Z.eqb_neq; lia)
         end.
  reflexivity.
Qed.

Lemma LinenoiseEditInsert_history hc l c w r l' w' :
  LinenoiseEditInsert hc l c w = Done (r, l', w') ->
  history l' = history l /\ history_index l' = history_index l.
Proof.
  unfold LinenoiseEditInsert. intros H. chase H; injection H as _ <- _;
    repeat match goal with
           | H : RefreshLine _ _ _ = Done (_, _) |- _ =>
               apply RefreshLine_memo in H; rewrite H
           end; split; reflexivity.
Qed.

Lemma read_byte (w : world) (c : Z) (rest : list rd_event) :
  w_in w = RdByte c :: rest -> Sys.read w = (RdGot c, with_in w rest).
Proof. intros H. unfold Sys.read. rewrite H. reflexivity. Qed.

(** A byte of text typed at the end of a line that is not full. *)
Lemma type_plain cc hc (l : LinenoiseState) (w : world) (c : Z)
    (rest : list rd_event) :
  good l -> renders hc l -> pos l = len l -> len l < buflen l ->
  writes_succeed w -> plain c -> w_in w = RdByte c :: rest ->
  exists l' w',
    edit_turn cc hc l w = Done (Continue, l', w')
    /\ good l' /\ kept l w l' w'
    /\ current_line l' = current_line l ++ [c]
    /\ pos l' = len l' /\ len l' = len l + 1
    /\ w_in w' = rest /\ history l' = history l.
Proof.
  intros Hg Hr Hend Hroom Hok Hc Hin.
  assert (Hturn : edit_turn cc hc l w = dispatch hc c l (with_in w rest)).
  { unfold edit_turn. rewrite (read_byte _ _ _ Hin).
    destruct cc as [cb |]; [| reflexivity].
    replace (c =? 9) with false
      by (symmetry; apply Z.eqb_neq; unfold plain in Hc; lia).
    reflexivity. }
  rewrite Hturn, dispatch_plain by exact Hc.
  destruct (insert_effect hc l c (with_in w rest) Hg Hr Hroom)
    as (r & l' & w' & Hrun & Hline & Hpos & Hlen & Hret).
  assert (Hok' : writes_succeed (with_in w rest)) by exact Hok.
  specialize (Hret Hok'). subst r.
  pose proof (LinenoiseEditInsert_good _ _ _ _ _ _ _ Hg Hrun) as [Hg' _].
  pose proof (LinenoiseEditInsert_kept _ _ _ _ _ _ _ Hrun) as Hk.
  pose proof (LinenoiseEditInsert_in _ _ _ _ _ _ _ Hrun) as Hin'.
  pose proof (LinenoiseEditInsert_history _ _ _ _ _ _ _ Hrun) as [Hh _].
  rewrite Hrun. cbn [obind]. exists l', w'. split; [reflexivity |].
  split; [exact Hg' |]. split.
  { destruct Hk as (H1 & H2 & H3). repeat split; assumption. }
  split.
  { rewrite Hline, Hend. rewrite <- (current_line_length l Hg).
    rewrite take_ge, drop_ge by lia. reflexivity. }
  repeat split; try assumption; lia.
Qed.

Lemma edit_loop_continue cc hc (fuel : nat) (l : LinenoiseState) (w : world) l' w' :
  edit_turn cc hc l w = Done (Continue, l', w') ->
  (length (w_in w) < fuel)%nat ->
  edit_loop fuel cc hc l w = edit_loop fuel cc hc l' w'.
Proof.
  intros Hturn Hfuel. pose proof (edit_turn_in _ _ _ _ _ _ _ Hturn eq_refl) as Hin.
  destruct fuel as [| fuel]; [lia |].
  transitivity (edit_loop fuel cc hc l' w').
  - change (edit_loop (S fuel) cc hc l w)
      with (do '(k, ls, w) <- edit_turn cc hc l w;
            match k with
            | Continue => edit_loop fuel cc hc ls w
            | Return count => Done (count, ls, w)
            end).
    rewrite Hturn. reflexivity.
  - apply edit_loop_fuel; lia.
Qed.

Lemma edit_loop_return cc hc (fuel : nat) (l : LinenoiseState) (w : world)
    (n : Z) l' w' :
  edit_turn cc hc l w = Done (Return n, l', w') ->
  edit_loop (S fuel) cc hc l w = Done (n, l', w').
Proof. intros Hturn. cbn [edit_loop]. rewrite Hturn. reflexivity. Qed.

Lemma type_text cc hc (rest : list rd_event) (s : list Z) :
  forall (l : LinenoiseState) (w : world) (fuel : nat),
    good l -> renders hc l -> pos l = len l ->
    len l + Z.of_nat (length s) <= buflen l ->
    writes_succeed w -> Forall plain s ->
    w_in w = map RdByte s ++ rest -> (length (w_in w) < fuel)%nat ->
    exists l1 w1,
      edit_loop fuel cc hc l w = edit_loop fuel cc hc l1 w1
      /\ good l1 /\ kept l w l1 w1
      /\ current_line l1 = current_line l ++ s
      /\ pos l1 = len l1 /\ len l1 = len l + Z.of_nat (length s)
      /\ w_in w1 = rest /\ history l1 = history l.
Proof.
  induction s as [| c s IH]; intros l w fuel Hg Hr Hend Hroom Hok Hs Hin Hfuel.
  - exists l, w. rewrite app_nil_r. cbn [length]. rewrite Z.add_0_r.
    split; [reflexivity |]. split; [exact Hg |]. split; [apply kept_refl |].
    repeat split; try assumption; reflexivity.
  - apply Forall_cons_1 in Hs as [Hc Hs]. cbn [map app] in Hin.
    cbn [length] in Hroom.
    destruct (type_plain cc hc l w c (map RdByte s ++ rest))
      as (l' & w' & Hturn & Hg' & Hk & Hline & Hend' & Hlen & Hin' & Hh);
      try assumption; try lia.
    pose proof Hk as (Hsetup & _ & Hok').
    assert (Hr' : renders hc l') by (eapply renders_setup; eassumption).
    assert (Hfuel' : (length (w_in w') < fuel)%nat).
    { rewrite Hin'. rewrite Hin in Hfuel. cbn [length] in Hfuel. lia. }
    assert (Hroom' : len l' + Z.of_nat (length s) <= buflen l').
    { unfold setup in Hsetup. injection Hsetup as _ _ _ Hb _ _ _ _ _ _ _ _. lia. }
    destruct (IH l' w' fuel Hg' Hr' Hend' Hroom' (Hok' Hok) Hs Hin' Hfuel')
      as (l1 & w1 & Hloop & Hg1 & Hk1 & Hline1 & Hend1 & Hlen1 & Hin1 & Hh1).
    exists l1, w1. split.
    { rewrite <- Hloop. apply edit_loop_continue; assumption. }
    split; [exact Hg1 |]. split; [eapply kept_trans; eassumption |].
    split; [rewrite Hline1, Hline, <- app_assoc; reflexivity |].
    split; [exact Hend1 |]. split; [cbn [length]; lia |].
    split; [exact Hin1 | congruence].
Qed.

Lemma renders_none hc (l : LinenoiseState) : renders hc l -> renders None l.
Proof.
  intros (H1 & H2 & _). split; [exact H1 |]. split; [exact H2 |].
  intros cb s h c b [=].
Qed.

Lemma good_history (l : LinenoiseState) (h : list (list Z)) :
  good l -> good (set_history l h).
Proof. intros Hg. exact Hg. Qed.

Lemma cursor_moves_end hc (l : LinenoiseState) (w : world) :
  good l -> renders hc l ->
  exists l' w',
    LinenoiseEditMoveEnd hc l w = Done (l', w') /\ good l' /\ setup l' = setup l.
Proof.
  intros Hg Hr. good_hyps Hg. unfold LinenoiseEditMoveEnd.
  destruct (negb (pos l =? len l)).
  - destruct (RefreshLine_write hc (set_pos l (len l)) w) as (l' & ab & Hrun & Hmemo).
    + destruct (good_make l (set_pos l (len l))) as [Hg1 _]; fields;
        try reflexivity; try lia; try assumption. exact (proj1 Hg).
    + eapply renders_setup; [| exact Hr]. reflexivity.
    + exists l', (snd (Sys.write w ab)). split; [exact Hrun |].
      split; [| rewrite Hmemo; reflexivity].
      eapply moved_good; [exact Hg | | exact Hrun]. lia.
  - exists l, w. split; [reflexivity | split; [exact Hg | reflexivity]].
Qed.

(** ENTER in the editing loop. *)
Lemma enter_turn cc hc (l : LinenoiseState) (w : world) (rest : list rd_event) :
  good l -> renders hc l -> w_in w = RdByte Key.ENTER :: rest ->
  exists l' w',
    edit_turn cc hc l w = Done (Return (len l), l', w')
    /\ current_line l' = current_line l /\ buf l' = buf l /\ len l' = len l
    /\ pos l' = (if mlmode l then len l else pos l)
    /\ kept l w l' w' /\ w_in w' = rest
    /\ history l' = removelast (history l).
Proof.
  intros Hg Hr Hin. good_hyps Hg.
  assert (Hturn : edit_turn cc hc l w = dispatch hc Key.ENTER l (with_in w rest)).
  { unfold edit_turn. rewrite (read_byte _ _ _ Hin).
    destruct cc as [cb |]; reflexivity. }
  rewrite Hturn. clear Hturn.
  destruct (dispatch hc Key.ENTER l (with_in w rest)) as [[[k l'] w'] | |] eqn:E.
  - assert (Hk : kept l w l' w').
    { eapply kept_trans; [| eapply dispatch_kept; exact E].
      repeat split; auto. }
    unfold dispatch in E.
    change (Key.ENTER =? Key.ENTER) with true in E. cbv iota zeta in E.
    bind_inv E. destruct a as [l2 w2]. bind_inv E. destruct a as [l3 w3].
    injection E as <- <- <-.
    set (l1 := if history_len l >? 0
               then set_history l (removelast (history l)) else l) in *.
    assert (H1 : buf l1 = buf l /\ len l1 = len l /\ pos l1 = pos l
                 /\ mlmode l1 = mlmode l /\ history l1 = removelast (history l)).
    { subst l1. destruct (history_len l >? 0) eqn:Eh; [repeat split |].
      repeat split. unfold history_len in Eh. zbool.
      destruct (history l) as [| e h]; [reflexivity | cbn [length] in Eh; lia]. }
    destruct H1 as (Hb1 & Hl1 & Hp1 & Hm1 & Hh1). clearbody l1.
    assert (H2 : buf l2 = buf l /\ len l2 = len l
                 /\ pos l2 = (if mlmode l then len l else pos l)
                 /\ history l2 = removelast (history l) /\ w_in w2 = rest).
    { rewrite Hm1 in E0. destruct (mlmode l).
      - unfold LinenoiseEditMoveEnd in E0.
        destruct (negb (pos l1 =? len l1)) eqn:En; zbool.
        + pose proof (RefreshLine_in _ _ _ _ _ E0) as Hw.
          apply RefreshLine_memo in E0. rewrite E0. cbn.
          repeat split; try assumption.
        + injection E0 as <- <-. repeat split; try assumption. lia.
      - injection E0 as <- <-. repeat split; assumption. }
    destruct H2 as (Hb2 & Hl2 & Hp2 & Hh2 & Hw2).
    assert (H3 : buf l3 = buf l /\ len l3 = len l
                 /\ pos l3 = (if mlmode l then len l else pos l)
                 /\ history l3 = removelast (history l) /\ w_in w3 = rest).
    { destruct hc.
      - pose proof (RefreshLine_in _ _ _ _ _ E1) as Hw.
        apply RefreshLine_memo in E1. rewrite E1. cbn.
        repeat split; try assumption. congruence.
      - injection E1 as <- <-. repeat split; assumption. }
    destruct H3 as (Hb3 & Hl3 & Hp3 & Hh3 & Hw3).
    exists l3, w3. rewrite Hl3, int_small by lia.
    split; [reflexivity |]. unfold current_line. rewrite Hb3, Hl3.
    repeat split; try assumption; apply Hk.
  - exfalso. unfold dispatch in E.
    change (Key.ENTER =? Key.ENTER) with true in E. cbv iota zeta in E.
    set (l1 := if history_len l >? 0
               then set_history l (removelast (history l)) else l) in *.
    assert (Hg1 : good l1 /\ setup l1 = setup l)
      by (subst l1; destruct (history_len l >? 0); split; (exact Hg || reflexivity)).
    destruct Hg1 as [Hg1 Hs1]. clearbody l1.
    assert (Hr1 : renders hc l1) by (eapply renders_setup; eassumption).
    destruct (cursor_moves_end hc l1 (with_in w rest) Hg1 Hr1) as (l2 & w2 & Hrun & Hg2 & Hs2).
    assert (Hstep : exists l2 w2,
               (if mlmode l1 then LinenoiseEditMoveEnd hc l1 (with_in w rest)
                else Done (l1, with_in w rest)) = Done (l2, w2)
               /\ good l2 /\ setup l2 = setup l1).
    { destruct (mlmode l1); eauto. }
    clear l2 w2 Hrun Hg2 Hs2. destruct Hstep as (l2 & w2 & Hrun & Hg2 & Hs2).
    rewrite Hrun in E. cbn [obind] in E.
    assert (Hr2 : renders None l2)
      by (eapply renders_none, renders_setup; eassumption).
    destruct hc; [| discriminate E].
    destruct (RefreshLine_write None l2 w2 Hg2 Hr2) as (l3 & ab & Hrun3 & _).
    rewrite Hrun3 in E. discriminate E.
  - exfalso. unfold dispatch in E.
    change (Key.ENTER =? Key.ENTER) with true in E. cbv iota zeta in E.
    set (l1 := if history_len l >? 0
               then set_history l (removelast (history l)) else l) in *.
    assert (Hg1 : good l1 /\ setup l1 = setup l)
      by (subst l1; destruct (history_len l >? 0); split; (exact Hg || reflexivity)).
    destruct Hg1 as [Hg1 Hs1]. clearbody l1.
    assert (Hr1 : renders hc l1) by (eapply renders_setup; eassumption).
    destruct (cursor_moves_end hc l1 (with_in w rest) Hg1 Hr1) as (l2 & w2 & Hrun & Hg2 & Hs2).
    assert (Hstep : exists l2 w2,
               (if mlmode l1 then LinenoiseEditMoveEnd hc l1 (with_in w rest)
                else Done (l1, with_in w rest)) = Done (l2, w2)
               /\ good l2 /\ setup l2 = setup l1).
    { destruct (mlmode l1); eauto. }
    clear l2 w2 Hrun Hg2 Hs2. destruct Hstep as (l2 & w2 & Hrun & Hg2 & Hs2).
    rewrite Hrun in E. cbn [obind] in E.
    assert (Hr2 : renders None l2)
      by (eapply renders_none, renders_setup; eassumption).
    destruct hc; [| discriminate E].
    destruct (RefreshLine_write None l2 w2 Hg2 Hr2) as (l3 & ab & Hrun3 & _).
    rewrite Hrun3 in E. discriminate E.
Qed.

Lemma EnableRawMode_ok (ls : LinenoiseState) (w : world) :
  w_isatty w = true -> w_tcget_ok w = true -> w_tcset_ok w = true ->
  exists t,
    EnableRawMode ls w
    = (0, set_rawmode (set_orig_termios ls (w_attr w)) false, with_attr w t).
Proof.
  intros Htty Hget Hset. unfold EnableRawMode, Sys.tcgetattr, Sys.tcsetattr.
  rewrite Htty, Hget, Hset. cbn [negb]. eexists. reflexivity.
Qed.

(** [Linenoise] on a terminal, up to the editing loop: the terminal is put
    in raw mode, the prompt is written, and the loop starts on the session
    with a NUL at the start of its buffer. *)
Lemma Linenoise_enters_loop cc hc (ls : LinenoiseState) (w : world) :
  allocated ls -> 0 < buflen ls -> len ls = 0 -> pos ls = 0 ->
  plen ls = Z.of_nat (length (prompt ls)) ->
  w_isatty w = true -> IsUnsupportedTerm w = false ->
  w_tcget_ok w = true -> w_tcset_ok w = true -> writes_succeed w ->
  exists ls0 w0,
    Linenoise cc hc ls w
    = (do '(count, ls1, w1) <- edit_loop (S (length (w_in w))) cc hc ls0 w0;
       let '(ls1, w1) := DisableRawMode ls1 w1 in
       let w1 := snd (Sys.write w1 [10]) in
       if count =? -1 then Done (None, ls1, w1)
       else do s <- Mem.cstr (buf ls1); Done (Some s, ls1, snd (Sys.write w1 [13])))
    /\ good ls0 /\ current_line ls0 = [] /\ pos ls0 = 0 /\ len ls0 = 0
    /\ history ls0 = history ls /\ rawmode ls0 = false
    /\ (forall h, renders h ls -> renders h ls0)
    /\ buflen ls0 = buflen ls
    /\ w_in w0 = w_in w /\ writes_succeed w0
    /\ w_out w0 = w_out w ++ prompt ls /\ w_errno w0 = w_errno w.
Proof.
  intros Ha Hbuf Hlen Hpos Hplen Htty Hterm Hget Hset Hok.
  destruct Ha as [Hsize Hcap].
  destruct (EnableRawMode_ok (set_buf ls (<[0%nat := 0]> (buf ls))) w Htty Hget Hset)
    as [t Hraw].
  unfold Linenoise. rewrite store_ok by lia. cbn [obind].
  rewrite Htty, Hterm. cbn [negb]. unfold LinenoiseRaw.
  replace (buflen (set_buf ls (<[Z.to_nat 0:=0]> (buf ls))) =? 0) with false
    by (symmetry; apply Z.eqb_neq; cbn [buflen set_buf]; lia).
  change (Z.to_nat 0) with 0%nat. rewrite Hraw.
  change (0 =? -1) with false. cbv iota.
  unfold LinenoiseEdit. unfold abAppend.
  cbn [prompt plen set_rawmode set_orig_termios set_buf]. rewrite Hplen.
  replace ((0 <=? Z.of_nat (length (prompt ls)))
           && (Z.of_nat (length (prompt ls)) <=? Mem.size (prompt ls ++ [0])))
    with true
    by (symmetry; holds; unfold Mem.size; rewrite ?length_app; cbn [length]; lia).
  cbn [obind]. rewrite Nat2Z.id, take_app_length. cbn [app].
  rewrite write_ok by exact Hok.
  replace (Z.of_nat (length (prompt ls)) =? -1) with false
    by (symmetry; apply Z.eqb_neq; lia).
  cbv iota. cbn [w_in with_out with_attr].
  match goal with
  | |- context [edit_loop _ cc hc ?l0 ?w0] => exists l0, w0
  end.
  split.
  { match goal with
    | |- context [edit_loop ?f cc hc ?l0 ?w0] =>
        destruct (edit_loop f cc hc l0 w0) as [[[count l1] w1] | |]
    end; cbn [obind]; try reflexivity.
    destruct (DisableRawMode l1 w1) as [l2 w2]. cbn [obind].
    destruct (count =? -1); reflexivity. }
  split.
  { unfold good, allocated, session_inv.
    cbn [buf buflen pos len set_rawmode set_orig_termios set_buf].
    rewrite Hlen, Hpos. unfold Mem.size in *. rewrite length_insert.
    repeat split; try lia.
    apply (load_of_lookup _ 0). apply list_lookup_insert_eq. lia. }
  unfold current_line.
  cbn [buf len pos history rawmode buflen set_rawmode set_orig_termios set_buf
       w_in w_out w_wr with_out with_attr].
  rewrite Hlen.
  split; [reflexivity |]. split; [exact Hpos |]. split; [reflexivity |].
  split; [reflexivity |]. split; [reflexivity |].
  split; [intros h Hr; exact Hr |]. split; [reflexivity |].
  split; [reflexivity |]. split; [| split; reflexivity].
  unfold writes_succeed in *. cbn [w_wr with_out with_attr].
  destruct (w_wr w) as [| ok wr]; [constructor |].
  apply Forall_cons_1 in Hok as [_ Hok]. exact Hok.
Qed.

Lemma until_nul_app (s r : list Z) :
  Forall (fun b => b <> 0) s -> Mem.until_nul (s ++ 0 :: r) = Some s.
Proof.
  induction 1 as [| b s Hb _ IH]; [reflexivity |]. cbn [app Mem.until_nul].
  destruct (b =? 0) eqn:E; zbool; [contradiction |]. rewrite IH. reflexivity.
Qed.

Lemma cstr_line (l : LinenoiseState) :
  good l -> Forall (fun b => b <> 0) (current_line l) ->
  Mem.cstr (buf l) = Done (current_line l).
Proof.
  intros Hg Hs. pose proof (nul_lookup l Hg) as Hz.
  unfold Mem.cstr. rewrite <- (take_drop_middle _ _ _ Hz).
  fold (current_line l). rewrite until_nul_app by exact Hs. reflexivity.
Qed.

Lemma plain_not_nul (s : list Z) : Forall plain s -> Forall (fun b => b <> 0) s.
Proof.
  intros H. eapply Forall_impl; [exact H |]. unfold plain. intros b Hb. lia.
Qed.

(** [Linenoise] on a terminal after the text [s] was typed: the loop goes
    on from a session that holds [s], with the cursor at its end. *)
Lemma Linenoise_typed cc hc (ls : LinenoiseState) (w : world) (s : list Z)
    (rest : list rd_event) :
  allocated ls -> 0 < buflen ls -> len ls = 0 -> pos ls = 0 ->
  plen ls = Z.of_nat (length (prompt ls)) -> renders hc ls ->
  w_isatty w = true -> IsUnsupportedTerm w = false ->
  w_tcget_ok w = true -> w_tcset_ok w = true -> writes_succeed w ->
  Forall plain s -> Z.of_nat (length s) <= buflen ls ->
  w_in w = map RdByte s ++ rest ->
  exists l1 w1,
    Linenoise cc hc ls w
    = (do '(count, ls1, w1) <- edit_loop (S (length (w_in w))) cc hc l1 w1;
       let '(ls1, w1) := DisableRawMode ls1 w1 in
       let w1 := snd (Sys.write w1 [10]) in
       if count =? -1 then Done (None, ls1, w1)
       else do s <- Mem.cstr (buf ls1); Done (Some s, ls1, snd (Sys.write w1 [13])))
    /\ good l1 /\ renders hc l1 /\ current_line l1 = s
    /\ pos l1 = len l1 /\ len l1 = Z.of_nat (length s)
    /\ history l1 = history ls /\ rawmode l1 = false
    /\ w_in w1 = rest /\ (length (w_in w1) <= length (w_in w))%nat.
Proof.
  intros Ha Hbuf Hlen Hpos Hplen Hr Htty Hterm Hget Hset Hok Hs Hfit Hin.
  destruct (Linenoise_enters_loop cc hc ls w)
    as (ls0 & w0 & Hrun & Hg0 & Hline0 & Hpos0 & Hlen0 & Hh0 & Hraw0 & Hr0 & Hb0
        & Hin0 & Hok0 & _); try assumption.
  destruct (type_text cc hc rest s ls0 w0 (S (length (w_in w))) Hg0 (Hr0 _ Hr))
    as (l1 & w1 & Hloop & Hg1 & Hk1 & Hline1 & Hend1 & Hlen1 & Hin1 & Hh1);
    [congruence | lia | exact Hok0 | exact Hs | congruence | rewrite Hin0; lia |].
  exists l1, w1. rewrite Hrun, Hloop. split; [reflexivity |].
  destruct Hk1 as (Hsetup & _ & _).
  split; [exact Hg1 |].
  split; [eapply renders_setup; [exact Hsetup | apply Hr0; exact Hr] |].
  split; [rewrite Hline1, Hline0; reflexivity |].
  split; [exact Hend1 |]. split; [lia |]. split; [congruence |].
  split.
  { unfold setup in Hsetup. injection Hsetup as _ _ _ _ _ _ _ _ Hraw _ _ _.
    congruence. }
  split; [exact Hin1 |].
  rewrite Hin1, Hin, length_app. lia.
Qed.

(** [Linenoise] on a terminal where text and ENTER are typed. *)
Lemma Linenoise_returns_typed cc hc (ls : LinenoiseState) (w : world)
    (s : list Z) (rest : list rd_event) :
  allocated ls -> 0 < buflen ls -> len ls = 0 -> pos ls = 0 ->
  plen ls = Z.of_nat (length (prompt ls)) -> renders hc ls ->
  w_isatty w = true -> IsUnsupportedTerm w = false ->
  w_tcget_ok w = true -> w_tcset_ok w = true -> writes_succeed w ->
  Forall plain s -> Z.of_nat (length s) <= buflen ls ->
  w_in w = map RdByte (s ++ [Key.ENTER]) ++ rest ->
  exists ls' w',
    Linenoise cc hc ls w = Done (Some s, ls', w')
    /\ current_line ls' = s /\ w_in w' = rest
    /\ history ls' = removelast (history ls).
Proof.
  intros Ha Hbuf Hlen Hpos Hplen Hr Htty Hterm Hget Hset Hok Hs Hfit Hin.
  rewrite map_app, <- app_assoc in Hin. cbn [map app] in Hin.
  destruct (Linenoise_typed cc hc ls w s (RdByte Key.ENTER :: rest))
    as (l1 & w1 & Hrun & Hg1 & Hr1 & Hline1 & Hend1 & Hlen1 & Hh1 & Hraw1 & Hin1 & _);
    try assumption.
  destruct (enter_turn cc hc l1 w1 rest Hg1 Hr1 Hin1)
    as (l' & w' & Hturn & Hline' & Hb' & Hlen' & Hpos' & Hk' & Hin' & Hh').
  rewrite Hrun, (edit_loop_return _ _ _ _ _ _ _ _ Hturn). cbn [obind].
  destruct Hk' as (Hsetup & _ & _).
  assert (Hraw' : rawmode l' = false).
  { unfold setup in Hsetup. injection Hsetup as _ _ _ _ _ _ _ _ Hraw _ _ _.
    congruence. }
  unfold DisableRawMode. rewrite Hraw'.
  replace (len l1 =? -1) with false by (symmetry; apply Z.eqb_neq; lia).
  assert (Hg' : good l').
  { destruct Hg1 as [[Hsz Hcap] (H1 & H2 & H3 & H4)].
    unfold setup in Hsetup. injection Hsetup as _ _ _ Hbl _ _ _ _ _ _ _ _.
    split; [split | repeat split]; rewrite ?Hb', ?Hlen', ?Hbl, ?Hpos';
      try assumption; destruct (mlmode l1); lia. }
  rewrite (cstr_line l' Hg')
    by (rewrite Hline', Hline1; apply plain_not_nul; exact Hs).
  cbn [obind]. eexists _, _. split; [rewrite Hline', Hline1; reflexivity |].
  split; [congruence |]. split; [| congruence].
  rewrite !write_snd_in. exact Hin'.
Qed.

(** X13.  On a terminal in a supported [TERM], where [tcgetattr],
    [tcsetattr] and every [write] succeed, a session with an empty line reads
    text: when the user types the bytes [s] (printable or above 127, at most
    [buflen] of them) and ENTER, [Linenoise] returns [s]; the session holds
    [s], the rest of the input is left unread, and the newest history entry
    was dropped. *)
Theorem typed_line_is_returned cc hc (ls : LinenoiseState) (w : world)
    (s : list Z) (rest : list rd_event) :
  allocated ls -> 0 < buflen ls -> len ls = 0 -> pos ls = 0 ->
  plen ls = Z.of_nat (length (prompt ls)) -> renders hc ls ->
  w_isatty w = true -> IsUnsupportedTerm w = false ->
  w_tcget_ok w = true -> w_tcset_ok w = true -> writes_succeed w ->
  Forall plain s -> Z.of_nat (length s) <= buflen ls ->
  w_in w = map RdByte (s ++ [Key.ENTER]) ++ rest ->
  exists ls' w',
    Linenoise cc hc ls w = Done (Some s, ls', w')
    /\ current_line ls' = s /\ w_in w' = rest
    /\ history ls' = removelast (history ls).
Proof. apply Linenoise_returns_typed. Qed.

Lemma example_session_ready :
  allocated example_session /\ 0 < buflen example_session
  /\ len example_session = 0 /\ pos example_session = 0
  /\ plen example_session = Z.of_nat (length (prompt example_session))
  /\ renders (Some example_hints) example_session
  /\ history example_session = [[]].
Proof.
  split; [split; vm_compute; [reflexivity | split; discriminate || reflexivity] |].
  split; [reflexivity |]. split; [reflexivity |]. split; [reflexivity |].
  split; [reflexivity |]. split; [| reflexivity].
  split; [vm_compute; split; discriminate || reflexivity |].
  split; [intros _; vm_compute; reflexivity |].
  intros cb s h c b [= <-]. unfold example_hints.
  destruct (bool_decide _); intros [= <- _ _]. vm_compute. reflexivity.
Qed.

Lemma tty_ready (keys : list Z) :
  w_isatty (tty keys) = true /\ IsUnsupportedTerm (tty keys) = false
  /\ w_tcget_ok (tty keys) = true /\ w_tcset_ok (tty keys) = true
  /\ writes_succeed (tty keys).
Proof. repeat split. constructor. Qed.

Lemma plain_hi : Forall plain (bytes_of_string "hi").
Proof.
  change (bytes_of_string "hi") with [104; 105].
  repeat (constructor; [unfold plain; lia |]). constructor.
Qed.

Lemma typed_line_is_returned_witness :
  exists ls' w',
    Linenoise (Some example_completion) (Some example_hints) example_session
      (tty (bytes_of_string "hi" ++ [Key.ENTER]))
    = Done (Some (bytes_of_string "hi"), ls', w')
    /\ history ls' = [].
Proof.
  destruct example_session_ready as (Ha & Hb & Hl & Hp & Hpl & Hr & Hh).
  destruct (tty_ready (bytes_of_string "hi" ++ [Key.ENTER]))
    as (Htty & Hterm & Hget & Hset & Hok).
  destruct (typed_line_is_returned (Some example_completion) (Some example_hints)
              example_session (tty (bytes_of_string "hi" ++ [Key.ENTER]))
              (bytes_of_string "hi") [] Ha Hb Hl Hp Hpl Hr Htty Hterm Hget Hset Hok)
    as (ls' & w' & Hrun & _ & _ & Hh').
  - exact plain_hi.
  - vm_compute. discriminate.
  - reflexivity.
  - exists ls', w'. split; [exact Hrun |]. rewrite Hh', Hh. reflexivity.
Defined.

(** X14.  At the end of the input, or when [read] fails, [Linenoise]
    returns the text typed so far (the empty string when nothing was typed,
    not [NULL]) and leaves the history as it is. *)
Theorem end_of_input_returns_the_line cc hc (ls : LinenoiseState) (w : world)
    (s : list Z) (rest : list rd_event) :
  allocated ls -> 0 < buflen ls -> len ls = 0 -> pos ls = 0 ->
  plen ls = Z.of_nat (length (prompt ls)) -> renders hc ls ->
  w_isatty w = true -> IsUnsupportedTerm w = false ->
  w_tcget_ok w = true -> w_tcset_ok w = true -> writes_succeed w ->
  Forall plain s -> Z.of_nat (length s) <= buflen ls ->
  w_in w = map RdByte s ++ rest -> rest = [] \/ head rest = Some RdError ->
  exists ls' w',
    Linenoise cc hc ls w = Done (Some s, ls', w')
    /\ current_line ls' = s /\ history ls' = history ls.
Proof.
  intros Ha Hbuf Hlen Hpos Hplen Hr Htty Hterm Hget Hset Hok Hs Hfit Hin Hrest.
  destruct (Linenoise_typed cc hc ls w s rest)
    as (l1 & w1 & Hrun & Hg1 & Hr1 & Hline1 & Hend1 & Hlen1 & Hh1 & Hraw1 & Hin1 & _);
    try assumption.
  assert (Hturn : exists w', edit_turn cc hc l1 w1 = Done (Return (len l1), l1, w')).
  { unfold edit_turn, Sys.read. rewrite Hin1. good_hyps Hg1.
    rewrite int_small by lia.
    destruct Hrest as [-> | Hhd]; [eauto |].
    destruct rest as [| [b |] rest']; try discriminate Hhd. eauto. }
  destruct Hturn as [w' Hturn].
  rewrite Hrun, (edit_loop_return _ _ _ _ _ _ _ _ Hturn). cbn [obind].
  unfold DisableRawMode. rewrite Hraw1.
  replace (len l1 =? -1) with false by (symmetry; apply Z.eqb_neq; lia).
  rewrite (cstr_line l1 Hg1) by (rewrite Hline1; apply plain_not_nul; exact Hs).
  cbn [obind]. rewrite Hline1. eexists _, _. split; [reflexivity |].
  split; [exact Hline1 | exact Hh1].
Qed.

Lemma end_of_input_returns_the_line_witness :
  exists ls' w',
    Linenoise (Some example_completion) (Some example_hints) example_session (tty [])
    = Done (Some [], ls', w')
    /\ history ls' = [[]].
Proof.
  destruct example_session_ready as (Ha & Hb & Hl & Hp & Hpl & Hr & Hh).
  destruct (tty_ready []) as (Htty & Hterm & Hget & Hset & Hok).
  destruct (end_of_input_returns_the_line (Some example_completion)
              (Some example_hints) example_session (tty []) [] []
              Ha Hb Hl Hp Hpl Hr Htty Hterm Hget Hset Hok)
    as (ls' & w' & Hrun & _ & Hh').
  - constructor.
  - vm_compute. discriminate.
  - reflexivity.
  - left. reflexivity.
  - exists ls', w'. split; [exact Hrun |]. rewrite Hh', Hh. reflexivity.
Defined.

(** X15.  CTRL-C makes [Linenoise] return [NULL] with [errno] set to
    [EAGAIN]; the text typed before it stays in the buffer of the session,
    and the history is left as it is. *)
Theorem interrupt_returns_null_with_eagain cc hc (ls : LinenoiseState) (w : world)
    (s : list Z) (rest : list rd_event) :
  allocated ls -> 0 < buflen ls -> len ls = 0 -> pos ls = 0 ->
  plen ls = Z.of_nat (length (prompt ls)) -> renders hc ls ->
  w_isatty w = true -> IsUnsupportedTerm w = false ->
  w_tcget_ok w = true -> w_tcset_ok w = true -> writes_succeed w ->
  Forall plain s -> Z.of_nat (length s) <= buflen ls ->
  w_in w = map RdByte (s ++ [Key.CTRL_C]) ++ rest ->
  exists ls' w',
    Linenoise cc hc ls w = Done (None, ls', w')
    /\ w_errno w' = C.EAGAIN
    /\ current_line ls' = s /\ w_in w' = rest /\ history ls' = history ls.
Proof.
  intros Ha Hbuf Hlen Hpos Hplen Hr Htty Hterm Hget Hset Hok Hs Hfit Hin.
  rewrite map_app, <- app_assoc in Hin. cbn [map app] in Hin.
  destruct (Linenoise_typed cc hc ls w s (RdByte Key.CTRL_C :: rest))
    as (l1 & w1 & Hrun & Hg1 & Hr1 & Hline1 & Hend1 & Hlen1 & Hh1 & Hraw1 & Hin1 & _);
    try assumption.
  assert (Hturn : edit_turn cc hc l1 w1
                  = Done (Return (-1), l1, with_errno (with_in w1 rest) C.EAGAIN)).
  { unfold edit_turn. rewrite (read_byte _ _ _ Hin1).
    destruct cc as [cb |]; reflexivity. }
  rewrite Hrun, (edit_loop_return _ _ _ _ _ _ _ _ Hturn). cbn [obind].
  unfold DisableRawMode. rewrite Hraw1.
  change (-1 =? -1) with true. cbv iota.
  eexists _, _. split; [reflexivity |].
  split; [unfold Sys.write; destruct (w_wr _) as [| [] ?]; reflexivity |].
  split; [exact Hline1 |]. split; [| exact Hh1].
  rewrite write_snd_in. reflexivity.
Qed.

Lemma interrupt_returns_null_with_eagain_witness :
  exists ls' w',
    Linenoise (Some example_completion) (Some example_hints) example_session
      (tty (bytes_of_string "hi" ++ [Key.CTRL_C]))
    = Done (None, ls', w')
    /\ w_errno w' = C.EAGAIN.
Proof.
  destruct example_session_ready as (Ha & Hb & Hl & Hp & Hpl & Hr & Hh).
  destruct (tty_ready (bytes_of_string "hi" ++ [Key.CTRL_C]))
    as (Htty & Hterm & Hget & Hset & Hok).
  destruct (interrupt_returns_null_with_eagain (Some example_completion)
              (Some example_hints) example_session
              (tty (bytes_of_string "hi" ++ [Key.CTRL_C]))
              (bytes_of_string "hi") [] Ha Hb Hl Hp Hpl Hr Htty Hterm Hget Hset Hok)
    as (ls' & w' & Hrun & Herr & _).
  - exact plain_hi.
  - vm_compute. discriminate.
  - reflexivity.
  - exists ls', w'. split; [exact Hrun | exact Herr].
Defined.

Lemma hist_load_last (h : list (list Z)) :
  h <> [] -> exists e, hist_load h (Z.of_nat (length h) - 1) = Done e.
Proof.
  intros Hne. unfold hist_load.
  assert (0 < length h)%nat by (destruct h; [contradiction | cbn; lia]).
  replace ((0 <=? Z.of_nat (length h) - 1)
           && (Z.of_nat (length h) - 1 <? Z.of_nat (length h))) with true
    by (symmetry; holds; lia).
  destruct (lookup_lt_is_Some_2 h (Z.to_nat (Z.of_nat (length h) - 1))) as [e ->];
    [lia | eauto].
Qed.

(** X16.  CTRL-D on an empty line is the end of the input: [Linenoise]
    returns [NULL], leaves [errno] as it was, and drops the newest history
    entry.  When the history holds no entry, the entry it frees lies before
    the array. *)
Theorem ctrl_d_on_empty_line_ends_input cc hc (ls : LinenoiseState) (w : world)
    (rest : list rd_event) :
  allocated ls -> 0 < buflen ls -> len ls = 0 -> pos ls = 0 ->
  plen ls = Z.of_nat (length (prompt ls)) ->
  w_isatty w = true -> IsUnsupportedTerm w = false ->
  w_tcget_ok w = true -> w_tcset_ok w = true -> writes_succeed w ->
  w_in w = RdByte Key.CTRL_D :: rest ->
  (history ls <> [] ->
   exists ls' w',
     Linenoise cc hc ls w = Done (None, ls', w')
     /\ w_errno w' = w_errno w /\ w_in w' = rest
     /\ history ls' = removelast (history ls))
  /\ (history ls = [] -> Linenoise cc hc ls w = Undefined).
Proof.
  intros Ha Hbuf Hlen Hpos Hplen Htty Hterm Hget Hset Hok Hin.
  destruct (Linenoise_enters_loop cc hc ls w)
    as (ls0 & w0 & Hrun & Hg0 & Hline0 & Hpos0 & Hlen0 & Hh0 & Hraw0 & Hr0 & Hb0
        & Hin0 & Hok0 & _ & Herr0); try assumption.
  assert (Hturn : edit_turn cc hc ls0 w0
                  = (do _ <- hist_load (history ls0) (history_len ls0 - 1);
                     Done (Return (-1), set_history ls0 (removelast (history ls0)),
                           with_in w0 rest))).
  { unfold edit_turn. rewrite (read_byte w0 Key.CTRL_D rest) by congruence.
    assert (Hd : forall h, dispatch h Key.CTRL_D ls0 (with_in w0 rest)
                 = (do _ <- hist_load (history ls0) (history_len ls0 - 1);
                    Done (Return (-1), set_history ls0 (removelast (history ls0)),
                          with_in w0 rest))).
    { intros h.
      change (dispatch h Key.CTRL_D ls0 (with_in w0 rest))
        with (if len ls0 >? 0
              then continue (LinenoiseEditDelete h ls0 (with_in w0 rest))
              else do _ <- hist_load (history ls0) (history_len ls0 - 1);
                   Done (Return (-1), set_history ls0 (removelast (history ls0)),
                         with_in w0 rest)).
      rewrite Hlen0. reflexivity. }
    destruct cc as [cb |]; apply Hd. }
  rewrite Hrun. cbn [edit_loop]. rewrite Hturn, Hh0. unfold history_len.
  rewrite Hh0. split.
  - intros Hne. destruct (hist_load_last (history ls) Hne) as [e ->].
    cbn [obind]. unfold DisableRawMode.
    cbn [rawmode set_history]. rewrite Hraw0.
    change (-1 =? -1) with true. cbv iota.
    eexists _, _. split; [reflexivity |].
    split; [| split; [rewrite write_snd_in; reflexivity | reflexivity]].
    rewrite <- Herr0. unfold Sys.write. cbn [w_wr with_in].
    destruct (w_wr w0) as [| [] ?]; reflexivity.
  - intros ->. reflexivity.
Qed.

Lemma ctrl_d_on_empty_line_ends_input_witness :
  exists ls' w',
    Linenoise (Some example_completion) (Some example_hints) example_session
      (tty [Key.CTRL_D])
    = Done (None, ls', w')
    /\ w_errno w' = 0 /\ history ls' = [].
Proof.
  destruct example_session_ready as (Ha & Hb & Hl & Hp & Hpl & Hr & Hh).
  destruct (tty_ready [Key.CTRL_D]) as (Htty & Hterm & Hget & Hset & Hok).
  destruct (ctrl_d_on_empty_line_ends_input (Some example_completion)
              (Some example_hints) example_session (tty [Key.CTRL_D]) []
              Ha Hb Hl Hp Hpl Htty Hterm Hget Hset Hok eq_refl)
    as (Hrun & _).
  destruct Hrun as (ls' & w' & Hrun & Herr & _ & Hh').
  - rewrite Hh. discriminate.
  - exists ls', w'. split; [exact Hrun |]. split; [exact Herr |].
    rewrite Hh', Hh. reflexivity.
Defined.

(** ** Walking through the history *)

Lemma strncpy_ok (m s : list Z) (n : Z) :
  0 <= n <= Mem.size m ->
  Mem.strncpy m s n
  = Done (take (Z.to_nat n) (s ++ replicate (Z.to_nat n) 0) ++ drop (Z.to_nat n) m).
Proof.
  intros Hn. unfold Mem.strncpy.
  replace ((0 <=? n) && (n <=? Mem.size m)) with true by (symmetry; holds; lia).
  reflexivity.
Qed.

Lemma zeros_cons (k : nat) (r : list Z) :
  exists r', replicate k 0 ++ 0 :: r = 0 :: r'.
Proof. destruct k as [| k]; cbn; eauto. Qed.

(** The buffer after [strncpy(buf, e, buflen); buf[buflen - 1] = 0]: the
    entry cut to [buflen - 1] bytes, a NUL, and more. *)
Lemma history_copy (m e : list Z) (n : nat) :
  length m = S (S n) ->
  exists r,
    <[n := 0]> (take (S n) (e ++ replicate (S n) 0) ++ drop (S n) m)
    = take n e ++ 0 :: r
    /\ length (take n e ++ 0 :: r) = S (S n).
Proof.
  intros Hm.
  set (b := <[n := 0]> (take (S n) (e ++ replicate (S n) 0) ++ drop (S n) m)).
  assert (Hlen : length b = S (S n)).
  { subst b. rewrite length_insert, length_app, length_take, length_app,
      length_replicate, length_drop. lia. }
  assert (Hz : b !! n = Some 0).
  { subst b. apply list_lookup_insert_eq.
    rewrite length_app, length_take, length_app, length_replicate, length_drop. lia. }
  assert (Ht : take n b = take n e ++ replicate (n - length e) 0).
  { subst b. rewrite take_insert_ge by lia.
    rewrite take_app_le
      by (rewrite length_take, length_app, length_replicate; lia).
    rewrite take_take, Nat.min_l by lia.
    rewrite take_app, take_replicate. f_equal. f_equal. lia. }
  destruct (zeros_cons (n - length e) (drop (S n) b)) as [r' Hr'].
  assert (Hb : b = take n e ++ 0 :: r').
  { rewrite <- (take_drop_middle b n 0 Hz), Ht, <- app_assoc, Hr'. reflexivity. }
  clearbody b. exists r'. split; [exact Hb |]. rewrite <- Hb. exact Hlen.
Qed.

Lemma take_nonzero (s : list Z) (n : nat) :
  Forall (fun b => b <> 0) s -> Forall (fun b => b <> 0) (take n s).
Proof. intros H. apply Forall_take. exact H. Qed.

Lemma cstr_app (s r : list Z) :
  Forall (fun b => b <> 0) s -> Mem.cstr (s ++ 0 :: r) = Done s.
Proof. intros H. unfold Mem.cstr. rewrite until_nul_app by exact H. reflexivity. Qed.

Lemma hist_load_ok (h : list (list Z)) (i : Z) (e : list Z) :
  0 <= i -> h !! Z.to_nat i = Some e -> hist_load h i = Done e.
Proof.
  intros Hi Hl. pose proof (lookup_lt_Some _ _ _ Hl). unfold hist_load.
  replace ((0 <=? i) && (i <? Z.of_nat (length h))) with true
    by (symmetry; holds; lia).
  rewrite Hl. reflexivity.
Qed.

Lemma hist_store_ok (h : list (list Z)) (i : Z) (e : list Z) :
  0 <= i < Z.of_nat (length h) -> hist_store h i e = Done (<[Z.to_nat i := e]> h).
Proof.
  intros Hi. unfold hist_store.
  replace ((0 <=? i) && (i <? Z.of_nat (length h))) with true
    by (symmetry; holds; lia).
  reflexivity.
Qed.

(** A step of [LinenoiseEditHistoryNext] that stays inside the history. *)
Lemma history_step hc (l : LinenoiseState) (dir : Z) (w : world) (e : list Z) :
  good l -> renders hc l -> 0 < buflen l ->
  Forall (fun b => b <> 0) (current_line l) ->
  0 <= history_index l < history_len l ->
  0 <= history_index l + (if dir =? LINENOISE_HISTORY_PREV then 1 else -1)
    < history_len l ->
  history l !! Z.to_nat (history_len l - 1
                         - (history_index l
                            + (if dir =? LINENOISE_HISTORY_PREV then 1 else -1)))
    = Some e ->
  Forall (fun b => b <> 0) e ->
  exists l' w',
    LinenoiseEditHistoryNext hc l dir w = Done (l', w')
    /\ current_line l' = take (Z.to_nat (buflen l - 1)) e
    /\ pos l' = len l' /\ good l' /\ setup l' = setup l
    /\ history l'
       = <[Z.to_nat (history_len l - 1 - history_index l) := current_line l]>
           (history l)
    /\ history_index l'
       = history_index l + (if dir =? LINENOISE_HISTORY_PREV then 1 else -1).
Proof.
  intros Hg Hr Hbuf Hline Hidx Hidx' He Hnz. good_hyps Hg.
  set (step := if dir =? LINENOISE_HISTORY_PREV then 1 else -1) in *.
  assert (Hstep : step = 1 \/ step = -1) by (subst step; destruct (_ =? _); auto).
  unfold LinenoiseEditHistoryNext. fold step.
  replace (history_len l >? 1) with true
    by (symmetry; rewrite Z.gtb_ltb; apply Z.ltb_lt; lia).
  rewrite (cstr_line l Hg Hline). cbn [obind].
  unfold history_len in *.
  rewrite hist_store_ok by lia. cbn [obind].
  cbn [history history_index history_len set_history set_history_index buf buflen].
  unfold history_len. cbn [history set_history set_history_index].
  rewrite length_insert.
  replace (history_index l + step <? 0) with false by (symmetry; apply Z.ltb_ge; lia).
  replace (history_index l + step >=? Z.of_nat (length (history l))) with false
    by (symmetry; rewrite Z.geb_leb; apply Z.leb_gt; lia).
  rewrite (hist_load_ok _ _ e); [| lia |].
  2: { rewrite list_lookup_insert_ne by lia. exact He. }
  cbn [obind]. rewrite strncpy_ok by lia. cbn [obind]. szg.
  unfold Mem.size in *.
  destruct (Z.to_nat (buflen l)) as [| n] eqn:En; [lia |].
  replace (Z.to_nat (buflen l - 1)) with n by lia.
  destruct (length (buf l)) as [| [| m]] eqn:Em; try lia.
  assert (m = n) by lia. subst m.
  rewrite store_ok
    by (unfold Mem.size;
        rewrite length_app, length_take, length_app, length_replicate, length_drop;
        lia).
  cbn [obind]. replace (Z.to_nat (buflen l - 1)) with n by lia.
  destruct (history_copy (buf l) e n Em) as (r & -> & Hsz).
  cbn [buf set_buf]. unfold Mem.strlen.
  rewrite cstr_app by (apply take_nonzero; exact Hnz). cbn [obind].
  match goal with
  | |- context [RefreshLine hc ?l1 w] =>
      destruct (draw_line hc l l1 w) as (l' & w' & Hrun & Hl' & Hp' & Hn');
        try assumption; fields; try reflexivity; try lia
  end.
  - unfold Mem.size. rewrite Hsz, Em. reflexivity.
  - rewrite length_take. lia.
  - apply load_of_lookup. rewrite lookup_app_r by lia. rewrite Nat.sub_diag.
    reflexivity.
  - exists l', w'. split; [exact Hrun |].
    pose proof (LinenoiseEditHistoryNext_good hc l dir w l' w' Hg) as Hgood.
    pose proof (RefreshLine_memo _ _ _ _ _ Hrun) as Hmemo.
    rewrite Hl', Hp', Hn'. unfold current_line. fields.
    rewrite Nat2Z.id, take_app_length.
    split; [reflexivity |]. split; [reflexivity |].
    split.
    { eapply refresh_good with (l0 := l); [| exact Hrun].
      apply good_make; fields; try reflexivity; try lia.
      - exact (proj1 Hg).
      - unfold Mem.size. rewrite Hsz, Em. reflexivity.
      - rewrite length_take. lia.
      - apply load_of_lookup. rewrite lookup_app_r by lia. rewrite Nat.sub_diag.
        reflexivity. }
    rewrite Hmemo. repeat split.
Qed.

(** X17.  [LinenoiseEditHistoryNext] first stores the line being edited
    in the history entry it came from.  A step that stays inside the history
    then shows the entry it reaches, cut to [buflen - 1] bytes, with the
    cursor at its end; a step before the newest or past the oldest entry
    leaves the line on the screen and the index at the end it hit; and with
    fewer than two entries the call does nothing. *)
Theorem history_step_shows_entry hc (l : LinenoiseState) (dir : Z) (w : world) :
  good l -> renders hc l -> 0 < buflen l ->
  Forall (fun b => b <> 0) (current_line l) ->
  0 <= history_index l < history_len l ->
  (history_len l <= 1 -> LinenoiseEditHistoryNext hc l dir w = Done (l, w))
  /\ (1 < history_len l ->
      history_index l + (if dir =? LINENOISE_HISTORY_PREV then 1 else -1) < 0 ->
      LinenoiseEditHistoryNext hc l dir w
      = Done (set_history_index
                (set_history l
                   (<[Z.to_nat (history_len l - 1 - history_index l)
                      := current_line l]> (history l))) 0, w))
  /\ (1 < history_len l ->
      history_len l
        <= history_index l + (if dir =? LINENOISE_HISTORY_PREV then 1 else -1) ->
      LinenoiseEditHistoryNext hc l dir w
      = Done (set_history_index
                (set_history l
                   (<[Z.to_nat (history_len l - 1 - history_index l)
                      := current_line l]> (history l))) (history_len l - 1), w))
  /\ (forall e,
        0 <= history_index l + (if dir =? LINENOISE_HISTORY_PREV then 1 else -1)
          < history_len l ->
        history l !! Z.to_nat (history_len l - 1
                               - (history_index l
                                  + (if dir =? LINENOISE_HISTORY_PREV then 1 else -1)))
          = Some e ->
        Forall (fun b => b <> 0) e ->
        exists l' w',
          LinenoiseEditHistoryNext hc l dir w = Done (l', w')
          /\ current_line l' = take (Z.to_nat (buflen l - 1)) e
          /\ pos l' = len l'
          /\ history l'
             = <[Z.to_nat (history_len l - 1 - history_index l) := current_line l]>
                 (history l)
          /\ history_index l'
             = history_index l + (if dir =? LINENOISE_HISTORY_PREV then 1 else -1)).
Proof.
  intros Hg Hr Hbuf Hline Hidx.
  set (step := if dir =? LINENOISE_HISTORY_PREV then 1 else -1) in *.
  assert (Hedge : 1 < history_len l ->
            LinenoiseEditHistoryNext hc l dir w
            = (let l1 := set_history_index
                           (set_history l
                              (<[Z.to_nat (history_len l - 1 - history_index l)
                                 := current_line l]> (history l)))
                           (history_index l + step) in
               if history_index l1 <? 0 then Done (set_history_index l1 0, w)
               else if history_index l1 >=? history_len l1
               then Done (set_history_index l1 (history_len l1 - 1), w)
               else
                 do e <- hist_load (history l1)
                           (history_len l1 - 1 - history_index l1);
                 do b <- Mem.strncpy (buf l1) e (buflen l1);
                 do b <- Mem.store b (C.size_t (buflen l1 - 1)) 0;
                 do n <- Mem.strlen b;
                 RefreshLine hc (set_len (set_pos (set_buf l1 b) n) n) w)).
  { intros Hlen. unfold LinenoiseEditHistoryNext. fold step.
    replace (history_len l >? 1) with true
      by (symmetry; rewrite Z.gtb_ltb; apply Z.ltb_lt; lia).
    rewrite (cstr_line l Hg Hline). cbn [obind].
    unfold history_len in *. rewrite hist_store_ok by lia. reflexivity. }
  split.
  { intros Hlen. unfold LinenoiseEditHistoryNext.
    replace (history_len l >? 1) with false
      by (symmetry; rewrite Z.gtb_ltb; apply Z.ltb_ge; lia).
    reflexivity. }
  split.
  { intros Hlen Hlow. rewrite (Hedge Hlen). cbv zeta.
    cbn [history_index set_history_index].
    replace (history_index l + step <? 0) with true by (symmetry; apply Z.ltb_lt; lia).
    reflexivity. }
  split.
  { intros Hlen Hhigh. rewrite (Hedge Hlen). cbv zeta.
    cbn [history_index set_history_index].
    replace (history_index l + step <? 0) with false
      by (symmetry; apply Z.ltb_ge; lia).
    unfold history_len in *. cbn [history set_history set_history_index].
    rewrite length_insert.
    replace (history_index l + step >=? Z.of_nat (length (history l))) with true
      by (symmetry; rewrite Z.geb_leb; apply Z.leb_le; lia).
    reflexivity. }
  intros e Hin He Hnz.
  destruct (history_step hc l dir w e Hg Hr Hbuf Hline Hidx Hin He Hnz)
    as (l' & w' & Hrun & H1 & H2 & _ & _ & H3 & H4).
  exists l', w'. repeat split; assumption.
Qed.

(** A session with the example history: "one", "two" and the entry of the
    line being edited. *)
Lemma history_session_good (s : list Z) :
  Z.of_nat (length s) <= 7 ->
  good (set_history (small_session s 7 80) [bytes_of_string "one"; bytes_of_string "two"; []])
  /\ renders None
       (set_history (small_session s 7 80) [bytes_of_string "one"; bytes_of_string "two"; []])
  /\ current_line
       (set_history (small_session s 7 80) [bytes_of_string "one"; bytes_of_string "two"; []])
     = s.
Proof.
  intros Hs. destruct (small_session_good s 7 (Z.of_nat (length s))) as (Hg & Hr & Hl);
    [lia | lia |].
  repeat split; try apply Hg; try apply Hr. exact Hl.
Qed.

Lemma history_step_shows_entry_witness :
  exists l' w',
    LinenoiseEditHistoryNext None
      (set_history (small_session (bytes_of_string "x") 7 80)
         [bytes_of_string "one"; bytes_of_string "two"; []])
      LINENOISE_HISTORY_PREV (tty [])
    = Done (l', w')
    /\ current_line l' = bytes_of_string "two"
    /\ history l' = [bytes_of_string "one"; bytes_of_string "two"; bytes_of_string "x"].
Proof.
  destruct (history_session_good (bytes_of_string "x")) as (Hg & Hr & Hl);
    [vm_compute; discriminate |].
  destruct (history_step_shows_entry None
              (set_history (small_session (bytes_of_string "x") 7 80)
                 [bytes_of_string "one"; bytes_of_string "two"; []])
              LINENOISE_HISTORY_PREV (tty []) Hg Hr)
    as (_ & _ & _ & Hshow).
  - reflexivity.
  - rewrite Hl. repeat constructor; discriminate.
  - vm_compute. split; [discriminate | reflexivity].
  - destruct (Hshow (bytes_of_string "two")) as (l' & w' & Hrun & Hline & _ & Hh & _).
    + vm_compute. split; [discriminate | reflexivity].
    + reflexivity.
    + repeat constructor; discriminate.
    + exists l', w'. split; [exact Hrun |]. rewrite Hline, Hh, Hl.
      split; reflexivity.
Defined.

(** X18.  One step back in the history and one step forward again give
    the line back: the earlier entry is shown in between, and afterwards the
    line is what it was (with the cursor at its end), the index is the same,
    and the history differs only in the entry of the line, which now holds
    it.  The line must be shorter than [buflen]: the copy into the buffer
    keeps [buflen - 1] bytes. *)
Theorem history_back_and_forth hc (l : LinenoiseState) (w : world) (e : list Z) :
  good l -> renders hc l ->
  Forall (fun b => b <> 0) (current_line l) -> len l < buflen l ->
  0 <= history_index l -> history_index l + 1 < history_len l ->
  history l !! Z.to_nat (history_len l - 2 - history_index l) = Some e ->
  Forall (fun b => b <> 0) e -> Z.of_nat (length e) < buflen l ->
  exists l1 w1 l2 w2,
    LinenoiseEditHistoryNext hc l LINENOISE_HISTORY_PREV w = Done (l1, w1)
    /\ current_line l1 = e
    /\ LinenoiseEditHistoryNext hc l1 LINENOISE_HISTORY_NEXT w1 = Done (l2, w2)
    /\ current_line l2 = current_line l
    /\ pos l2 = len l2
    /\ history_index l2 = history_index l
    /\ history l2
       = <[Z.to_nat (history_len l - 1 - history_index l) := current_line l]>
           (history l).
Proof.
  intros Hg Hr Hline Hroom Hidx Hidx' He Hnz Hfit. good_hyps Hg.
  destruct (history_step hc l LINENOISE_HISTORY_PREV w e Hg Hr)
    as (l1 & w1 & Hrun1 & Hl1 & Hp1 & Hg1 & Hs1 & Hh1 & Hi1);
    try assumption; try lia.
  { change (LINENOISE_HISTORY_PREV =? LINENOISE_HISTORY_PREV) with true.
    cbv iota. lia. }
  { change (LINENOISE_HISTORY_PREV =? LINENOISE_HISTORY_PREV) with true.
    cbv iota. rewrite <- He. f_equal. lia. }
  change (LINENOISE_HISTORY_PREV =? LINENOISE_HISTORY_PREV) with true in Hi1.
  cbv iota in Hi1.
  rewrite take_ge in Hl1 by lia.
  assert (Hb1 : buflen l1 = buflen l)
    by (unfold setup in Hs1; injection Hs1 as _ _ _ Hb _ _ _ _ _ _ _ _; exact Hb).
  assert (Hlen1 : history_len l1 = history_len l).
  { unfold history_len. rewrite Hh1, length_insert. reflexivity. }
  unfold history_len in *.
  destruct (history_step hc l1 LINENOISE_HISTORY_NEXT w1 (current_line l) Hg1)
    as (l2 & w2 & Hrun2 & Hl2 & Hp2 & Hg2 & Hs2 & Hh2 & Hi2);
    try assumption; try lia.
  { eapply renders_setup; eassumption. }
  { rewrite Hl1. exact Hnz. }
  { unfold history_len. lia. }
  { change (LINENOISE_HISTORY_NEXT =? LINENOISE_HISTORY_PREV) with false.
    cbv iota. unfold history_len. lia. }
  { change (LINENOISE_HISTORY_NEXT =? LINENOISE_HISTORY_PREV) with false.
    cbv iota. unfold history_len. rewrite Hlen1, Hi1, Hh1.
    replace (Z.of_nat (length (history l)) - 1 - (history_index l + 1 + -1))
      with (Z.of_nat (length (history l)) - 1 - history_index l) by lia.
    apply list_lookup_insert_eq. lia. }
  change (LINENOISE_HISTORY_NEXT =? LINENOISE_HISTORY_PREV) with false in Hi2.
  cbv iota in Hi2.
  exists l1, w1, l2, w2. split; [exact Hrun1 |]. split; [exact Hl1 |].
  split; [exact Hrun2 |].
  split.
  { rewrite Hl2. apply take_ge. rewrite (current_line_length l Hg). lia. }
  split; [exact Hp2 |]. split; [lia |].
  rewrite Hh2, Hl1. unfold history_len. rewrite Hlen1, Hi1, Hh1.
  apply list_insert_id. rewrite list_lookup_insert_ne by lia.
  rewrite <- He. f_equal. lia.
Qed.

Lemma history_back_and_forth_witness :
  exists l1 w1 l2 w2,
    LinenoiseEditHistoryNext None
      (set_history (small_session (bytes_of_string "x") 7 80)
         [bytes_of_string "one"; bytes_of_string "two"; []])
      LINENOISE_HISTORY_PREV (tty [])
    = Done (l1, w1)
    /\ LinenoiseEditHistoryNext None l1 LINENOISE_HISTORY_NEXT w1 = Done (l2, w2)
    /\ current_line l2 = bytes_of_string "x".
Proof.
  destruct (history_session_good (bytes_of_string "x")) as (Hg & Hr & Hl);
    [vm_compute; discriminate |].
  destruct (history_back_and_forth None
              (set_history (small_session (bytes_of_string "x") 7 80)
                 [bytes_of_string "one"; bytes_of_string "two"; []])
              (tty []) (bytes_of_string "two") Hg Hr)
    as (l1 & w1 & l2 & w2 & Hrun1 & _ & Hrun2 & Hline & _).
  - rewrite Hl. repeat constructor; discriminate.
  - vm_compute. reflexivity.
  - vm_compute. discriminate.
  - vm_compute. reflexivity.
  - reflexivity.
  - repeat constructor; discriminate.
  - vm_compute. reflexivity.
  - exists l1, w1, l2, w2. split; [exact Hrun1 |]. split; [exact Hrun2 |].
    rewrite Hline, Hl. reflexivity.
Defined.

(** ** Completion *)

Lemma memo_trans (l l1 l2 : LinenoiseState) :
  l1 = memo_of l l1 -> l2 = memo_of l1 l2 -> l2 = memo_of l l2.
Proof. intros H1 H2. rewrite H2, H1. reflexivity. Qed.

Lemma memo_good (l l1 : LinenoiseState) :
  l1 = memo_of l l1 -> good l -> good l1.
Proof. intros -> Hg. exact Hg. Qed.

Lemma memo_renders hc (l l1 : LinenoiseState) :
  l1 = memo_of l l1 -> renders hc l -> renders hc l1.
Proof. intros -> Hr. exact Hr. Qed.

(** The first half of a turn of the completion loop: the candidate, or the
    line, is drawn, and the session is as before apart from the memos. *)
Lemma complete_show hc (lc : list (list Z)) (i : Z) (ls : LinenoiseState)
    (w : world) :
  good ls -> renders hc ls -> 0 <= i ->
  Forall (fun e => Z.of_nat (length e) < buflen ls) lc ->
  exists ls1 w1,
    (if i <? Z.of_nat (length lc) then
       do c <- hist_load lc i;
       let shown := set_len ls (Z.of_nat (length c)) in
       let shown := set_pos shown (Z.of_nat (length c)) in
       let shown := set_buf shown (c ++ [0]) in
       do '(shown, w) <- RefreshLine hc shown w;
       let shown := set_len shown (len ls) in
       let shown := set_pos shown (pos ls) in
       Done (set_buf shown (buf ls), w)
     else RefreshLine hc ls w) = Done (ls1, w1)
    /\ ls1 = memo_of ls ls1 /\ w_in w1 = w_in w.
Proof.
  intros Hg Hr Hi Hfit. good_hyps Hg.
  destruct (i <? Z.of_nat (length lc)) eqn:E; zbool.
  - destruct (lookup_lt_is_Some_2 lc (Z.to_nat i)) as [c Hc]; [lia |].
    rewrite (hist_load_ok _ _ _ Hi Hc). cbn [obind]. cbv zeta.
    pose proof (proj1 (Forall_lookup _ _) Hfit _ _ Hc) as Hlen_c. cbn beta in Hlen_c.
    match goal with
    | |- context [RefreshLine hc ?l1 w] =>
        destruct (RefreshLine_drawn hc l1 w) as (l' & ab & Hrun & Hmemo)
    end.
    + split; [fields; lia |]. split; [fields; lia |]. fields.
      apply load_of_lookup. rewrite lookup_app_r by lia. rewrite Nat.sub_diag.
      reflexivity.
    + eapply renders_setup; [| exact Hr]. reflexivity.
    + rewrite Hrun. cbn [obind]. eexists _, _. split; [reflexivity |].
      split; [| apply write_snd_in].
      rewrite Hmemo. destruct ls; reflexivity.
  - destruct (RefreshLine_write hc ls w Hg Hr) as (l' & ab & Hrun & Hmemo).
    rewrite Hrun. eexists _, _. split; [reflexivity |].
    split; [exact Hmemo | apply write_snd_in].
Qed.

Lemma snprintf_fits (m e : list Z) (n : Z) :
  Z.of_nat (length e) < n -> n <= Mem.size m -> n < 2 ^ 31 ->
  Mem.snprintf_s m n e
  = Done (Z.of_nat (length e), e ++ [0] ++ drop (S (length e)) m).
Proof.
  intros He Hn Hbig. unfold Mem.snprintf_s.
  replace (n =? 0) with false by (symmetry; apply Z.eqb_neq; lia).
  replace ((0 <? n) && (n <=? Mem.size m)) with true by (symmetry; holds; lia).
  rewrite take_ge by lia. rewrite int_small by lia. reflexivity.
Qed.

Lemma complete_loop_S (fuel : nat) hc (lc : list (list Z)) (i : Z)
    (ls : LinenoiseState) (w : world) :
  complete_loop (S fuel) hc lc i ls w
  = (do '(ls, w) <-
       (if i <? Z.of_nat (length lc) then
          do c <- hist_load lc i;
          let shown := set_len ls (Z.of_nat (length c)) in
          let shown := set_pos shown (Z.of_nat (length c)) in
          let shown := set_buf shown (c ++ [0]) in
          do '(shown, w) <- RefreshLine hc shown w;
          let shown := set_len shown (len ls) in
          let shown := set_pos shown (pos ls) in
          Done (set_buf shown (buf ls), w)
        else RefreshLine hc ls w);
     let '(r, w) := Sys.read w in
     match r with
     | RdGot c =>
         if c =? 9 then
           let i := C.size_t (i + 1) mod C.size_t (Z.of_nat (length lc) + 1) in
           let w := if i =? Z.of_nat (length lc) then LinenoiseBeep w else w in
           complete_loop fuel hc lc i ls w
         else if c =? 27 then
           do '(ls, w) <- (if i <? Z.of_nat (length lc)
                           then RefreshLine hc ls w else Done (ls, w));
           Done (schar c, ls, w)
         else
           do ls <-
             (if i <? Z.of_nat (length lc) then
                do e <- hist_load lc i;
                do '(nwritten, b) <- Mem.snprintf_s (buf ls) (buflen ls) e;
                let ls := set_buf ls b in
                let ls := set_pos ls (C.size_t nwritten) in
                Done (set_len ls (C.size_t nwritten))
              else Done ls);
           Done (schar c, ls, w)
     | RdEof | RdFail => Done (-1, ls, w)
     end).
Proof. reflexivity. Qed.

(** The completion loop on [k] more TABs and another byte [c]. *)
Lemma complete_loop_tabs hc (lc : list (list Z)) (c : Z) (rest : list rd_event)
    (k : nat) :
  forall (fuel : nat) (i : Z) (ls : LinenoiseState) (w : world),
    good ls -> renders hc ls -> 0 <= i <= Z.of_nat (length lc) ->
    Forall (fun e => Z.of_nat (length e) < buflen ls) lc ->
    Z.of_nat (length lc) + 1 < C.SIZE_MAX1 -> c <> 9 ->
    w_in w = replicate k (RdByte 9) ++ RdByte c :: rest ->
    (length (w_in w) < fuel)%nat ->
    exists ls' w',
      complete_loop fuel hc lc i ls w = Done (schar c, ls', w')
      /\ w_in w' = rest
      /\ (c = 27 \/ (i + Z.of_nat k) mod (Z.of_nat (length lc) + 1)
                    = Z.of_nat (length lc) ->
          ls' = memo_of ls ls')
      /\ (forall e,
            c <> 27 ->
            lc !! Z.to_nat ((i + Z.of_nat k) mod (Z.of_nat (length lc) + 1)) = Some e ->
            current_line ls' = e /\ pos ls' = Z.of_nat (length e)
            /\ len ls' = Z.of_nat (length e) /\ good ls'
            /\ setup ls' = setup ls /\ history ls' = history ls).
Proof.
  induction k as [| k IH]; intros fuel i ls w Hg Hr Hi Hfit Hbig Hc Hin Hfuel.
  - destruct fuel as [| fuel]; [lia |]. rewrite complete_loop_S.
    destruct (complete_show hc lc i ls w Hg Hr (proj1 Hi) Hfit)
      as (ls1 & w1 & -> & Hmemo & Hin1).
    cbn [obind]. cbn [replicate app] in Hin.
    rewrite (read_byte w1 c rest) by congruence.
    replace (c =? 9) with false by (symmetry; apply Z.eqb_neq; exact Hc).
    rewrite Z.add_0_r, Z.mod_small by lia.
    pose proof (memo_good _ _ Hmemo Hg) as Hg1.
    pose proof (memo_renders _ _ _ Hmemo Hr) as Hr1.
    destruct (c =? 27) eqn:E27; zbool.
    + assert (Hre : exists ls2 w2,
                 (if i <? Z.of_nat (length lc)
                  then RefreshLine hc ls1 (with_in w1 rest)
                  else Done (ls1, with_in w1 rest)) = Done (ls2, w2)
                 /\ ls2 = memo_of ls1 ls2 /\ w_in w2 = rest).
      { destruct (i <? Z.of_nat (length lc)).
        - destruct (RefreshLine_write hc ls1 (with_in w1 rest) Hg1 Hr1)
            as (l' & ab & Hrun & Hm).
          exists l', (snd (Sys.write (with_in w1 rest) ab)).
          split; [exact Hrun |]. split; [exact Hm | apply write_snd_in].
        - exists ls1, (with_in w1 rest). split; [reflexivity |].
          split; [destruct ls1; reflexivity | reflexivity]. }
      destruct Hre as (ls2 & w2 & -> & Hm2 & Hin2). cbn [obind].
      exists ls2, w2. split; [reflexivity |]. split; [exact Hin2 |].
      split; [intros _; eapply memo_trans; eassumption |].
      intros e Hne. contradiction.
    + destruct (i <? Z.of_nat (length lc)) eqn:Ei; zbool.
      * destruct (lookup_lt_is_Some_2 lc (Z.to_nat i)) as [e He]; [lia |].
        rewrite (hist_load_ok _ _ _ (proj1 Hi) He). cbn [obind].
        pose proof (proj1 (Forall_lookup _ _) Hfit _ _ He) as Hlen_e.
        cbn beta in Hlen_e. good_hyps Hg1.
        assert (Hb1 : buflen ls1 = buflen ls) by (rewrite Hmemo; reflexivity).
        rewrite snprintf_fits by lia. cbn [obind]. fields. szg.
        eexists _, _. split; [reflexivity |]. split; [reflexivity |].
        split; [intros [? | ?]; [contradiction | lia] |].
        intros e' _ He'. assert (e' = e) by congruence. subst e'.
        unfold current_line. fields. rewrite Nat2Z.id, take_app_length.
        split; [reflexivity |]. split; [reflexivity |]. split; [reflexivity |].
        split; [| split; rewrite Hmemo; reflexivity].
        destruct (good_make ls1
                    (set_len (set_pos (set_buf ls1 (e ++ [0] ++ drop (S (length e)) (buf ls1)))
                                (Z.of_nat (length e))) (Z.of_nat (length e))))
          as [Hg2 _]; fields; try reflexivity; try lia.
        -- exact (proj1 Hg1).
        -- unfold Mem.size in *. rewrite !length_app, length_drop. cbn [length]. lia.
        -- apply load_of_lookup. rewrite lookup_app_r by lia.
           rewrite Nat.sub_diag. reflexivity.
        -- exact Hg2.
      * cbn [obind]. exists ls1, (with_in w1 rest).
        split; [reflexivity |]. split; [reflexivity |].
        split; [intros _; exact Hmemo |].
        intros e _ He. apply lookup_lt_Some in He. lia.
  - destruct fuel as [| fuel]; [lia |]. rewrite complete_loop_S.
    destruct (complete_show hc lc i ls w Hg Hr (proj1 Hi) Hfit)
      as (ls1 & w1 & -> & Hmemo & Hin1).
    cbn [obind]. cbn [replicate app] in Hin.
    rewrite (read_byte w1 9 (replicate k (RdByte 9) ++ RdByte c :: rest))
      by congruence.
    change (9 =? 9) with true. cbv iota.
    pose proof (memo_good _ _ Hmemo Hg) as Hg1.
    pose proof (memo_renders _ _ _ Hmemo Hr) as Hr1.
    assert (Hb1 : buflen ls1 = buflen ls) by (rewrite Hmemo; reflexivity).
    rewrite (size_t_small (i + 1)), (size_t_small (Z.of_nat (length lc) + 1))
      by lia.
    cbv zeta.
    set (n := Z.of_nat (length lc)) in *.
    set (i' := (i + 1) mod (n + 1)).
    assert (Hi' : 0 <= i' <= n).
    { subst i'. pose proof (Z.mod_pos_bound (i + 1) (n + 1)). lia. }
    set (w2 := if i' =? n
               then LinenoiseBeep (with_in w1 (replicate k (RdByte 9) ++ RdByte c :: rest))
               else with_in w1 (replicate k (RdByte 9) ++ RdByte c :: rest)).
    assert (Hin2 : w_in w2 = replicate k (RdByte 9) ++ RdByte c :: rest)
      by (subst w2; destruct (i' =? n); reflexivity).
    destruct (IH fuel i' ls1 w2 Hg1 Hr1 Hi')
      as (ls' & w' & Hrun & Hin' & Hkeep & Hacc); try assumption.
    { rewrite Hb1. exact Hfit. }
    { rewrite Hin2. rewrite Hin in Hfuel. cbn [length] in Hfuel. lia. }
    assert (Hmod : (i' + Z.of_nat k) mod (n + 1) = (i + Z.of_nat (S k)) mod (n + 1)).
    { subst i'. rewrite Zplus_mod_idemp_l. f_equal. lia. }
    rewrite Hmod in *.
    exists ls', w'. split; [exact Hrun |]. split; [exact Hin' |].
    split.
    + intros H. eapply memo_trans; [exact Hmemo | apply Hkeep; exact H].
    + intros e Hne He. destruct (Hacc e Hne He) as (H1 & H2 & H3 & H4 & H5 & H6).
      split; [exact H1 |]. split; [exact H2 |]. split; [exact H3 |].
      split; [exact H4 |].
      split; [rewrite H5, Hmemo; reflexivity | rewrite H6, Hmemo; reflexivity].
Qed.



Lemma schar_char (c : Z) : 0 <= c < 256 -> C.char (schar c) = c.
Proof.
  intros Hc. unfold schar, C.char, C.char_negative.
  rewrite (Z.mod_small c) by lia.
  destruct (128 <=? c).
  - replace (c - 256) with (c + (-1) * 256) by lia.
    rewrite Z_mod_plus_full. apply Z.mod_small. lia.
  - apply Z.mod_small. lia.
Qed.

(** X20.  TAB with a completion callback, [k] more TABs and a byte of
    text: the candidate then shown replaces the line.  A byte below 128 is
    then inserted after it and the loop goes on; a byte from 128 on, being
    a negative [char], is taken for a failed read, and the loop returns the
    length of the candidate without inserting the byte. *)
Theorem tab_accepts_candidate cb hc (ls : LinenoiseState) (w : world) (k : nat)
    (c : Z) (rest : list rd_event) (e : list Z) :
  good ls -> renders hc ls -> Forall (fun b => b <> 0) (current_line ls) ->
  Forall (fun e => Z.of_nat (length e) < buflen ls) (cb (current_line ls)) ->
  Z.of_nat (length (cb (current_line ls))) + 1 < C.SIZE_MAX1 ->
  plain c -> writes_succeed w ->
  w_in w = RdByte Key.TAB :: replicate k (RdByte Key.TAB) ++ RdByte c :: rest ->
  cb (current_line ls)
    !! Z.to_nat (Z.of_nat k mod (Z.of_nat (length (cb (current_line ls))) + 1))
  = Some e ->
  exists k' ls' w',
    edit_turn (Some cb) hc ls w = Done (k', ls', w')
    /\ w_in w' = rest
    /\ (c < 128 ->
        k' = Continue /\ current_line ls' = e ++ [c] /\ pos ls' = len ls')
    /\ (128 <= c ->
        k' = Return (Z.of_nat (length e)) /\ current_line ls' = e).
Proof.
  intros Hg Hr Hline Hfit Hbig Hc Hok Hin He.
  assert (Hc9 : c <> 9) by (unfold plain in Hc; lia).
  assert (Hc27 : c <> 27) by (unfold plain in Hc; lia).
  assert (Hne : cb (current_line ls) <> []) by (intros H0; rewrite H0 in He; discriminate He).
  unfold edit_turn. rewrite (read_byte _ _ _ Hin).
  change (Key.TAB =? 9) with true. cbv iota.
  set (w0 := with_in w (replicate k (RdByte Key.TAB) ++ RdByte c :: rest)).
  unfold CompleteLine. rewrite (cstr_line ls Hg Hline). cbn [obind].
  set (lc := cb (current_line ls)) in *.
  replace (Z.of_nat (length lc) =? 0) with false
    by (symmetry; apply Z.eqb_neq; destruct lc; [contradiction | cbn [length]; lia]).
  destruct (complete_loop_tabs hc lc c rest k (S (length (w_in w0))) 0 ls w0 Hg Hr)
    as (ls1 & w1 & Hrun & Hin1 & _ & Hacc); try assumption; try lia;
    try reflexivity.
  pose proof (complete_loop_kept _ _ _ _ _ _ _ _ _ Hrun) as (_ & _ & Hok1).
  rewrite Z.add_0_l in Hacc.
  destruct (Hacc e Hc27 He) as (Hl1 & Hp1 & Hn1 & Hg1 & Hs1 & _).
  rewrite Hrun. cbn [obind].
  assert (Hrange : 0 <= c < 256) by (unfold plain in Hc; lia).
  rewrite (schar_char c Hrange). unfold C.char_negative.
  rewrite (Z.mod_small c) by lia.
  destruct (128 <=? c) eqn:Ehigh; zbool.
  - good_hyps Hg1. rewrite int_small by lia.
    exists (Return (len ls1)), ls1, w1. split; [reflexivity |].
    split; [exact Hin1 |]. split; [lia |].
    intros _. rewrite Hn1. split; [reflexivity | exact Hl1].
  - replace (c =? 0) with false
      by (symmetry; apply Z.eqb_neq; unfold plain in Hc; lia).
    rewrite dispatch_plain by exact Hc.
    assert (Hr1 : renders hc ls1) by (eapply renders_setup; eassumption).
    assert (Hroom : len ls1 < buflen ls1).
    { pose proof (proj1 (Forall_lookup _ _) Hfit _ _ He) as Hlen_e.
      cbn beta in Hlen_e. unfold setup in Hs1.
      injection Hs1 as _ _ _ Hb _ _ _ _ _ _ _ _. lia. }
    destruct (insert_effect hc ls1 c w1 Hg1 Hr1 Hroom)
      as (r & ls' & w' & Hins & Hline' & Hpos' & Hlen' & Hret).
    assert (Hok0 : writes_succeed w0) by exact Hok.
    rewrite (Hret (Hok1 Hok0)) in Hins.
    pose proof (LinenoiseEditInsert_in _ _ _ _ _ _ _ Hins) as Hin'.
    rewrite Hins. cbn [obind]. change (negb (0 =? 0)) with false. cbv iota.
    exists Continue, ls', w'. split; [reflexivity |].
    split; [congruence |]. split; [| lia].
    intros _. split; [reflexivity |]. split; [| lia].
    rewrite Hline', Hl1, Hp1, Nat2Z.id, take_ge, drop_ge by lia. reflexivity.
Qed.

Lemma tab_accepts_candidate_witness :
  exists k' ls' w',
    edit_turn (Some example_completion) None
      (small_session (bytes_of_string "h") 15 80) (tty [Key.TAB; 33])
    = Done (k', ls', w')
    /\ k' = Continue /\ current_line ls' = bytes_of_string "hello!".
Proof.
  destruct (small_session_good (bytes_of_string "h") 15 1) as (Hg & Hr & Hs);
    [vm_compute; split; discriminate || reflexivity
    | vm_compute; split; discriminate |].
  destruct (tab_accepts_candidate example_completion None
              (set_pos (small_session (bytes_of_string "h") 15 80) 1)
              (tty [Key.TAB; 33]) 0 33 [] (bytes_of_string "hello") Hg Hr)
    as (k' & ls' & w' & Hrun & _ & Hlow & _).
  - rewrite Hs. repeat constructor; discriminate.
  - rewrite Hs. repeat constructor.
  - rewrite Hs. vm_compute. reflexivity.
  - unfold plain. lia.
  - constructor.
  - reflexivity.
  - rewrite Hs. reflexivity.
  - destruct Hlow as (Hk & Hline & _); [lia |].
    exists k', ls', w'. split; [exact Hrun |]. split; [exact Hk | exact Hline].
Defined.

(** ** Reading a line without line editing *)

Lemma as_cstr_text (s : list Z) : Forall (fun b => b <> 0) s -> as_cstr s = s.
Proof. intros H. unfold as_cstr. rewrite until_nul_none by exact H. reflexivity. Qed.

Lemma notty_loop_line (s : list Z) :
  forall (acc rest : list Z),
    Forall (fun b => b <> 10) s ->
    notty_loop acc (s ++ 10 :: rest) = (Some (as_cstr (acc ++ s)), rest).
Proof.
  induction s as [| b s IH]; intros acc rest Hs.
  - cbn [app notty_loop]. rewrite Z.eqb_refl, app_nil_r. reflexivity.
  - apply Forall_cons_1 in Hs as [Hb Hs]. cbn [app notty_loop].
    replace (b =? 10) with false by (symmetry; apply Z.eqb_neq; exact Hb).
    rewrite IH by exact Hs. rewrite <- app_assoc. reflexivity.
Qed.

Lemma notty_loop_end (s : list Z) :
  forall acc : list Z,
    Forall (fun b => b <> 10) s ->
    notty_loop acc s
    = (if Z.of_nat (length (acc ++ s)) =? 0 then None else Some (as_cstr (acc ++ s)),
       []).
Proof.
  induction s as [| b s IH]; intros acc Hs.
  - cbn [notty_loop]. rewrite app_nil_r.
    destruct (Z.of_nat (length acc) =? 0); reflexivity.
  - apply Forall_cons_1 in Hs as [Hb Hs]. cbn [notty_loop].
    replace (b =? 10) with false by (symmetry; apply Z.eqb_neq; exact Hb).
    rewrite IH by exact Hs. rewrite <- app_assoc. reflexivity.
Qed.

(** X21.  When the input is not a terminal, [Linenoise] edits nothing and
    writes nothing: it returns the bytes of [stdin] up to the first
    newline, whatever their number, and leaves what follows the newline.  A
    last line without newline is returned as it is, and at the end of
    [stdin] the call returns [NULL].  In each case [errno] is left at
    [ENOTTY], by the [isatty] that failed. *)
Theorem piped_input_is_read_by_lines cc hc (ls : LinenoiseState) (w : world)
    (s rest : list Z) :
  0 < Mem.size (buf ls) -> w_isatty w = false ->
  Forall (fun b => b <> 10 /\ b <> 0) s ->
  (w_stdin w = s ++ 10 :: rest ->
   Linenoise cc hc ls w
   = Done (Some s, set_buf ls (<[0%nat := 0]> (buf ls)),
           with_stdin (with_errno w C.ENOTTY) rest))
  /\ (w_stdin w = s -> s <> [] ->
      Linenoise cc hc ls w
      = Done (Some s, set_buf ls (<[0%nat := 0]> (buf ls)),
              with_stdin (with_errno w C.ENOTTY) []))
  /\ (w_stdin w = [] ->
      Linenoise cc hc ls w
      = Done (None, set_buf ls (<[0%nat := 0]> (buf ls)),
              with_stdin (with_errno w C.ENOTTY) [])).
Proof.
  intros Hbuf Htty Hs.
  assert (Hnl : Forall (fun b => b <> 10) s)
    by (eapply Forall_impl; [exact Hs | intros b [H1 H2]; exact H1]).
  assert (Hnz : Forall (fun b => b <> 0) s)
    by (eapply Forall_impl; [exact Hs | intros b [H1 H2]; exact H2]).
  unfold Linenoise. rewrite store_ok by lia. cbn [obind]. rewrite Htty.
  cbn [negb]. unfold LinenoiseNoTTY. change (Z.to_nat 0) with 0%nat.
  cbn [w_stdin with_errno].
  split; [| split].
  - intros ->. rewrite notty_loop_line by exact Hnl. cbn [app].
    rewrite as_cstr_text by exact Hnz. reflexivity.
  - intros -> Hne. rewrite notty_loop_end by exact Hnl. cbn [app].
    replace (Z.of_nat (length s) =? 0) with false
      by (symmetry; apply Z.eqb_neq; destruct s; [contradiction | cbn [length]; lia]).
    rewrite as_cstr_text by exact Hnz. reflexivity.
  - intros ->. reflexivity.
Qed.

Lemma piped_input_is_read_by_lines_witness :
  exists ls' w',
    Linenoise None None example_session
      (pipe (bytes_of_string "one" ++ 10 :: bytes_of_string "two"))
    = Done (Some (bytes_of_string "one"), ls', w')
    /\ w_stdin w' = bytes_of_string "two" /\ w_errno w' = C.ENOTTY
    /\ w_out w' = [].
Proof.
  destruct (piped_input_is_read_by_lines None None example_session
              (pipe (bytes_of_string "one" ++ 10 :: bytes_of_string "two"))
              (bytes_of_string "one") (bytes_of_string "two"))
    as (Hline & _).
  - vm_compute. reflexivity.
  - reflexivity.
  - repeat constructor; discriminate.
  - eexists _, _. split; [apply Hline; reflexivity |].
    repeat split.
Defined.

Lemma strip_trailing_cr_spec (s : list Z) :
  exists k,
    s = strip_trailing_cr s ++ replicate k 13
    /\ last (strip_trailing_cr s) <> Some 13.
Proof.
  induction s as [| b s (k & Hs & Hlast)]; [exists 0%nat; split; [reflexivity | discriminate] |].
  cbn [strip_trailing_cr]. destruct (strip_trailing_cr s) as [| c r] eqn:E.
  - destruct (b =? 13) eqn:Eb; zbool.
    + exists (S k). subst b. cbn [app] in *. rewrite Hs at 1.
      split; [reflexivity | discriminate].
    + exists k. cbn [app] in *. rewrite Hs at 1.
      split; [reflexivity |]. cbn. congruence.
  - exists k. split; [rewrite Hs at 1; reflexivity |].
    rewrite last_cons_cons. exact Hlast.
Qed.

Lemma strip_eol_run (t : list Z) :
  forall (p z : list Z) (fuel : nat),
    Forall (fun c => c = 10 \/ c = 13) t ->
    (forall c, last p = Some c -> c <> 10 /\ c <> 13) ->
    Z.of_nat (length p + length t) < C.SIZE_MAX1 ->
    (length p + length t < fuel)%nat ->
    strip_eol fuel (p ++ t ++ z) (Z.of_nat (length p + length t))
    = Done (p ++ replicate (length t) 0 ++ z).
Proof.
  induction t as [| c t IH] using rev_ind; intros p z fuel Ht Hp Hbig Hfuel.
  - destruct fuel as [| fuel]; [lia |]. cbn [app length replicate strip_eol].
    rewrite Nat.add_0_r.
    destruct (Z.of_nat (length p) =? 0) eqn:E0; zbool; cbn [negb]; [reflexivity |].
    destruct (last p) as [c |] eqn:El;
      [| apply last_None in El; subst p; cbn [length] in E0; lia].
    apply last_Some in El as [p' ->].
    rewrite length_app in *. cbn [length] in *.
    replace (Z.of_nat (length p' + 1) - 1) with (Z.of_nat (length p')) by lia.
    rewrite (load_of_lookup _ _ c).
    2:{ rewrite <- app_assoc. rewrite lookup_app_r by lia.
        rewrite Nat.sub_diag. reflexivity. }
    cbn [obind]. destruct (Hp c eq_refl) as [H10 H13].
    replace (c =? 10) with false by (symmetry; apply Z.eqb_neq; exact H10).
    replace (c =? 13) with false by (symmetry; apply Z.eqb_neq; exact H13).
    reflexivity.
  - destruct fuel as [| fuel]; [rewrite length_app in Hfuel; cbn in Hfuel; lia |].
    apply Forall_app in Ht as [Ht Hc]. apply Forall_cons_1 in Hc as [Hc _].
    rewrite length_app in *. cbn [length] in *. cbn [strip_eol].
    replace (Z.of_nat (length p + (length t + 1)) =? 0) with false
      by (symmetry; apply Z.eqb_neq; lia).
    cbn [negb].
    replace (Z.of_nat (length p + (length t + 1)) - 1)
      with (Z.of_nat (length p + length t)) by lia.
    assert (Hl : (p ++ (t ++ [c]) ++ z) !! (length p + length t)%nat = Some c).
    { rewrite lookup_app_r by lia. rewrite <- app_assoc.
      rewrite lookup_app_r by lia.
      replace (length p + length t - length p - length t)%nat with 0%nat by lia.
      reflexivity. }
    rewrite (load_of_lookup _ _ c Hl). cbn [obind].
    replace ((c =? 10) || (c =? 13)) with true
      by (symmetry; destruct Hc as [-> | ->]; reflexivity).
    rewrite size_t_small by lia.
    rewrite store_ok
      by (apply lookup_lt_Some in Hl; unfold Mem.size; lia).
    cbn [obind]. rewrite Nat2Z.id.
    assert (Hb : <[(length p + length t)%nat := 0]> (p ++ (t ++ [c]) ++ z)
                 = p ++ t ++ 0 :: z).
    { rewrite insert_app_r. f_equal. rewrite <- app_assoc.
      replace (length t) with (length t + 0)%nat at 1 by lia.
      rewrite insert_app_r. reflexivity. }
    rewrite Hb, IH by (assumption || lia).
    f_equal. f_equal. rewrite replicate_add, <- app_assoc. reflexivity.
Qed.

(** X22.  On a terminal whose [TERM] is in the list of unsupported
    terminals, [Linenoise] does not touch the terminal attributes and reads
    nothing from the input descriptor: it writes the prompt, takes a line of
    [stdin] that fits the buffer with its newline, and returns it without
    the newline and without the carriage returns before it. *)
Theorem unsupported_terminal_reads_stdin cc hc (ls : LinenoiseState) (w : world)
    (s rest : list Z) :
  allocated ls -> w_isatty w = true -> IsUnsupportedTerm w = true ->
  Forall (fun b => b <> 10 /\ b <> 0) s -> Z.of_nat (length s) + 1 < buflen ls ->
  w_stdin w = s ++ 10 :: rest ->
  exists ls' w',
    Linenoise cc hc ls w = Done (Some (strip_trailing_cr s), ls', w')
    /\ w_stdin w' = rest /\ w_in w' = w_in w /\ w_attr w' = w_attr w
    /\ (writes_succeed w -> w_out w' = w_out w ++ prompt ls ++ [13]).
Proof.
  intros [Hsize Hcap] Htty Hterm Hs Hfit Hin.
  assert (Hnz : Forall (fun b => b <> 0) s)
    by (eapply Forall_impl; [exact Hs | intros b [H1 H2]; exact H2]).
  assert (Hnl : Forall (fun b => b <> 10) s)
    by (eapply Forall_impl; [exact Hs | intros b [H1 H2]; exact H1]).
  unfold Linenoise. rewrite store_ok by lia. cbn [obind]. rewrite Htty.
  cbn [negb]. rewrite Hterm. cbv zeta. cbn [buflen prompt set_buf].
  rewrite int_small by lia.
  assert (Hstdin : w_stdin (snd (Sys.write w (prompt ls))) = s ++ 10 :: rest).
  { rewrite <- Hin. unfold Sys.write. destruct (w_wr w) as [| [] ?]; reflexivity. }
  rewrite Hstdin. unfold fgets.
  replace (buflen ls <=? 0) with false by (symmetry; apply Z.leb_gt; lia).
  rewrite fgets_line_entry by (exact Hs || lia).
  assert (Hmatch : forall (A : Type) (x y : A),
             match s ++ 10 :: rest with [] => x | _ :: _ => y end = y)
    by (intros A x y; destruct s; reflexivity).
  rewrite Hmatch. cbn [buf].
  unfold abAppend, Mem.size.
  replace ((0 <=? Z.of_nat (length (s ++ [10])) + 1)
           && (Z.of_nat (length (s ++ [10])) + 1
               <=? Z.of_nat (length ((s ++ [10]) ++ [0])))) with true
    by (symmetry; holds; rewrite !length_app; cbn [length]; lia).
  cbn [obind].
  replace (Z.to_nat (Z.of_nat (length (s ++ [10])) + 1))
    with (length ((s ++ [10]) ++ [0])) by (rewrite !length_app; cbn [length]; lia).
  rewrite take_ge by lia. cbn [app]. unfold offset, Mem.size.
  set (b0 := <[Z.to_nat 0 := 0]> (buf ls)).
  assert (Hb0 : length b0 = length (buf ls)) by (subst b0; apply length_insert).
  unfold Mem.size in Hsize. cbn [buf set_buf].
  set (tl := drop (Z.to_nat (Z.of_nat (length (s ++ [10])) + 1)) b0).
  match goal with
  | |- context [if ?c then Done tl else Undefined] =>
      replace c with true
        by (symmetry; holds; rewrite ?length_app; cbn [length]; lia)
  end.
  cbn [obind].
  destruct (strip_trailing_cr_spec s) as (k & Hsplit & Hlast).
  set (p := strip_trailing_cr s) in *.
  assert (Hbuf : ((s ++ [10]) ++ [0]) ++ tl
                 = p ++ (replicate k 13 ++ [10]) ++ 0 :: tl).
  { rewrite Hsplit at 1. rewrite <- !app_assoc. reflexivity. }
  rewrite Hbuf.
  assert (Hpnz : Forall (fun b => b <> 0) p).
  { rewrite Hsplit in Hnz. apply Forall_app in Hnz. tauto. }
  assert (Hpnl : Forall (fun b => b <> 10) p).
  { rewrite Hsplit in Hnl. apply Forall_app in Hnl. tauto. }
  assert (Hlen : length s = (length p + k)%nat).
  { rewrite Hsplit at 1. rewrite length_app, length_replicate. reflexivity. }
  unfold Mem.strlen.
  assert (Hcstr : Mem.cstr (p ++ (replicate k 13 ++ [10]) ++ 0 :: tl)
                  = Done (p ++ replicate k 13 ++ [10])).
  { rewrite (app_assoc p (replicate k 13 ++ [10])). apply cstr_app.
    apply Forall_app. split; [exact Hpnz |]. apply Forall_app.
    split; [apply Forall_replicate; discriminate | repeat constructor; discriminate]. }
  rewrite Hcstr. cbn [obind].
  replace (Z.of_nat (length (p ++ replicate k 13 ++ [10])))
    with (Z.of_nat (length p + length (replicate k 13 ++ [10])))
    by (rewrite !length_app; reflexivity).
  rewrite Nat2Z.id.
  rewrite strip_eol_run.
  - cbn [obind]. rewrite app_assoc.
    assert (Hz : exists r', replicate (length (replicate k 13 ++ [10])) 0 ++ 0 :: tl
                            = 0 :: r') by apply zeros_cons.
    destruct Hz as [r' Hz]. rewrite <- app_assoc, Hz.
    rewrite cstr_app by exact Hpnz. cbn [obind].
    eexists _, _. split; [reflexivity |].
    split; [unfold Sys.write; cbn; destruct (w_wr _) as [| [] ?]; reflexivity |].
    split.
    { rewrite write_snd_in. cbn [w_in with_stdin]. apply write_snd_in. }
    split.
    { unfold Sys.write. cbn [w_wr with_stdin snd].
      destruct (w_wr (snd _)) as [| [] ?]; cbn [snd w_attr with_out with_stdin];
        destruct (w_wr w) as [| [] ?]; reflexivity. }
    intros Hok. rewrite (write_ok w) by exact Hok. cbn [snd].
    rewrite write_ok.
    + cbn [snd w_out with_out with_stdin]. rewrite <- app_assoc. reflexivity.
    + unfold writes_succeed in *. cbn [w_wr with_out with_stdin].
      destruct (w_wr w) as [| ok wr]; [constructor |].
      apply Forall_cons_1 in Hok as [_ Hok]. exact Hok.
  - apply Forall_app. split; [apply Forall_replicate; auto | repeat constructor; auto].
  - intros c Hc. split.
    + intros ->. apply last_Some in Hc as [p' Hp'].
      rewrite Hp' in Hpnl. apply Forall_app in Hpnl as [_ Hpnl].
      apply Forall_cons_1 in Hpnl as [Hpnl _]. contradiction.
    + intros ->. contradiction.
  - rewrite length_app, length_replicate. cbn [length]. unfold C.SIZE_MAX1. lia.
  - lia.
Qed.

Lemma unsupported_terminal_reads_stdin_witness :
  exists ls' w',
    Linenoise None None example_session
      (term_tty "DUMB" (bytes_of_string "hi" ++ [13; 10] ++ bytes_of_string "more"))
    = Done (Some (bytes_of_string "hi"), ls', w')
    /\ w_stdin w' = bytes_of_string "more".
Proof.
  destruct example_session_ready as (Ha & _).
  destruct (unsupported_terminal_reads_stdin None None example_session
              (term_tty "DUMB" (bytes_of_string "hi" ++ [13; 10] ++ bytes_of_string "more"))
              (bytes_of_string "hi" ++ [13]) (bytes_of_string "more") Ha)
    as (ls' & w' & Hrun & Hstdin & _).
  - reflexivity.
  - vm_compute. reflexivity.
  - repeat constructor; discriminate.
  - vm_compute. reflexivity.
  - reflexivity.
  - exists ls', w'. split; [exact Hrun | exact Hstdin].
Defined.

(** ** Leaving the terminal *)

(** A [Linenoise] on a terminal that returns went through
    [EnableRawMode]; from there on the setup of the session and the
    terminal are kept. *)
Lemma Linenoise_tty_kept cc hc (ls : LinenoiseState) (w : world) r ls' w' :
  w_isatty w = true -> IsUnsupportedTerm w = false ->
  w_tcget_ok w = true -> w_tcset_ok w = true -> buflen ls <> 0 ->
  Linenoise cc hc ls w = Done (r, ls', w') ->
  exists b,
    kept (set_rawmode (set_orig_termios (set_buf ls b) (w_attr w)) false)
         (snd (EnableRawMode ls w)) ls' w'.
Proof.
  intros Htty Hterm Hget Hset Hbuf H.
  unfold Linenoise in H.
  destruct (Mem.store (buf ls) 0 0) as [l | |]; cbn [obind] in H; try discriminate H.
  exists l. rewrite Htty, Hterm in H. cbn [negb] in H.
  destruct (LinenoiseRaw cc hc (set_buf ls l) w) as [[[count l1] w1] | |] eqn:E0;
    cbn [obind] in H; try discriminate H.
  assert (Hk : kept (set_rawmode (set_orig_termios (set_buf ls l) (w_attr w)) false)
                 (snd (EnableRawMode ls w)) l1 w1).
  { clear H. unfold LinenoiseRaw in E0. cbn [buflen set_buf] in E0.
    replace (buflen ls =? 0) with false in E0 by (symmetry; apply Z.eqb_neq; exact Hbuf).
    unfold EnableRawMode, Sys.tcgetattr, Sys.tcsetattr in *.
    rewrite Htty, Hget, Hset in *. cbn [negb] in *.
    change (0 <? 0) with false in *. cbv iota in E0. cbn [snd].
    change (0 =? -1) with false in E0. cbv iota in E0.
    match type of E0 with
    | obind ?m _ = _ =>
        destruct m as [[[count0 l2] w2] | |] eqn:E; cbn [obind] in E0;
          try discriminate E0
    end.
    assert (Hk2 : kept (set_rawmode (set_orig_termios (set_buf ls l) (w_attr w)) false)
                    (with_attr w
                       {| c_iflag := Termios.clear (c_iflag (w_attr w))
                            (Z.lor Termios.BRKINT (Z.lor Termios.ICRNL
                              (Z.lor Termios.INPCK (Z.lor Termios.ISTRIP Termios.IXON))));
                          c_oflag := Termios.clear (c_oflag (w_attr w)) Termios.OPOST;
                          c_cflag := Termios.set (c_cflag (w_attr w)) Termios.CS8;
                          c_lflag := Termios.clear (c_lflag (w_attr w))
                            (Z.lor Termios.ECHO (Z.lor Termios.ICANON
                              (Z.lor Termios.IEXTEN Termios.ISIG)));
                          c_cc := <[Termios.VTIME := 0]>
                                    (<[Termios.VMIN := 1]> (c_cc (w_attr w))) |})
                    l2 w2).
    { unfold LinenoiseEdit in E.
      match type of E with
      | obind ?m _ = _ =>
          destruct m as [l0 | |]; cbn [obind] in E; try discriminate E
      end.
      destruct (Sys.write _ l0) as [n w3] eqn:Ew. apply write_kept in Ew.
      eapply kept_trans; [split; [reflexivity | exact Ew] |].
      destruct (n =? -1); [injection E as _ <- <-; apply kept_refl |].
      apply edit_loop_turns in E. eapply after_turns_kept. exact E. }
    eapply kept_trans; [exact Hk2 |].
    assert (Hraw : rawmode l2 = false).
    { destruct Hk2 as (Hs & _). unfold setup in Hs.
      injection Hs as _ _ _ _ _ _ _ _ Hraw _ _ _. exact Hraw. }
    unfold DisableRawMode in E0. rewrite Hraw in E0. injection E0 as _ <- <-.
    apply write_snd_kept. }
  eapply kept_trans; [exact Hk |].
  destruct (count =? -1); [injection H as _ <- <-; apply kept_refl |].
  destruct (Mem.cstr (buf l1)); cbn [obind] in H; try discriminate H.
  injection H as _ <- <-. apply write_snd_kept.
Qed.

(** X23.  A [Linenoise] on a terminal returns with the terminal still in
    the attributes [EnableRawMode] gave it, and with the attributes it
    found saved in the session; [LinenoiseRestore] then puts the terminal
    back to the attributes found, and empties the history. *)
Theorem restore_puts_attributes_back cc hc (ls : LinenoiseState) (w : world)
    (r : option (list Z)) (ls' : LinenoiseState) (w' : world) :
  w_isatty w = true -> IsUnsupportedTerm w = false ->
  w_tcget_ok w = true -> w_tcset_ok w = true -> buflen ls <> 0 ->
  Linenoise cc hc ls w = Done (r, ls', w') ->
  w_attr w' = w_attr (snd (EnableRawMode ls w))
  /\ orig_termios ls' = w_attr w
  /\ w_attr (snd (LinenoiseRestore ls' w')) = w_attr w
  /\ history (fst (LinenoiseRestore ls' w')) = [].
Proof.
  intros Htty Hterm Hget Hset Hbuf H.
  destruct (Linenoise_tty_kept cc hc ls w r ls' w' Htty Hterm Hget Hset Hbuf H)
    as (b & Hs & Ht & _).
  unfold setup in Hs. injection Hs as _ _ _ _ _ _ _ _ Hraw _ Horig _.
  unfold terminal in Ht. injection Ht as _ Hattr _ Hset' _ _.
  cbn [rawmode orig_termios set_rawmode set_orig_termios set_buf] in Hraw, Horig.
  assert (Hset1 : w_tcset_ok w' = true).
  { rewrite Hset'. unfold EnableRawMode, Sys.tcgetattr, Sys.tcsetattr.
    rewrite Htty, Hget, Hset. exact Hset. }
  split; [exact Hattr |]. split; [exact Horig |].
  unfold LinenoiseRestore, DisableRawMode, Sys.tcsetattr.
  rewrite Hraw, Hset1. cbn [snd fst w_attr with_attr]. rewrite Horig.
  split; reflexivity.
Qed.

Lemma restore_puts_attributes_back_witness :
  exists r ls' w',
    Linenoise None None example_session (tty (bytes_of_string "hi" ++ [Key.ENTER]))
    = Done (r, ls', w')
    /\ w_attr w' <> zero_termios
    /\ w_attr (snd (LinenoiseRestore ls' w')) = zero_termios.
Proof.
  destruct (Linenoise None None example_session
              (tty (bytes_of_string "hi" ++ [Key.ENTER])))
    as [[[r ls'] w'] | |] eqn:E; [| vm_compute in E; discriminate E ..].
  destruct (tty_ready (bytes_of_string "hi" ++ [Key.ENTER]))
    as (Htty & Hterm & Hget & Hset & _).
  assert (Hbuf : buflen example_session <> 0) by (vm_compute; discriminate).
  destruct (restore_puts_attributes_back None None example_session
              (tty (bytes_of_string "hi" ++ [Key.ENTER])) r ls' w'
              Htty Hterm Hget Hset Hbuf E) as (Hraw & _ & Hback & _).
  exists r, ls', w'. split; [reflexivity |]. split; [| exact Hback].
  rewrite Hraw. vm_compute. discriminate.
Defined.

(** ** Escape sequences *)

Ltac literal_tests :=
  repeat match goal with
         | |- context [?a =? ?b] =>
             let v := eval vm_compute in (a =? b) in
             progress change (a =? b) with v
         | |- context [?a <=? ?b] =>
             let v := eval vm_compute in (a <=? b) in
             progress change (a <=? b) with v
         end.

(** X24.  The escape sequences of the arrow keys, Home, End and Delete do
    in a turn of the editing loop exactly what the control keys do: up and
    down are CTRL-P and CTRL-N, right and left are CTRL-F and CTRL-B, Home
    and End (in both their forms) are CTRL-A and CTRL-E, and Delete is
    CTRL-D on a line that is not empty. *)
Theorem escape_sequences_act_as_control_keys cc hc (ls : LinenoiseState)
    (w : world) (seq : list Z) (key : Z) (rest : list rd_event) :
  In (seq, key)
     [([91; 65], Key.CTRL_P); ([91; 66], Key.CTRL_N); ([91; 67], Key.CTRL_F);
      ([91; 68], Key.CTRL_B); ([91; 72], Key.CTRL_A); ([91; 70], Key.CTRL_E);
      ([79; 72], Key.CTRL_A); ([79; 70], Key.CTRL_E);
      ([91; 51; 126], Key.CTRL_D)] ->
  (key = Key.CTRL_D -> 0 < len ls) ->
  w_in w = map RdByte (Key.ESC :: seq) ++ rest ->
  edit_turn cc hc ls w = edit_turn cc hc ls (with_in w (RdByte key :: rest)).
Proof.
  intros Hin Hdel Hw. destruct w as [ti ta tg ts tin tout terr twr tterm tstdin terrno].
  cbn [w_in] in Hw. subst tin.
  cbn [In] in Hin.
  repeat (destruct Hin as [[= <- <-] | Hin]); [.. | contradiction];
    unfold edit_turn, Sys.read; cbn [w_in with_in map app];
    unfold Key.ESC, Key.CTRL_P, Key.CTRL_N, Key.CTRL_F, Key.CTRL_B, Key.CTRL_A,
      Key.CTRL_E, Key.CTRL_D in *;
    (destruct cc as [cb |]; literal_tests; cbv iota);
    unfold dispatch, dispatch_escape, Sys.read;
    unfold Key.ENTER, Key.CTRL_C, Key.BACKSPACE, Key.CTRL_D, Key.CTRL_T,
      Key.CTRL_B, Key.CTRL_F, Key.CTRL_P, Key.CTRL_N, Key.ESC, Key.CTRL_U,
      Key.CTRL_K, Key.CTRL_A, Key.CTRL_E, Key.CTRL_L, Key.CTRL_W;
    literal_tests; cbn [orb andb w_in with_in
                        w_isatty w_attr w_tcget_ok w_tcset_ok w_out w_err w_wr
                        w_term w_stdin w_errno]; literal_tests;
    cbn [orb andb]; try reflexivity;
    replace (len ls >? 0) with true
      by (symmetry; apply Z.gtb_lt; apply Hdel; reflexivity);
    reflexivity.
Qed.

Lemma escape_sequences_act_as_control_keys_witness :
  edit_turn None None (small_session (bytes_of_string "hello") 15 20)
    (tty [Key.ESC; 91; 68; 33])
  = edit_turn None None (small_session (bytes_of_string "hello") 15 20)
      (tty [Key.CTRL_B; 33]).
Proof.
  apply (escape_sequences_act_as_control_keys None None
           (small_session (bytes_of_string "hello") 15 20)
           (tty [Key.ESC; 91; 68; 33]) [91; 68] Key.CTRL_B [RdByte 33]).
  - cbn [In]. tauto.
  - discriminate.
  - reflexivity.
Defined.

(** X25.  An escape sequence that is none of the recognised ones is
    swallowed: the two bytes after ESC are taken off the input, whatever
    they are, and the session and the output are left as they were. *)
Theorem unknown_escape_is_ignored cc hc (ls : LinenoiseState) (w : world)
    (s0 s1 : Z) (rest : list rd_event) :
  (s0 = 91 -> (s1 < 48 \/ 57 < s1) /\ ~ In s1 [65; 66; 67; 68; 70; 72]) ->
  (s0 = 79 -> s1 <> 72 /\ s1 <> 70) ->
  w_in w = map RdByte [Key.ESC; s0; s1] ++ rest ->
  edit_turn cc hc ls w = Done (Continue, ls, with_in w rest).
Proof.
  intros Hcsi Hss3 Hw. destruct w as [ti ta tg ts tin tout terr twr tterm tstdin terrno].
  cbn [w_in] in Hw. subst tin.
  unfold edit_turn, Sys.read. cbn [w_in with_in map app]. unfold Key.ESC.
  assert (Hgo : dispatch hc 27 ls
                  (with_in
                     {| w_isatty := ti; w_attr := ta;
                        w_tcget_ok := tg; w_tcset_ok := ts;
                        w_in := RdByte 27 :: RdByte s0 :: RdByte s1 :: rest;
                        w_out := tout; w_err := terr; w_wr := twr;
                        w_term := tterm; w_stdin := tstdin;
                        w_errno := terrno |}
                     (RdByte s0 :: RdByte s1 :: rest))
                = Done (Continue, ls,
                        with_in
                          {| w_isatty := ti; w_attr := ta;
                             w_tcget_ok := tg; w_tcset_ok := ts;
                             w_in := RdByte 27 :: RdByte s0 :: RdByte s1 :: rest;
                             w_out := tout; w_err := terr; w_wr := twr;
                             w_term := tterm; w_stdin := tstdin;
                             w_errno := terrno |} rest)).
  { unfold dispatch, dispatch_escape, Sys.read.
    unfold Key.ENTER, Key.CTRL_C, Key.BACKSPACE, Key.CTRL_D, Key.CTRL_T,
      Key.CTRL_B, Key.CTRL_F, Key.CTRL_P, Key.CTRL_N, Key.ESC.
    literal_tests. cbn [orb andb w_in with_in]. 
    destruct (s0 =? 91) eqn:E0; zbool.
    - destruct (Hcsi E0) as [Hd Hn]. cbn [In] in Hn.
      replace ((48 <=? s1) && (s1 <=? 57)) with false
        by (symmetry; apply andb_false_iff; rewrite Z.leb_gt, Z.leb_gt; lia).
      repeat match goal with
             | |- context [s1 =? ?k] =>
                 replace (s1 =? k) with false by (symmetry; apply Z.eqb_neq; lia)
             end.
      reflexivity.
    - destruct (s0 =? 79) eqn:E1; zbool; [| reflexivity].
      destruct (Hss3 E1) as [H1 H2].
      replace (s1 =? 72) with false by (symmetry; apply Z.eqb_neq; lia).
      replace (s1 =? 70) with false by (symmetry; apply Z.eqb_neq; lia).
      reflexivity. }
  destruct cc as [cb |]; [change (27 =? 9) with false; cbv iota |]; exact Hgo.
Qed.

Lemma unknown_escape_is_ignored_witness :
  edit_turn None None (small_session (bytes_of_string "hello") 15 20)
    (tty [Key.ESC; 120; 33; 34])
  = Done (Continue, small_session (bytes_of_string "hello") 15 20, tty [34]).
Proof.
  apply (unknown_escape_is_ignored None None
           (small_session (bytes_of_string "hello") 15 20)
           (tty [Key.ESC; 120; 33; 34]) 120 33 [RdByte 34]).
  - discriminate.
  - discriminate.
  - reflexivity.
Defined.

(** ** From creation to the first line *)

(** The session [LinenoiseCreate] returns. *)
Lemma LinenoiseCreate_returns (fi fo fe : Z) (text : list Z) (columns : Z) :
  LinenoiseCreate fi fo fe text columns
  = Done {| ifd := fi; ofd := fo; efd := fe;
            buf := replicate (Z.to_nat LINENOISE_MAX_LINE) 0;
            buflen := LINENOISE_MAX_LINE - 1;
            prompt := text; plen := Z.of_nat (length text);
            pos := 0; oldpos := 0; len := 0;
            cols := C.size_t columns; maxrows := 0; history_index := 0;
            orig_termios := zero_termios;
            rawmode := false; mlmode := false; nonblock := false;
            history_max_len := LINENOISE_DEFAULT_HISTORY_MAX_LEN;
            history := [[]] |}.
Proof. reflexivity. Qed.

(** X26.  A session made by [LinenoiseCreate] with a prompt narrower than
    the terminal is ready for [Linenoise]: on a terminal, text of less
    than [LINENOISE_MAX_LINE] bytes typed before ENTER is returned, and
    the history, which held the empty entry of the creation, is left
    empty. *)
Theorem created_session_reads_typed_line cc hc (fi fo fe : Z) (text : list Z)
    (columns : Z) (w : world) (s : list Z) (rest : list rd_event) :
  Z.of_nat (length text) < columns < 2 ^ 31 -> short_hints hc ->
  w_isatty w = true -> IsUnsupportedTerm w = false ->
  w_tcget_ok w = true -> w_tcset_ok w = true -> writes_succeed w ->
  Forall plain s -> Z.of_nat (length s) < LINENOISE_MAX_LINE ->
  w_in w = map RdByte (s ++ [Key.ENTER]) ++ rest ->
  exists ls ls' w',
    LinenoiseCreate fi fo fe text columns = Done ls
    /\ history ls = [[]]
    /\ Linenoise cc hc ls w = Done (Some s, ls', w')
    /\ w_in w' = rest /\ history ls' = [].
Proof.
  intros Hcols Hh Htty Hterm Hget Hset Hok Hs Hfit Hin.
  rewrite LinenoiseCreate_returns.
  set (ls := {| ifd := fi; history := [[]] |}).
  assert (Hc : cols ls = columns)
    by (apply size_t_small; unfold C.SIZE_MAX1; lia).
  assert (Ha : allocated ls).
  { split.
    - unfold Mem.size. cbn [buf buflen ls]. rewrite length_replicate.
      unfold LINENOISE_MAX_LINE. lia.
    - cbn [buflen ls]. unfold LINENOISE_MAX_LINE. lia. }
  assert (Hr : renders hc ls).
  { split; [rewrite Hc; lia |]. split; [| exact Hh].
    intros _. rewrite Hc. cbn [prompt ls]. lia. }
  assert (Hb : 0 < buflen ls) by (cbn [buflen ls]; unfold LINENOISE_MAX_LINE; lia).
  assert (Hfit' : Z.of_nat (length s) <= buflen ls)
    by (cbn [buflen ls]; unfold LINENOISE_MAX_LINE in *; lia).
  destruct (Linenoise_returns_typed cc hc ls w s rest
              Ha Hb eq_refl eq_refl eq_refl Hr Htty Hterm Hget Hset Hok Hs Hfit' Hin)
    as (ls' & w' & Hrun & _ & Hin' & Hh').
  exists ls, ls', w'. split; [reflexivity |]. split; [reflexivity |].
  split; [exact Hrun |]. split; [exact Hin' | exact Hh'].
Qed.

Lemma created_session_reads_typed_line_witness :
  exists ls ls' w',
    LinenoiseCreate 0 1 2 example_prompt 80 = Done ls
    /\ Linenoise None None ls (tty (bytes_of_string "hi" ++ [Key.ENTER]))
       = Done (Some (bytes_of_string "hi"), ls', w')
    /\ history ls' = [].
Proof.
  destruct (tty_ready (bytes_of_string "hi" ++ [Key.ENTER]))
    as (Htty & Hterm & Hget & Hset & Hok).
  destruct (created_session_reads_typed_line None None 0 1 2 example_prompt 80
              (tty (bytes_of_string "hi" ++ [Key.ENTER])) (bytes_of_string "hi") [])
    as (ls & ls' & w' & Hc & _ & Hrun & _ & Hh'); try assumption.
  - vm_compute. split; reflexivity.
  - intros cb s h c b [=].
  - exact plain_hi.
  - vm_compute. reflexivity.
  - reflexivity.
  - exists ls, ls', w'. split; [exact Hc |]. split; [exact Hrun | exact Hh'].
Defined.

(** ** Loading a history file *)

Lemma cut_at_some (c : Z) (s r : list Z) :
  cut_at c s = Some r ->
  Forall (fun b => b <> c) r /\ exists t, s = r ++ c :: t.
Proof.
  revert r. induction s as [| b s IH]; intros r H; [discriminate H |].
  cbn [cut_at] in H. destruct (b =? c) eqn:E; zbool.
  - injection H as <-. subst b. split; [constructor | exists s; reflexivity].
  - destruct (cut_at c s) as [r' |]; [| discriminate H]. injection H as <-.
    destruct (IH r' eq_refl) as [Hr [t ->]].
    split; [constructor; assumption | exists t; reflexivity].
Qed.

Lemma cut_at_none (c : Z) (s : list Z) :
  cut_at c s = None -> Forall (fun b => b <> c) s.
Proof.
  induction s as [| b s IH]; intros H; [constructor |].
  cbn [cut_at] in H. destruct (b =? c) eqn:E; zbool; [discriminate H |].
  destruct (cut_at c s); [discriminate H |]. constructor; auto.
Qed.

Lemma as_cstr_shape (line : list Z) :
  Forall (fun b => b <> 0) (as_cstr line) /\ exists t, line = as_cstr line ++ t.
Proof.
  unfold as_cstr. induction line as [| b line [IH1 [t IH2]]].
  - split; [constructor | exists []; reflexivity].
  - cbn [Mem.until_nul]. destruct (b =? 0) eqn:E; zbool.
    + split; [constructor | exists (b :: line); reflexivity].
    + destruct (Mem.until_nul line) as [s |].
      * split; [constructor; assumption |]. exists t. cbn [app]. congruence.
      * split; [constructor; assumption |]. exists []. rewrite app_nil_r. reflexivity.
Qed.

(** What [fgets] stores: fewer bytes than the size given, with a newline
    in the last place only. *)
Lemma fgets_line_shape (n : nat) :
  forall (s line rest : list Z),
    fgets_line n s = (line, rest) ->
    (length line <= n)%nat
    /\ forall pre post, line = pre ++ 10 :: post -> post = [].
Proof.
  induction n as [| n IH]; intros s line rest H.
  - cbn in H. injection H as <- <-. split; [cbn; lia |].
    intros [| ? ?] post Hp; discriminate Hp.
  - destruct s as [| c s].
    { injection H as <- <-. split; [cbn; lia |].
      intros [| ? ?] post Hp; discriminate Hp. }
    cbn [fgets_line] in H. destruct (c =? 10) eqn:E; zbool.
    + injection H as <- <-. split; [cbn; lia |].
      intros [| ? [| ? ?]] post Hp; try discriminate Hp.
      injection Hp as _ <-. reflexivity.
    + destruct (fgets_line n s) as [l r] eqn:El. injection H as <- <-.
      destruct (IH s l r El) as [Hlen Hlf]. split; [cbn; lia |].
      intros [| b pre] post Hp; injection Hp as Hc Hl; [lia |].
      eapply Hlf. exact Hl.
Qed.

Lemma fgets_shape (n : Z) (stream line rest : list Z) :
  fgets n stream = Some (line, rest) ->
  Z.of_nat (length line) < n
  /\ forall pre post, line = pre ++ 10 :: post -> post = [].
Proof.
  unfold fgets. destruct (n <=? 0) eqn:E; zbool; [discriminate |].
  destruct stream as [| c s]; [discriminate |]. intros [= H].
  apply fgets_line_shape in H as [Hlen Hlf]. split; [lia | exact Hlf].
Qed.

(** The entry made of a line read by [fgets]. *)
Lemma load_line_clean (line : list Z) :
  (forall pre post, line = pre ++ 10 :: post -> post = []) ->
  Forall (fun b => b <> 0 /\ b <> 10 /\ b <> 13) (load_line line)
  /\ (length (load_line line) <= length line)%nat.
Proof.
  intros Hlf. unfold load_line.
  destruct (as_cstr_shape line) as [Hnz [t Ht]].
  set (s := as_cstr line) in *.
  assert (Hs : (length s <= length line)%nat)
    by (pose proof (f_equal length Ht) as Hl; rewrite length_app in Hl; lia).
  destruct (cut_at 13 s) as [r |] eqn:E13.
  - apply cut_at_some in E13 as [Hr [u Hu]]. split.
    + rewrite Hu in Hnz. apply Forall_app in Hnz as [Hnz _].
      apply Forall_forall. intros b Hb.
      split; [exact (proj1 (Forall_forall _ _) Hnz b Hb) |].
      split; [| exact (proj1 (Forall_forall _ _) Hr b Hb)].
      intros ->. apply list_elem_of_split in Hb as (r1 & r2 & ->).
      assert (Heq : line = r1 ++ 10 :: (r2 ++ 13 :: u ++ t)).
      { rewrite Ht, Hu, <- !app_assoc. cbn [app]. rewrite <- ?app_assoc.
        reflexivity. }
      apply Hlf in Heq. destruct r2; discriminate Heq.
    + rewrite Hu, length_app in Hs. lia.
  - apply cut_at_none in E13.
    destruct (cut_at 10 s) as [r |] eqn:E10.
    + apply cut_at_some in E10 as [Hr [u Hu]]. rewrite Hu in Hnz, E13, Hs.
      apply Forall_app in Hnz as [Hnz _]. apply Forall_app in E13 as [E13 _].
      rewrite length_app in Hs. split; [| lia].
      apply Forall_forall. intros b Hb.
      split; [exact (proj1 (Forall_forall _ _) Hnz b Hb) |].
      split; [exact (proj1 (Forall_forall _ _) Hr b Hb)
             | exact (proj1 (Forall_forall _ _) E13 b Hb)].
    + apply cut_at_none in E10. split; [| exact Hs].
      apply Forall_forall. intros b Hb.
      split; [exact (proj1 (Forall_forall _ _) Hnz b Hb) |].
      split; [exact (proj1 (Forall_forall _ _) E10 b Hb)
             | exact (proj1 (Forall_forall _ _) E13 b Hb)].
Qed.

Lemma history_load_loop_bounded (h0 : list (list Z)) (fuel : nat) :
  forall (ls : LinenoiseState) (stream : list Z),
    (length stream < fuel)%nat ->
    history_len ls <= history_max_len ls ->
    Forall (fun e => In e h0
                     \/ (Forall (fun b => b <> 0 /\ b <> 10 /\ b <> 13) e
                         /\ Z.of_nat (length e) < LINENOISE_MAX_LINE))
           (history ls) ->
    exists ls',
      history_load_loop fuel ls stream = Done ls'
      /\ history_len ls' <= history_max_len ls'
      /\ history_max_len ls' = history_max_len ls
      /\ Forall (fun e => In e h0
                          \/ (Forall (fun b => b <> 0 /\ b <> 10 /\ b <> 13) e
                              /\ Z.of_nat (length e) < LINENOISE_MAX_LINE))
                (history ls').
Proof.
  induction fuel as [| fuel IH]; intros ls stream Hfuel Hb Hall; [lia |].
  cbn [history_load_loop].
  destruct (fgets LINENOISE_MAX_LINE stream) as [[line rest] |] eqn:E.
  2: { exists ls. repeat split; assumption. }
  pose proof (fgets_consumes _ _ _ E) as Hrest.
  apply fgets_shape in E as [Hlen Hlf].
  destruct (load_line_clean line Hlf) as [Hclean Hshort].
  destruct (LinenoiseHistoryAdd_spec ls (load_line line) Hb)
    as (r & l' & Hadd & Hb' & Hmax & _ & Hsame & Hnew).
  rewrite Hadd. cbn [obind].
  destruct (IH l' rest) as (ls' & Hrun & Hb'' & Hmax' & Hall'); [lia | exact Hb' | |].
  - destruct (Z.eq_dec r 0) as [Hr | Hr]; [rewrite (Hsame Hr); exact Hall |].
    destruct (Hnew Hr) as (_ & _ & _ & ->). apply Forall_app. split.
    + destruct (history_len ls =? history_max_len ls);
        [apply Forall_drop |]; exact Hall.
    + constructor; [| constructor]. right. split; [exact Hclean | lia].
  - exists ls'. split; [exact Hrun |]. split; [exact Hb'' |].
    split; [congruence | exact Hall'].
Qed.

(** X27.  Whatever the history file holds, [LinenoiseHistoryLoad] of a
    session whose history is within its bound ends with 0 and leaves the
    history within the same bound; every entry it leaves is one the
    history held or a piece of a line of the file, shorter than
    [LINENOISE_MAX_LINE], with no NUL, newline or carriage return in
    it. *)
Theorem history_load_keeps_bound (ls : LinenoiseState) (file : list Z) :
  history_len ls <= history_max_len ls ->
  exists ls',
    LinenoiseHistoryLoad ls (Some file) = Done (0, ls')
    /\ history_len ls' <= history_max_len ls'
    /\ history_max_len ls' = history_max_len ls
    /\ Forall (fun e => In e (history ls)
                        \/ (Forall (fun b => b <> 0 /\ b <> 10 /\ b <> 13) e
                            /\ Z.of_nat (length e) < LINENOISE_MAX_LINE))
              (history ls').
Proof.
  intros Hb. unfold LinenoiseHistoryLoad.
  destruct (history_load_loop_bounded (history ls) (S (length file)) ls file)
    as (ls' & Hrun & Hb' & Hmax & Hall); [lia | exact Hb | |].
  - apply Forall_forall. intros e He. left. apply list_elem_of_In. exact He.
  - rewrite Hrun. cbn [obind]. exists ls'. repeat split; assumption.
Qed.

Lemma history_load_keeps_bound_witness :
  exists ls',
    LinenoiseHistoryLoad example_session
      (Some (bytes_of_string "ls" ++ [13; 10] ++ bytes_of_string "cd" ++ [10]))
    = Done (0, ls')
    /\ history_len ls' <= history_max_len ls'.
Proof.
  destruct (history_load_keeps_bound example_session
              (bytes_of_string "ls" ++ [13; 10] ++ bytes_of_string "cd" ++ [10]))
    as (ls' & Hrun & Hb & _).
  - vm_compute. discriminate.
  - exists ls'. split; [exact Hrun | exact Hb].
Defined.
